(** * slackblocks: construction and resolution of Slack Block Kit payloads

    A shallow embedding of the Python package [slackblocks] (elements, blocks,
    views and modal responses) together with theorems about its constructors
    and its [_resolve] serialisation protocol.

    Conventions of the embedding.
    - A Python class is a record named after the class; its methods live in a
      module of the same name ([Text._resolve], [Text.to_text], ...).
    - A call that may raise returns a [Result]; the exception classes that the
      package can reach are the constructors of [exn].
    - An attribute that may hold [None] is an [option]; calling a method on it
      goes through [deref], which raises [AttributeError] on [None].
    - A resolved payload is a [dict]: an association list in insertion order,
      as Python dictionaries are.
    - Python truthiness ([if x:]) is written out by the [truthy_*] functions. *)

From Stdlib Require Import String Ascii List ZArith Bool Lia DecimalString.
Import ListNotations.
Open Scope string_scope.
Set Warnings "-register-all".

(* ================================================================== *)
(** ** Python runtime: exceptions and results *)

(** Modelled from the spec: the class [InvalidUsageError] of
    [slackblocks/errors.py], a file that is not among the sources; it is the
    usage/validation error of the specification, raised at the point of
    violation with a human-readable description.  [TypeError] and
    [AttributeError] are Python's own. *)
Inductive exn : Type :=
| InvalidUsageError (msg : string)
| TypeError (msg : string)
| AttributeError (msg : string).

Inductive Result (A : Type) : Type :=
| Ok (a : A)
| Raise (e : exn).

Arguments Ok {A} a.
Arguments Raise {A} e.

Definition bind {A B : Type} (r : Result A) (k : A -> Result B) : Result B :=
  match r with
  | Ok a => k a
  | Raise e => Raise e
  end.

Notation "x <- r ;; k" := (bind r (fun x => k))
  (at level 61, r at next level, right associativity).

(** [[f(x) for x in xs]]: the comprehension stops at the first exception. *)
Fixpoint comprehension {A B : Type} (f : A -> Result B) (xs : list A)
  : Result (list B) :=
  match xs with
  | [] => Ok []
  | x :: rest =>
      y <- f x ;;
      ys <- comprehension f rest ;;
      Ok (y :: ys)
  end.

(** Method call on a reference that may be [None]. *)
Definition deref {A : Type} (o : option A) : Result A :=
  match o with
  | Some a => Ok a
  | None => Raise (AttributeError "'NoneType' object has no attribute '_resolve'")
  end.

(** Truthiness of the Python values the package tests with [if]. *)
Definition truthy_str (s : string) : bool :=
  match s with
  | EmptyString => false
  | String _ _ => true
  end.

Definition truthy_int (z : Z) : bool := negb (Z.eqb z 0).

Definition truthy_list {A : Type} (l : list A) : bool :=
  match l with
  | [] => false
  | _ :: _ => true
  end.

(** [None] is falsy; otherwise the value decides. *)
Definition truthy_opt {A : Type} (t : A -> bool) (o : option A) : bool :=
  match o with
  | Some a => t a
  | None => false
  end.

(** An instance of a class without [__bool__] or [__len__] is always truthy. *)
Definition truthy_obj {A : Type} (_ : A) : bool := true.

(* ================================================================== *)
(** ** Enumerations *)

Module ElementType.
Inductive t : Type :=
| TEXT | IMAGE | TIME_PICKER | DATE_PICKER | STATIC_SELECT | CHECKBOXES
| MULTI_USERS_SELECT | BUTTON | CONFIRM | PLAIN_TEXT_INPUT.

Definition value (x : t) : string :=
  match x with
  | TEXT => "text"
  | IMAGE => "image"
  | TIME_PICKER => "timepicker"
  | DATE_PICKER => "datepicker"
  | STATIC_SELECT => "static_select"
  | CHECKBOXES => "checkboxes"
  | MULTI_USERS_SELECT => "multi_users_select"
  | BUTTON => "button"
  | CONFIRM => "confirm"
  | PLAIN_TEXT_INPUT => "plain_text_input"
  end.

Definition eqb (x y : t) : bool :=
  match x, y with
  | TEXT, TEXT | IMAGE, IMAGE | TIME_PICKER, TIME_PICKER
  | DATE_PICKER, DATE_PICKER | STATIC_SELECT, STATIC_SELECT
  | CHECKBOXES, CHECKBOXES | MULTI_USERS_SELECT, MULTI_USERS_SELECT
  | BUTTON, BUTTON | CONFIRM, CONFIRM
  | PLAIN_TEXT_INPUT, PLAIN_TEXT_INPUT => true
  | _, _ => false
  end.
End ElementType.

Module TextType.
Inductive t : Type := MARKDOWN | PLAINTEXT.

Definition value (x : t) : string :=
  match x with
  | MARKDOWN => "mrkdwn"
  | PLAINTEXT => "plain_text"
  end.

Definition eqb (x y : t) : bool :=
  match x, y with
  | MARKDOWN, MARKDOWN | PLAINTEXT, PLAINTEXT => true
  | _, _ => false
  end.
End TextType.

(** [==] between enumeration members: members of different [Enum] classes
    never compare equal. *)
Inductive enum_member : Type :=
| OfElementType (x : ElementType.t)
| OfTextType (x : TextType.t).

Definition enum_eqb (a b : enum_member) : bool :=
  match a, b with
  | OfElementType x, OfElementType y => ElementType.eqb x y
  | OfTextType x, OfTextType y => TextType.eqb x y
  | _, _ => false
  end.

(* ================================================================== *)
(** ** Element classes: instance state *)

(** [Text]: [verbatim] and [emoji] hold a bool or [None]. *)
Record Text : Type := mkText {
  Text_text_type : TextType.t;
  Text_text : string;
  Text_verbatim : option bool;
  Text_emoji : option bool
}.

(** An argument annotated [Union[str, Text]]; [Optional[...]] of it is an
    [option]. *)
Inductive str_or_Text : Type :=
| OfStr (s : string)
| OfText (t : Text).

Record Image : Type := mkImage {
  Image_image_url : string;
  Image_alt_text : string
}.

Record Confirm : Type := mkConfirm {
  Confirm_title : option Text;
  Confirm_text : option Text;
  Confirm_confirm : option Text;
  Confirm_deny : option Text
}.

Record Button : Type := mkButton {
  Button_text : option Text;
  Button_action_id : string;
  Button_url : option string;
  Button_value : option string;
  Button_style : option string;
  Button_confirm : option Confirm
}.

Record DispatchActionConfig : Type := mkDispatchActionConfig {
  DispatchActionConfig_on_character_entered : bool;
  DispatchActionConfig_on_enter_pressed : bool
}.

Record TextInput : Type := mkTextInput {
  TextInput_action_id : string;
  TextInput_placeholder : option Text;
  TextInput_initial_value : option string;
  TextInput_multiline : bool;
  TextInput_min_length : option Z;
  TextInput_max_length : option Z;
  TextInput_dispatch_config : option DispatchActionConfig
}.

Record OptionObject : Type := mkOptionObject {
  OptionObject_text : option Text;
  OptionObject_value : string;
  OptionObject_description : option Text;
  OptionObject_url : option string
}.

Record OptionGroup : Type := mkOptionGroup {
  OptionGroup_label : option Text;
  OptionGroup_options : list OptionObject
}.

(** [StaticSelect.initial_option] is annotated [Optional[str]] but resolved
    with [._resolve()]: both kinds of value can reach it. *)
Inductive str_or_OptionObject : Type :=
| InitialStr (s : string)
| InitialOption (o : OptionObject).

Record StaticSelect : Type := mkStaticSelect {
  StaticSelect_action_id : string;
  StaticSelect_options : option (list OptionObject);
  StaticSelect_option_group : option OptionGroup;
  StaticSelect_placeholder : option Text;
  StaticSelect_initial_option : option str_or_OptionObject;
  StaticSelect_confirm : option Confirm
}.

Record CheckboxSelector : Type := mkCheckboxSelector {
  CheckboxSelector_action_id : string;
  CheckboxSelector_options : option (list OptionObject);
  CheckboxSelector_initial_options : option (list OptionObject);
  CheckboxSelector_confirm : option Confirm
}.

Record MultiUsersSelect : Type := mkMultiUsersSelect {
  MultiUsersSelect_action_id : string;
  MultiUsersSelect_initial_users : option (list string);
  MultiUsersSelect_placeholder : option Text;
  MultiUsersSelect_max_selected_items : option Z;
  MultiUsersSelect_confirm : option Confirm
}.

(** [datetime.time] and [datetime.datetime], as far as [strftime] with the
    formats ["%H:%M"] and ["%Y-%m-%d"] reads them.  Both are always truthy
    (Python 3.5 and later).  Their constructors accept the hours 0 to 23, the
    minutes 0 to 59, the years 1 to 9999, the months 1 to 12 and the days 1
    to 31 at most, and raise [ValueError] outside these ranges. *)
Record time : Type := mk_time { hour : nat; minute : nat }.
Record datetime : Type := mk_datetime { year : nat; month : nat; day : nat }.

Record TimePicker : Type := mkTimePicker {
  TimePicker_action_id : string;
  TimePicker_placeholder : option Text;
  TimePicker_initial_time : option time;
  TimePicker_confirm : option Confirm
}.

Record DatePicker : Type := mkDatePicker {
  DatePicker_action_id : string;
  DatePicker_placeholder : option Text;
  DatePicker_initial_date : option datetime;
  DatePicker_confirm : option Confirm
}.

(** The subclasses of the abstract class [Element]. *)
Inductive Element : Type :=
| IsText (x : Text)
| IsImage (x : Image)
| IsConfirm (x : Confirm)
| IsButton (x : Button)
| IsTextInput (x : TextInput)
| IsStaticSelect (x : StaticSelect)
| IsCheckboxSelector (x : CheckboxSelector)
| IsMultiUsersSelect (x : MultiUsersSelect)
| IsTimePicker (x : TimePicker)
| IsDatePicker (x : DatePicker).

(* ================================================================== *)
(** ** Resolved payloads *)

(** What a [_resolve] dictionary can hold.  [VObject] is a [Confirm] instance
    stored as it is, unresolved, which two selectors do. *)
Inductive value : Type :=
| VNone
| VBool (b : bool)
| VInt (z : Z)
| VStr (s : string)
| VList (l : list value)
| VDict (d : list (string * value))
| VObject (c : Confirm).

Definition dict : Type := list (string * value).

Fixpoint dict_get (d : dict) (k : string) : option value :=
  match d with
  | [] => None
  | (k', v) :: rest => if String.eqb k' k then Some v else dict_get rest k
  end.

Definition dict_has (d : dict) (k : string) : bool :=
  match dict_get d k with
  | Some _ => true
  | None => false
  end.

(** [d[k] = v]: an existing key keeps its position, a new key goes last. *)
Fixpoint dict_set (d : dict) (k : string) (v : value) : dict :=
  match d with
  | [] => [(k, v)]
  | (k', v') :: rest =>
      if String.eqb k' k then (k', v) :: rest else (k', v') :: dict_set rest k v
  end.

Definition keys (d : dict) : list string := map fst d.

Definition of_opt_bool (o : option bool) : value :=
  match o with
  | Some b => VBool b
  | None => VNone
  end.

Definition of_opt_str (o : option string) : value :=
  match o with
  | Some s => VStr s
  | None => VNone
  end.

(** [if self.x: d[k] = self.x] for an optional attribute. *)
Definition set_if_truthy {A : Type} (truthy : A -> bool) (inj : A -> value)
  (d : dict) (k : string) (o : option A) : dict :=
  match o with
  | Some a => if truthy a then dict_set d k (inj a) else d
  | None => d
  end.

(** [strftime] with the two formats the pickers use.  [%H], [%M], [%m] and
    [%d] are written with two digits, zero-padded.  [%Y] is the year in
    decimal as the C library writes it: glibc, which CPython calls on Linux,
    does not pad it, so that the year 999 is written ["999"]; the years from
    1000 on have their four digits on every platform. *)
Definition digit (n : nat) : ascii := ascii_of_nat (48 + n mod 10).

Definition two_digits (n : nat) : string :=
  String (digit (n / 10)) (String (digit n) "").

Definition decimal (n : nat) : string :=
  NilZero.string_of_uint (Nat.to_uint n).

Definition strftime_H_M (t : time) : string :=
  two_digits (hour t) ++ ":" ++ two_digits (minute t).

Definition strftime_Y_m_d (d : datetime) : string :=
  decimal (year d) ++ "-" ++ two_digits (month d) ++ "-" ++ two_digits (day d).

(* ================================================================== *)
(** ** elements/base_elements.py *)

Module Element.
(** [Element._attributes], for an instance whose [type] is [type_]. *)
Definition _attributes (type_ : ElementType.t) : dict :=
  [("type", VStr (ElementType.value type_))].
End Element.

Module Text.
(** [super().__init__(type_=ElementType.TEXT)] *)
Definition type : ElementType.t := ElementType.TEXT.

Definition __init__ (text : string) (type_ : TextType.t)
  (emoji verbatim : option bool) : Text :=
  match type_ with
  | TextType.MARKDOWN => mkText type_ text verbatim None
  | TextType.PLAINTEXT => mkText type_ text None emoji
  end.

Definition _resolve (self : Text) : dict :=
  let text := [("type", VStr (TextType.value (Text_text_type self)));
               ("text", VStr (Text_text self))] in
  if TextType.eqb (Text_text_type self) TextType.MARKDOWN then
    dict_set text "verbatim" (of_opt_bool (Text_verbatim self))
  else if enum_eqb (OfElementType type) (OfTextType TextType.PLAINTEXT)
          && truthy_opt (fun b : bool => b) (Text_emoji self) then
    dict_set text "emoji" (of_opt_bool (Text_emoji self))
  else text.

(** [not text]: the empty string is falsy, a [Text] instance never is. *)
Definition truthy (x : str_or_Text) : bool :=
  match x with
  | OfStr s => truthy_str s
  | OfText t => truthy_obj t
  end.

(** [len(text)]: [Text] defines no [__len__]. *)
Definition len (x : str_or_Text) : Result Z :=
  match x with
  | OfStr s => Ok (Z.of_nat (String.length s))
  | OfText _ => Raise (TypeError "object of type 'Text' has no len()")
  end.

(** [max_length and len(text) > max_length] *)
Definition exceeds (x : str_or_Text) (max_length : option Z) : Result bool :=
  match max_length with
  | None => Ok false
  | Some m =>
      if truthy_int m then (n <- len x ;; Ok (Z.ltb m n)) else Ok false
  end.

Definition limit_message : string := "Text length exceeds Slack-imposed limit".

Definition to_text (text : option str_or_Text) (force_plaintext : bool)
  (max_length : option Z) : Result (option Text) :=
  let type_ := if force_plaintext then TextType.PLAINTEXT
               else TextType.MARKDOWN in
  match text with
  | None => Ok None
  | Some x =>
      if negb (truthy x) then Ok None
      else
        match x with
        | OfStr s =>
            too_long <- exceeds x max_length ;;
            if (too_long : bool) then Raise (InvalidUsageError limit_message)
            else Ok (Some (__init__ s type_ (Some false) (Some false)))
        | OfText t =>
            too_long <- exceeds x max_length ;;
            if (too_long : bool) then Raise (InvalidUsageError limit_message)
            else Ok (Some (__init__ (Text_text t) type_ (Some false) (Some false)))
        end
  end.

(** [attr._resolve()] on an attribute that [to_text] may have left [None]. *)
Definition resolve_attr (attr : option Text) : Result value :=
  t <- deref attr ;; Ok (VDict (_resolve t)).
End Text.

(* ================================================================== *)
(** ** elements/common_elements.py *)

Module Image.
Definition type : ElementType.t := ElementType.IMAGE.

Definition __init__ (image_url alt_text : string) : Image :=
  mkImage image_url alt_text.

Definition _resolve (self : Image) : dict :=
  let image := Element._attributes type in
  let image := dict_set image "image_url" (VStr (Image_image_url self)) in
  let image := dict_set image "alt_text" (VStr (Image_alt_text self)) in
  image.
End Image.

Module Confirm.
Definition type : ElementType.t := ElementType.CONFIRM.

Definition __init__ (title text confirm deny : str_or_Text) : Result Confirm :=
  title' <- Text.to_text (Some title) true (Some 100%Z) ;;
  text' <- Text.to_text (Some text) false (Some 300%Z) ;;
  confirm' <- Text.to_text (Some confirm) true (Some 30%Z) ;;
  deny' <- Text.to_text (Some deny) true (Some 30%Z) ;;
  Ok (mkConfirm title' text' confirm' deny').

Definition _resolve (self : Confirm) : Result dict :=
  title <- Text.resolve_attr (Confirm_title self) ;;
  text <- Text.resolve_attr (Confirm_text self) ;;
  confirm <- Text.resolve_attr (Confirm_confirm self) ;;
  deny <- Text.resolve_attr (Confirm_deny self) ;;
  Ok [("title", title); ("text", text); ("confirm", confirm); ("deny", deny)].

(** [if self.confirm: d["confirm"] = self.confirm._resolve()] *)
Definition set_resolved (d : dict) (confirm : option Confirm) : Result dict :=
  match confirm with
  | Some c => r <- _resolve c ;; Ok (dict_set d "confirm" (VDict r))
  | None => Ok d
  end.

(** [if self.confirm: d["confirm"] = self.confirm] *)
Definition set_raw (d : dict) (confirm : option Confirm) : dict :=
  match confirm with
  | Some c => dict_set d "confirm" (VObject c)
  | None => d
  end.
End Confirm.

Module Button.
Definition type : ElementType.t := ElementType.BUTTON.

Definition __init__ (text : str_or_Text) (action_id : string)
  (url value style : option string) (confirm : option Confirm)
  : Result Button :=
  text' <- Text.to_text (Some text) true (Some 75%Z) ;;
  Ok (mkButton text' action_id url value style confirm).

Definition _resolve (self : Button) : Result dict :=
  let button := Element._attributes type in
  text <- Text.resolve_attr (Button_text self) ;;
  let button := dict_set button "text" text in
  let button := dict_set button "action_id" (VStr (Button_action_id self)) in
  let button := set_if_truthy truthy_str VStr button "style" (Button_style self) in
  let button := set_if_truthy truthy_str VStr button "url" (Button_url self) in
  let button := set_if_truthy truthy_str VStr button "value" (Button_value self) in
  Confirm.set_resolved button (Button_confirm self).
End Button.

Module DispatchActionConfig.
Definition __init__ (on_character_entered on_enter_pressed : bool)
  : DispatchActionConfig :=
  mkDispatchActionConfig on_character_entered on_enter_pressed.

Definition _resolve (self : DispatchActionConfig) : dict :=
  let actions : list value := [] in
  let actions :=
    if DispatchActionConfig_on_character_entered self
    then (actions ++ [VStr "on_character_entered"])%list else actions in
  let actions :=
    if DispatchActionConfig_on_enter_pressed self
    then (actions ++ [VStr "on_enter_pressed"])%list else actions in
  [("trigger_actions_on", VList actions)].
End DispatchActionConfig.

Module TextInput.
Definition type : ElementType.t := ElementType.PLAIN_TEXT_INPUT.

Definition __init__ (action_id : string) (placeholder : option str_or_Text)
  (initial_value : option string) (multiline : bool)
  (min_length max_length : option Z)
  (dispatch_config : option DispatchActionConfig) : Result TextInput :=
  placeholder' <- Text.to_text placeholder true (Some 150%Z) ;;
  Ok (mkTextInput action_id placeholder' initial_value multiline
        min_length max_length dispatch_config).

Definition _resolve (self : TextInput) : dict :=
  let inputfield := Element._attributes type in
  let inputfield :=
    dict_set inputfield "action_id" (VStr (TextInput_action_id self)) in
  let inputfield :=
    dict_set inputfield "multiline" (VBool (TextInput_multiline self)) in
  let inputfield :=
    set_if_truthy truthy_obj (fun t => VDict (Text._resolve t))
      inputfield "placeholder" (TextInput_placeholder self) in
  let inputfield :=
    set_if_truthy truthy_str VStr
      inputfield "initial_value" (TextInput_initial_value self) in
  let inputfield :=
    set_if_truthy truthy_int VInt
      inputfield "min_length" (TextInput_min_length self) in
  let inputfield :=
    set_if_truthy truthy_int VInt
      inputfield "max_length" (TextInput_max_length self) in
  let inputfield :=
    set_if_truthy truthy_obj (fun c => VDict (DispatchActionConfig._resolve c))
      inputfield "dispatch_action_config" (TextInput_dispatch_config self) in
  inputfield.
End TextInput.

(* ================================================================== *)
(** ** elements/selector_elements.py *)

Module OptionObject.
Definition __init__ (text : str_or_Text) (value : string)
  (description : option str_or_Text) (url : option string)
  : Result OptionObject :=
  text' <- Text.to_text (Some text) true (Some 75%Z) ;;
  description' <- Text.to_text description true (Some 75%Z) ;;
  Ok (mkOptionObject text' value description' url).

Definition _resolve (self : OptionObject) : Result dict :=
  let option : dict := [] in
  text <- Text.resolve_attr (OptionObject_text self) ;;
  let option := dict_set option "text" text in
  let option := dict_set option "value" (VStr (OptionObject_value self)) in
  let option :=
    set_if_truthy truthy_obj (fun t => VDict (Text._resolve t))
      option "description" (OptionObject_description self) in
  let option := set_if_truthy truthy_str VStr option "url" (OptionObject_url self) in
  Ok option.

(** [[option._resolve() for option in options]] *)
Definition resolve_all (options : list OptionObject) : Result value :=
  l <- comprehension (fun o => r <- _resolve o ;; Ok (VDict r)) options ;;
  Ok (VList l).
End OptionObject.

Module OptionGroup.
Definition __init__ (label : str_or_Text) (options : list OptionObject)
  : Result OptionGroup :=
  label' <- Text.to_text (Some label) true (Some 75%Z) ;;
  Ok (mkOptionGroup label' options).

Definition _resolve (self : OptionGroup) : Result dict :=
  let option_group : dict := [] in
  label <- Text.resolve_attr (OptionGroup_label self) ;;
  let option_group := dict_set option_group "label" label in
  options <- OptionObject.resolve_all (OptionGroup_options self) ;;
  let option_group := dict_set option_group "options" options in
  Ok option_group.
End OptionGroup.

Module StaticSelect.
Definition type : ElementType.t := ElementType.STATIC_SELECT.

Definition neither_message : string :=
  "Either options or option group should be passed".
Definition both_message : string :=
  "Both options and option group cannot be passed".

Definition __init__ (action_id : string) (placeholder : str_or_Text)
  (options : option (list OptionObject)) (option_group : option OptionGroup)
  (initial_option : option str_or_OptionObject) (confirm : option Confirm)
  : Result StaticSelect :=
  if negb (truthy_opt truthy_list options)
     && negb (truthy_opt truthy_obj option_group)
  then Raise (InvalidUsageError neither_message)
  else if truthy_opt truthy_list options && truthy_opt truthy_obj option_group
  then Raise (InvalidUsageError both_message)
  else
    placeholder' <- Text.to_text (Some placeholder) true (Some 150%Z) ;;
    Ok (mkStaticSelect action_id options option_group placeholder'
          initial_option confirm).

(** [if self.initial_option:] *)
Definition truthy_initial (x : str_or_OptionObject) : bool :=
  match x with
  | InitialStr s => truthy_str s
  | InitialOption o => truthy_obj o
  end.

(** [self.initial_option._resolve()]: [str] has no such method. *)
Definition resolve_initial (x : str_or_OptionObject) : Result value :=
  match x with
  | InitialStr _ =>
      Raise (AttributeError "'str' object has no attribute '_resolve'")
  | InitialOption o => r <- OptionObject._resolve o ;; Ok (VDict r)
  end.

(** [if self.options: ... elif self.option_group: ...] *)
Definition set_choices (element : dict) (self : StaticSelect) : Result dict :=
  if truthy_opt truthy_list (StaticSelect_options self) then
    match StaticSelect_options self with
    | Some options =>
        r <- OptionObject.resolve_all options ;;
        Ok (dict_set element "options" r)
    | None => Ok element
    end
  else
    match StaticSelect_option_group self with
    | Some option_group =>
        r <- OptionGroup._resolve option_group ;;
        Ok (dict_set element "option_group" (VDict r))
    | None => Ok element
    end.

(** [if self.initial_option: ...] *)
Definition set_initial_option (element : dict) (self : StaticSelect)
  : Result dict :=
  match StaticSelect_initial_option self with
  | Some initial_option =>
      if truthy_initial initial_option then
        r <- resolve_initial initial_option ;;
        Ok (dict_set element "initial_option" r)
      else Ok element
  | None => Ok element
  end.

Definition _resolve (self : StaticSelect) : Result dict :=
  let element := Element._attributes type in
  placeholder <- Text.resolve_attr (StaticSelect_placeholder self) ;;
  let element := dict_set element "placeholder" placeholder in
  let element := dict_set element "action_id" (VStr (StaticSelect_action_id self)) in
  element <- set_choices element self ;;
  element <- set_initial_option element self ;;
  Confirm.set_resolved element (StaticSelect_confirm self).
End StaticSelect.

Module CheckboxSelector.
Definition type : ElementType.t := ElementType.CHECKBOXES.

Definition __init__ (action_id : string)
  (options initial_options : option (list OptionObject))
  (confirm : option Confirm) : CheckboxSelector :=
  mkCheckboxSelector action_id options initial_options confirm.

(** [if xs: element[k] = [option._resolve() for option in xs]] *)
Definition set_options (element : dict) (k : string)
  (xs : option (list OptionObject)) : Result dict :=
  match xs with
  | Some options =>
      if truthy_list options then
        r <- OptionObject.resolve_all options ;; Ok (dict_set element k r)
      else Ok element
  | None => Ok element
  end.

Definition _resolve (self : CheckboxSelector) : Result dict :=
  let element := Element._attributes type in
  let element :=
    dict_set element "action_id" (VStr (CheckboxSelector_action_id self)) in
  element <- set_options element "options" (CheckboxSelector_options self) ;;
  element <- set_options element "initial_options"
               (CheckboxSelector_initial_options self) ;;
  Ok (Confirm.set_raw element (CheckboxSelector_confirm self)).
End CheckboxSelector.

Module MultiUsersSelect.
Definition type : ElementType.t := ElementType.MULTI_USERS_SELECT.

Definition __init__ (action_id : string) (placeholder : str_or_Text)
  (initial_users : option (list string)) (max_selected_items : option Z)
  (confirm : option Confirm) : Result MultiUsersSelect :=
  placeholder' <- Text.to_text (Some placeholder) true (Some 150%Z) ;;
  Ok (mkMultiUsersSelect action_id initial_users placeholder'
        max_selected_items confirm).

Definition _resolve (self : MultiUsersSelect) : Result dict :=
  let element := Element._attributes type in
  placeholder <- Text.resolve_attr (MultiUsersSelect_placeholder self) ;;
  let element := dict_set element "placeholder" placeholder in
  let element :=
    dict_set element "action_id" (VStr (MultiUsersSelect_action_id self)) in
  let element :=
    if truthy_opt truthy_int (MultiUsersSelect_max_selected_items self) then
      set_if_truthy truthy_int VInt element "max_selected_items"
        (MultiUsersSelect_max_selected_items self)
    else
      set_if_truthy truthy_list (fun us => VList (map VStr us))
        element "initial_users" (MultiUsersSelect_initial_users self) in
  Ok (Confirm.set_raw element (MultiUsersSelect_confirm self)).
End MultiUsersSelect.

(* ================================================================== *)
(** ** elements/time_elements.py *)

Module TimePicker.
Definition type : ElementType.t := ElementType.TIME_PICKER.

Definition __init__ (action_id : string) (initial_time : option time)
  (placeholder : option str_or_Text) (confirm : option Confirm)
  : Result TimePicker :=
  placeholder' <- Text.to_text placeholder true (Some 75%Z) ;;
  Ok (mkTimePicker action_id placeholder' initial_time confirm).

Definition _resolve (self : TimePicker) : Result dict :=
  let time_picker := Element._attributes type in
  placeholder <- Text.resolve_attr (TimePicker_placeholder self) ;;
  let time_picker := dict_set time_picker "placeholder" placeholder in
  let time_picker :=
    dict_set time_picker "action_id" (VStr (TimePicker_action_id self)) in
  let time_picker :=
    set_if_truthy truthy_obj (fun t => VStr (strftime_H_M t))
      time_picker "initial_time" (TimePicker_initial_time self) in
  Confirm.set_resolved time_picker (TimePicker_confirm self).
End TimePicker.

Module DatePicker.
Definition type : ElementType.t := ElementType.DATE_PICKER.

Definition __init__ (action_id : string) (initial_date : option datetime)
  (placeholder : option str_or_Text) (confirm : option Confirm)
  : Result DatePicker :=
  placeholder' <- Text.to_text placeholder true (Some 75%Z) ;;
  Ok (mkDatePicker action_id placeholder' initial_date confirm).

Definition _resolve (self : DatePicker) : Result dict :=
  let date_picker := Element._attributes type in
  let date_picker :=
    dict_set date_picker "action_id" (VStr (DatePicker_action_id self)) in
  let date_picker :=
    set_if_truthy truthy_obj (fun t => VDict (Text._resolve t))
      date_picker "placeholder" (DatePicker_placeholder self) in
  let date_picker :=
    set_if_truthy truthy_obj (fun d => VStr (strftime_Y_m_d d))
      date_picker "initial_date" (DatePicker_initial_date self) in
  Confirm.set_resolved date_picker (DatePicker_confirm self).
End DatePicker.

(** Dynamic dispatch on an [Element]: the [type] attribute its class sets and
    the [_resolve] its class defines. *)
Module Elements.
Definition type (e : Element) : ElementType.t :=
  match e with
  | IsText _ => Text.type
  | IsImage _ => Image.type
  | IsConfirm _ => Confirm.type
  | IsButton _ => Button.type
  | IsTextInput _ => TextInput.type
  | IsStaticSelect _ => StaticSelect.type
  | IsCheckboxSelector _ => CheckboxSelector.type
  | IsMultiUsersSelect _ => MultiUsersSelect.type
  | IsTimePicker _ => TimePicker.type
  | IsDatePicker _ => DatePicker.type
  end.

Definition _resolve (e : Element) : Result dict :=
  match e with
  | IsText x => Ok (Text._resolve x)
  | IsImage x => Ok (Image._resolve x)
  | IsConfirm x => Confirm._resolve x
  | IsButton x => Button._resolve x
  | IsTextInput x => Ok (TextInput._resolve x)
  | IsStaticSelect x => StaticSelect._resolve x
  | IsCheckboxSelector x => CheckboxSelector._resolve x
  | IsMultiUsersSelect x => MultiUsersSelect._resolve x
  | IsTimePicker x => TimePicker._resolve x
  | IsDatePicker x => DatePicker._resolve x
  end.

(** [[element._resolve() for element in elements]] *)
Definition resolve_all (elements : list Element) : Result value :=
  l <- comprehension (fun e => r <- _resolve e ;; Ok (VDict r)) elements ;;
  Ok (VList l).
End Elements.

(* ================================================================== *)
(** ** Constructors that draw identity tokens

    [uuid4()] is the only effect in the package.  The world holds the source of
    tokens and how many have been drawn; a constructor of a block runs in
    [Py], which threads the world and keeps it when an exception is raised. *)

Record World : Type := mkWorld {
  uuid_source : nat -> string;
  uuid_drawn : nat
}.

Definition Py (A : Type) : Type := World -> Result A * World.

Definition ret {A : Type} (a : A) : Py A := fun w => (Ok a, w).

Definition pbind {A B : Type} (m : Py A) (k : A -> Py B) : Py B :=
  fun w =>
    match m w with
    | (Ok a, w') => k a w'
    | (Raise e, w') => (Raise e, w')
    end.

Notation "x <~ m ;; k" := (pbind m (fun x => k))
  (at level 61, m at next level, right associativity).

(** A call that has no effect on the world. *)
Definition call {A : Type} (r : Result A) : Py A := fun w => (r, w).

(** [str(uuid4())] *)
Definition uuid4_str : Py string :=
  fun w => (Ok (uuid_source w (uuid_drawn w)),
            mkWorld (uuid_source w) (S (uuid_drawn w))).

(* ================================================================== *)
(** ** blocks.py *)

Module BlockType.
Inductive t : Type :=
| INPUT | SECTION | DIVIDER | IMAGE | ACTIONS | CONTEXT | FILE | HEADER.

Definition value (x : t) : string :=
  match x with
  | INPUT => "input"
  | SECTION => "section"
  | DIVIDER => "divider"
  | IMAGE => "image"
  | ACTIONS => "actions"
  | CONTEXT => "context"
  | FILE => "file"
  | HEADER => "header"
  end.
End BlockType.

(** The state [Block.__init__] sets on every block. *)
Record Block : Type := mkBlock {
  Block_type : BlockType.t;
  Block_block_id : string
}.

Record SectionBlock : Type := mkSectionBlock {
  SectionBlock_super : Block;
  SectionBlock_text : option Text;
  SectionBlock_fields : option (list (option Text));
  SectionBlock_accessory : option Element
}.

Record DividerBlock : Type := mkDividerBlock {
  DividerBlock_super : Block
}.

Record ImageBlock : Type := mkImageBlock {
  ImageBlock_super : Block;
  ImageBlock_image_url : string;
  ImageBlock_alt_text : option string;
  ImageBlock_title : Text
}.

(** [elements] is [None] when neither branch of the constructor assigned the
    attribute. *)
Record ActionsBlock : Type := mkActionsBlock {
  ActionsBlock_super : Block;
  ActionsBlock_elements : option (list Element)
}.

Record ContextBlock : Type := mkContextBlock {
  ContextBlock_super : Block;
  ContextBlock_elements : list Element
}.

Record FileBlock : Type := mkFileBlock {
  FileBlock_super : Block;
  FileBlock_external_id : string;
  FileBlock_source : string
}.

Record HeaderBlock : Type := mkHeaderBlock {
  HeaderBlock_super : Block;
  HeaderBlock_text : Text
}.

Record InputBlock : Type := mkInputBlock {
  InputBlock_super : Block;
  InputBlock_label : option Text;
  InputBlock_element : Element;
  InputBlock_dispatch_action : bool;
  InputBlock_optional : bool;
  InputBlock_hint : option Text
}.

(** The subclasses of the abstract class [Block]. *)
Inductive AnyBlock : Type :=
| IsSectionBlock (x : SectionBlock)
| IsDividerBlock (x : DividerBlock)
| IsImageBlock (x : ImageBlock)
| IsActionsBlock (x : ActionsBlock)
| IsContextBlock (x : ContextBlock)
| IsFileBlock (x : FileBlock)
| IsHeaderBlock (x : HeaderBlock)
| IsInputBlock (x : InputBlock).

Module Block.
(** [self.block_id = block_id if block_id else str(uuid4())] *)
Definition __init__ (type_ : BlockType.t) (block_id : option string)
  : Py Block :=
  match block_id with
  | Some id =>
      if truthy_str id then ret (mkBlock type_ id)
      else (fresh <~ uuid4_str ;; ret (mkBlock type_ fresh))
  | None => fresh <~ uuid4_str ;; ret (mkBlock type_ fresh)
  end.

Definition _attributes (self : Block) : dict :=
  [("type", VStr (BlockType.value (Block_type self)));
   ("block_id", VStr (Block_block_id self))].
End Block.

Module SectionBlock.
(** [[Text.to_text(field, max_length=2000) for field in fields if field]] *)
Fixpoint coerce_fields (fields : list (option str_or_Text))
  : Result (list (option Text)) :=
  match fields with
  | [] => Ok []
  | field :: rest =>
      if truthy_opt Text.truthy field then
        t <- Text.to_text field false (Some 2000%Z) ;;
        ts <- coerce_fields rest ;;
        Ok (t :: ts)
      else coerce_fields rest
  end.

Definition __init__ (text : option str_or_Text) (block_id : option string)
  (fields : option (list (option str_or_Text))) (accessory : option Element)
  : Py SectionBlock :=
  super <~ Block.__init__ BlockType.SECTION block_id ;;
  text' <~ call (Text.to_text text false (Some 2000%Z)) ;;
  fields' <~
    (if negb (truthy_opt truthy_list fields) then ret None
     else
       match fields with
       | Some l => fs <~ call (coerce_fields l) ;; ret (Some fs)
       | None => ret None
       end) ;;
  ret (mkSectionBlock super text' fields' accessory).

Definition _resolve (self : SectionBlock) : Result dict :=
  let section := Block._attributes (SectionBlock_super self) in
  let section :=
    set_if_truthy truthy_obj (fun t => VDict (Text._resolve t))
      section "text" (SectionBlock_text self) in
  section <-
    match SectionBlock_fields self with
    | Some fields =>
        if truthy_list fields then
          l <- comprehension Text.resolve_attr fields ;;
          Ok (dict_set section "fields" (VList l))
        else Ok section
    | None => Ok section
    end ;;
  match SectionBlock_accessory self with
  | Some accessory =>
      r <- Elements._resolve accessory ;;
      Ok (dict_set section "accessory" (VDict r))
  | None => Ok section
  end.
End SectionBlock.

Module DividerBlock.
Definition __init__ (block_id : option string) : Py DividerBlock :=
  super <~ Block.__init__ BlockType.DIVIDER block_id ;;
  ret (mkDividerBlock super).

Definition _resolve (self : DividerBlock) : dict :=
  Block._attributes (DividerBlock_super self).
End DividerBlock.

Module ImageBlock.
Definition __init__ (image_url : string) (alt_text : option string)
  (title : option str_or_Text) (block_id : option string) : Py ImageBlock :=
  super <~ Block.__init__ BlockType.IMAGE block_id ;;
  let title' :=
    match title with
    | Some (OfText t) =>
        if TextType.eqb (Text_text_type t) TextType.MARKDOWN then
          Text.__init__ (Text_text t) TextType.PLAINTEXT
            (Text_emoji t) (Text_verbatim t)
        else t
    | Some (OfStr s) =>
        if truthy_str s then
          Text.__init__ s TextType.PLAINTEXT (Some false) (Some false)
        else
          Text.__init__ " " TextType.PLAINTEXT (Some false) (Some false)
    | None => Text.__init__ " " TextType.PLAINTEXT (Some false) (Some false)
    end in
  ret (mkImageBlock super image_url alt_text title').

Definition _resolve (self : ImageBlock) : dict :=
  let image := Block._attributes (ImageBlock_super self) in
  let image := dict_set image "image_url" (VStr (ImageBlock_image_url self)) in
  let image := dict_set image "alt_text" (of_opt_str (ImageBlock_alt_text self)) in
  let image :=
    if truthy_obj (ImageBlock_title self)
    then dict_set image "title" (VDict (Text._resolve (ImageBlock_title self)))
    else image in
  image.
End ImageBlock.

(** The [elements] argument of [ActionsBlock]: one element or a list. *)
Inductive Element_or_list : Type :=
| OneElement (e : Element)
| ListOfElements (l : list Element).

Module ActionsBlock.
Definition __init__ (elements : option Element_or_list)
  (block_id : option string) : Py ActionsBlock :=
  super <~ Block.__init__ BlockType.ACTIONS block_id ;;
  match elements with
  | Some (OneElement e) => ret (mkActionsBlock super (Some [e]))
  | Some (ListOfElements l) => ret (mkActionsBlock super (Some l))
  | None => ret (mkActionsBlock super None)
  end.

Definition _resolve (self : ActionsBlock) : Result dict :=
  let actions := Block._attributes (ActionsBlock_super self) in
  match ActionsBlock_elements self with
  | Some elements =>
      r <- Elements.resolve_all elements ;;
      Ok (dict_set actions "elements" r)
  | None =>
      Raise (AttributeError "'ActionsBlock' object has no attribute 'elements'")
  end.
End ActionsBlock.

Module ContextBlock.
Definition kind_message : string :=
  "Context blocks can only hold image and text elements".
Definition count_message : string :=
  "Context blocks can hold a maximum of ten elements".

(** The test of the loop body on [element.type]. *)
Definition allowed (element : Element) : bool :=
  ElementType.eqb (Elements.type element) ElementType.TEXT
  || ElementType.eqb (Elements.type element) ElementType.IMAGE.

(** The [for] loop: [acc] is [self.elements] so far. *)
Fixpoint collect (acc : list Element) (elements : list Element)
  : Result (list Element) :=
  match elements with
  | [] => Ok acc
  | element :: rest =>
      if allowed element then collect (acc ++ [element])%list rest
      else Raise (InvalidUsageError kind_message)
  end.

Definition __init__ (elements : option (list Element))
  (block_id : option string) : Py ContextBlock :=
  super <~ Block.__init__ BlockType.CONTEXT block_id ;;
  match elements with
  | None => call (Raise (TypeError "'NoneType' object is not iterable"))
  | Some l =>
      collected <~ call (collect [] l) ;;
      if Nat.ltb 10 (List.length collected)
      then call (Raise (InvalidUsageError count_message))
      else ret (mkContextBlock super collected)
  end.

Definition _resolve (self : ContextBlock) : Result dict :=
  let context := Block._attributes (ContextBlock_super self) in
  r <- Elements.resolve_all (ContextBlock_elements self) ;;
  Ok (dict_set context "elements" r).
End ContextBlock.

Module FileBlock.
Definition __init__ (external_id source : string) (block_id : option string)
  : Py FileBlock :=
  super <~ Block.__init__ BlockType.FILE block_id ;;
  ret (mkFileBlock super external_id source).

Definition _resolve (self : FileBlock) : dict :=
  let file := Block._attributes (FileBlock_super self) in
  let file := dict_set file "external_id" (VStr (FileBlock_external_id self)) in
  let file := dict_set file "source" (VStr (FileBlock_source self)) in
  file.
End FileBlock.

Module HeaderBlock.
Definition __init__ (text : str_or_Text) (block_id : option string)
  : Py HeaderBlock :=
  super <~ Block.__init__ BlockType.HEADER block_id ;;
  match text with
  | OfText t => ret (mkHeaderBlock super t)
  | OfStr s =>
      ret (mkHeaderBlock super
             (Text.__init__ s TextType.PLAINTEXT (Some false) (Some false)))
  end.

Definition _resolve (self : HeaderBlock) : dict :=
  let header := Block._attributes (HeaderBlock_super self) in
  dict_set header "text" (VDict (Text._resolve (HeaderBlock_text self))).
End HeaderBlock.

Module InputBlock.
Definition __init__ (label : str_or_Text) (element : Element)
  (dispatch_action : bool) (hint : option str_or_Text) (optional : bool)
  (block_id : option string) : Py InputBlock :=
  super <~ Block.__init__ BlockType.INPUT block_id ;;
  label' <~ call (Text.to_text (Some label) true (Some 2000%Z)) ;;
  hint' <~ call (Text.to_text hint true (Some 2000%Z)) ;;
  ret (mkInputBlock super label' element dispatch_action optional hint').

Definition _resolve (self : InputBlock) : Result dict :=
  let header := Block._attributes (InputBlock_super self) in
  label <- Text.resolve_attr (InputBlock_label self) ;;
  let header := dict_set header "label" label in
  element <- Elements._resolve (InputBlock_element self) ;;
  let header := dict_set header "element" (VDict element) in
  let header :=
    dict_set header "dispatch_action" (VBool (InputBlock_dispatch_action self)) in
  let header := dict_set header "optional" (VBool (InputBlock_optional self)) in
  let header :=
    set_if_truthy truthy_obj (fun t => VDict (Text._resolve t))
      header "hint" (InputBlock_hint self) in
  Ok header.
End InputBlock.

(** Dynamic dispatch on a block. *)
Module Blocks.
Definition super (b : AnyBlock) : Block :=
  match b with
  | IsSectionBlock x => SectionBlock_super x
  | IsDividerBlock x => DividerBlock_super x
  | IsImageBlock x => ImageBlock_super x
  | IsActionsBlock x => ActionsBlock_super x
  | IsContextBlock x => ContextBlock_super x
  | IsFileBlock x => FileBlock_super x
  | IsHeaderBlock x => HeaderBlock_super x
  | IsInputBlock x => InputBlock_super x
  end.

Definition _resolve (b : AnyBlock) : Result dict :=
  match b with
  | IsSectionBlock x => SectionBlock._resolve x
  | IsDividerBlock x => Ok (DividerBlock._resolve x)
  | IsImageBlock x => Ok (ImageBlock._resolve x)
  | IsActionsBlock x => ActionsBlock._resolve x
  | IsContextBlock x => ContextBlock._resolve x
  | IsFileBlock x => Ok (FileBlock._resolve x)
  | IsHeaderBlock x => Ok (HeaderBlock._resolve x)
  | IsInputBlock x => InputBlock._resolve x
  end.

(** [Block.__add__]: the two blocks as a list. *)
Definition __add__ (self other : AnyBlock) : list AnyBlock := [self; other].

(** [isinstance(b, InputBlock)] *)
Definition is_InputBlock (b : AnyBlock) : bool :=
  match b with
  | IsInputBlock _ => true
  | _ => false
  end.
End Blocks.

(* ================================================================== *)
(** ** view/base_view.py, view/home_view.py, view/modal_view.py *)

Module SlackViewType.
Inductive t : Type := HOME | MODAL.

Definition value (x : t) : string :=
  match x with
  | HOME => "home"
  | MODAL => "modal"
  end.
End SlackViewType.

(** An entry of a view's [blocks] list.  The modal's check tests each entry
    with [isinstance(x, (int, InputBlock))], so integers are entries too. *)
Inductive block_or_int : Type :=
| ABlock (b : AnyBlock)
| AnInt (z : Z).

Record BaseSlackView : Type := mkBaseSlackView {
  BaseSlackView_type : SlackViewType.t;
  BaseSlackView_blocks : list block_or_int;
  BaseSlackView_external_id : option string;
  BaseSlackView_callback_id : option string;
  BaseSlackView_private_metadata : option dict
}.

Record HomeSlackView : Type := mkHomeSlackView {
  HomeSlackView_super : BaseSlackView
}.

Record ModalSlackView : Type := mkModalSlackView {
  ModalSlackView_super : BaseSlackView;
  ModalSlackView_title : option Text;
  ModalSlackView_close : option Text;
  ModalSlackView_submit : option Text;
  ModalSlackView_clear_on_close : option bool;
  ModalSlackView_notify_on_close : option bool
}.

Inductive AnyView : Type :=
| IsHomeSlackView (x : HomeSlackView)
| IsModalSlackView (x : ModalSlackView).

Module BaseSlackView.
Definition __init__ (view_type : SlackViewType.t)
  (blocks : option (list block_or_int)) (private_metadata : option dict)
  (callback_id external_id : option string) : BaseSlackView :=
  let blocks := match blocks with Some l => l | None => [] end in
  mkBaseSlackView view_type blocks external_id callback_id private_metadata.

(** [block._resolve()] on an entry of [self.blocks]. *)
Definition resolve_entry (x : block_or_int) : Result value :=
  match x with
  | ABlock b => r <- Blocks._resolve b ;; Ok (VDict r)
  | AnInt _ => Raise (AttributeError "'int' object has no attribute '_resolve'")
  end.

Section WithJson.
(** [json.dumps], applied to the private metadata. *)
Variable dumps : dict -> Result string.

Definition _attributes (self : BaseSlackView) : Result dict :=
  blocks <- comprehension resolve_entry (BaseSlackView_blocks self) ;;
  let attributes :=
    [("type", VStr (SlackViewType.value (BaseSlackView_type self)));
     ("blocks", VList blocks)] in
  let attributes :=
    set_if_truthy truthy_str VStr
      attributes "external_id" (BaseSlackView_external_id self) in
  let attributes :=
    set_if_truthy truthy_str VStr
      attributes "callback_id" (BaseSlackView_callback_id self) in
  match BaseSlackView_private_metadata self with
  | Some private_metadata =>
      if truthy_list private_metadata then
        s <- dumps private_metadata ;;
        Ok (dict_set attributes "private_metadata" (VStr s))
      else Ok attributes
  | None => Ok attributes
  end.
End WithJson.
End BaseSlackView.

Module HomeSlackView.
Definition __init__ (blocks : option (list block_or_int))
  (private_metadata : option dict) (callback_id external_id : option string)
  : HomeSlackView :=
  mkHomeSlackView
    (BaseSlackView.__init__ SlackViewType.HOME blocks private_metadata
       callback_id external_id).

Definition _resolve (dumps : dict -> Result string) (self : HomeSlackView)
  : Result dict :=
  BaseSlackView._attributes dumps (HomeSlackView_super self).
End HomeSlackView.

Module ModalSlackView.
Definition submit_message : string :=
  "You have to send Submit text if you have at least one InputBlock."
  ++ " Read: https://api.slack.com/reference/surfaces/views".

Definition __init__ (title : str_or_Text) (close submit : option str_or_Text)
  (blocks : option (list block_or_int)) (private_metadata : option dict)
  (clear_on_close notify_on_close : option bool)
  (callback_id external_id : option string) : Result ModalSlackView :=
  let super := BaseSlackView.__init__ SlackViewType.MODAL blocks
                 private_metadata callback_id external_id in
  title' <- Text.to_text (Some title) true (Some 24%Z) ;;
  close' <- Text.to_text close true (Some 24%Z) ;;
  submit' <- Text.to_text submit true (Some 24%Z) ;;
  Ok (mkModalSlackView super title' close' submit'
        clear_on_close notify_on_close).

(** [isinstance(x, (int, InputBlock))] *)
Definition int_or_InputBlock (x : block_or_int) : bool :=
  match x with
  | AnInt _ => true
  | ABlock b => Blocks.is_InputBlock b
  end.

Definition _resolve (dumps : dict -> Result string) (self : ModalSlackView)
  : Result dict :=
  view <- BaseSlackView._attributes dumps (ModalSlackView_super self) ;;
  title <- Text.resolve_attr (ModalSlackView_title self) ;;
  let view := dict_set view "title" title in
  view <-
    match ModalSlackView_submit self with
    | Some submit => Ok (dict_set view "submit" (VDict (Text._resolve submit)))
    | None =>
        if existsb int_or_InputBlock
             (BaseSlackView_blocks (ModalSlackView_super self))
        then Raise (InvalidUsageError submit_message)
        else Ok view
    end ;;
  let view :=
    set_if_truthy truthy_obj (fun t => VDict (Text._resolve t))
      view "close" (ModalSlackView_close self) in
  let view :=
    set_if_truthy (fun b : bool => b) VBool
      view "clear_on_close" (ModalSlackView_clear_on_close self) in
  let view :=
    set_if_truthy (fun b : bool => b) VBool
      view "notify_on_close" (ModalSlackView_notify_on_close self) in
  Ok view.
End ModalSlackView.

Module Views.
Definition _resolve (dumps : dict -> Result string) (v : AnyView)
  : Result dict :=
  match v with
  | IsHomeSlackView x => HomeSlackView._resolve dumps x
  | IsModalSlackView x => ModalSlackView._resolve dumps x
  end.
End Views.

(* ================================================================== *)
(** ** view/modal_response.py *)

Module ModalResponseAction.
Inductive t : Type := ERROR | CLOSE | UPDATE.

Definition value (x : t) : string :=
  match x with
  | ERROR => "errors"
  | CLOSE => "clear"
  | UPDATE => "update"
  end.
End ModalResponseAction.

Record BaseModalResponse : Type := mkBaseModalResponse {
  BaseModalResponse_response_action : ModalResponseAction.t
}.

Record EmptyModalResponse : Type := mkEmptyModalResponse {
  EmptyModalResponse_super : BaseModalResponse
}.

Record CloseModalResponse : Type := mkCloseModalResponse {
  CloseModalResponse_super : BaseModalResponse
}.

Record ErrorModalResponse : Type := mkErrorModalResponse {
  ErrorModalResponse_super : BaseModalResponse;
  ErrorModalResponse_errors : list (string * string)
}.

Record UpdateModalResponse : Type := mkUpdateModalResponse {
  UpdateModalResponse_super : BaseModalResponse;
  UpdateModalResponse_modal : ModalSlackView
}.

Module BaseModalResponse.
Definition __init__ (response_action : ModalResponseAction.t)
  : BaseModalResponse :=
  mkBaseModalResponse response_action.

Definition _attributes (self : BaseModalResponse) : dict :=
  [("response_action",
    VStr (ModalResponseAction.value (BaseModalResponse_response_action self)))].
End BaseModalResponse.

Module EmptyModalResponse.
Definition __init__ : EmptyModalResponse :=
  mkEmptyModalResponse (BaseModalResponse.__init__ ModalResponseAction.ERROR).

Definition _resolve (self : EmptyModalResponse) : dict := [].
End EmptyModalResponse.

Module CloseModalResponse.
Definition __init__ : CloseModalResponse :=
  mkCloseModalResponse (BaseModalResponse.__init__ ModalResponseAction.CLOSE).

Definition _resolve (self : CloseModalResponse) : dict :=
  BaseModalResponse._attributes (CloseModalResponse_super self).
End CloseModalResponse.

Module ErrorModalResponse.
Definition __init__ (errors : list (string * string)) : ErrorModalResponse :=
  mkErrorModalResponse
    (BaseModalResponse.__init__ ModalResponseAction.ERROR) errors.

(** The [errors] dictionary, block id to message, as a payload value. *)
Definition errors_value (errors : list (string * string)) : value :=
  VDict (map (fun kv => (fst kv, VStr (snd kv))) errors).

Definition _resolve (self : ErrorModalResponse) : dict :=
  let response := BaseModalResponse._attributes (ErrorModalResponse_super self) in
  dict_set response "errors" (errors_value (ErrorModalResponse_errors self)).
End ErrorModalResponse.

Module UpdateModalResponse.
Definition __init__ (modal : ModalSlackView) : UpdateModalResponse :=
  mkUpdateModalResponse
    (BaseModalResponse.__init__ ModalResponseAction.UPDATE) modal.

Definition _resolve (dumps : dict -> Result string)
  (self : UpdateModalResponse) : Result dict :=
  let response := BaseModalResponse._attributes (UpdateModalResponse_super self) in
  view <- ModalSlackView._resolve dumps (UpdateModalResponse_modal self) ;;
  Ok (dict_set response "view" (VDict view)).
End UpdateModalResponse.

Inductive ModalResponse : Type :=
| IsEmptyModalResponse (x : EmptyModalResponse)
| IsCloseModalResponse (x : CloseModalResponse)
| IsErrorModalResponse (x : ErrorModalResponse)
| IsUpdateModalResponse (x : UpdateModalResponse).

Module ModalResponses.
Definition _resolve (dumps : dict -> Result string) (r : ModalResponse)
  : Result dict :=
  match r with
  | IsEmptyModalResponse x => Ok (EmptyModalResponse._resolve x)
  | IsCloseModalResponse x => Ok (CloseModalResponse._resolve x)
  | IsErrorModalResponse x => Ok (ErrorModalResponse._resolve x)
  | IsUpdateModalResponse x => UpdateModalResponse._resolve dumps x
  end.
End ModalResponses.

(* ================================================================== *)
(** ** The resolution protocol on any node of a tree *)

Inductive Node : Type :=
| ElementNode (e : Element)
| BlockNode (b : AnyBlock)
| ViewNode (v : AnyView).

Definition resolve (dumps : dict -> Result string) (n : Node) : Result dict :=
  match n with
  | ElementNode e => Elements._resolve e
  | BlockNode b => Blocks._resolve b
  | ViewNode v => Views._resolve dumps v
  end.

(* ================================================================== *)
(** ** The resolution protocol as computations in the world

    The [_resolve] and [_attributes] methods once more, as computations in
    [Py]: every method call of the source is a bind, so that a method is free
    to draw a token, as the constructors do.  Attribute reads, tests and
    assignments to the local dictionary stay expressions.  What these
    computations do to the world is proved below, not read off their type. *)

Definition raise {A : Type} (e : exn) : Py A := fun w => (Raise e, w).

(** [[f(x) for x in xs]] when [f] is a method call. *)
Fixpoint for_each {A B : Type} (f : A -> Py B) (xs : list A) : Py (list B) :=
  match xs with
  | [] => ret []
  | x :: rest =>
      y <~ f x ;;
      ys <~ for_each f rest ;;
      ret (y :: ys)
  end.

Module Run.
(** [Element._attributes] *)
Definition Element_attributes (type_ : ElementType.t) : Py dict :=
  ret [("type", VStr (ElementType.value type_))].

(** [Text._resolve] *)
Definition Text_resolve (self : Text) : Py dict :=
  let text := [("type", VStr (TextType.value (Text_text_type self)));
               ("text", VStr (Text_text self))] in
  if TextType.eqb (Text_text_type self) TextType.MARKDOWN then
    ret (dict_set text "verbatim" (of_opt_bool (Text_verbatim self)))
  else if enum_eqb (OfElementType Text.type) (OfTextType TextType.PLAINTEXT)
          && truthy_opt (fun b : bool => b) (Text_emoji self) then
    ret (dict_set text "emoji" (of_opt_bool (Text_emoji self)))
  else ret text.

(** [attr._resolve()] on an attribute that may be [None]. *)
Definition resolve_attr (attr : option Text) : Py value :=
  match attr with
  | Some t => r <~ Text_resolve t ;; ret (VDict r)
  | None =>
      raise (AttributeError "'NoneType' object has no attribute '_resolve'")
  end.

(** [if attr: d[k] = attr._resolve()] *)
Definition set_Text (d : dict) (k : string) (attr : option Text) : Py dict :=
  match attr with
  | Some t => r <~ Text_resolve t ;; ret (dict_set d k (VDict r))
  | None => ret d
  end.

(** [Image._resolve] *)
Definition Image_resolve (self : Image) : Py dict :=
  image <~ Element_attributes Image.type ;;
  let image := dict_set image "image_url" (VStr (Image_image_url self)) in
  let image := dict_set image "alt_text" (VStr (Image_alt_text self)) in
  ret image.

(** [Confirm._resolve] *)
Definition Confirm_resolve (self : Confirm) : Py dict :=
  title <~ resolve_attr (Confirm_title self) ;;
  text <~ resolve_attr (Confirm_text self) ;;
  confirm <~ resolve_attr (Confirm_confirm self) ;;
  deny <~ resolve_attr (Confirm_deny self) ;;
  ret [("title", title); ("text", text); ("confirm", confirm); ("deny", deny)].

(** [if self.confirm: d["confirm"] = self.confirm._resolve()] *)
Definition set_confirm (d : dict) (confirm : option Confirm) : Py dict :=
  match confirm with
  | Some c => r <~ Confirm_resolve c ;; ret (dict_set d "confirm" (VDict r))
  | None => ret d
  end.

(** [Button._resolve] *)
Definition Button_resolve (self : Button) : Py dict :=
  button <~ Element_attributes Button.type ;;
  text <~ resolve_attr (Button_text self) ;;
  let button := dict_set button "text" text in
  let button := dict_set button "action_id" (VStr (Button_action_id self)) in
  let button := set_if_truthy truthy_str VStr button "style" (Button_style self) in
  let button := set_if_truthy truthy_str VStr button "url" (Button_url self) in
  let button := set_if_truthy truthy_str VStr button "value" (Button_value self) in
  set_confirm button (Button_confirm self).

(** [DispatchActionConfig._resolve] *)
Definition DispatchActionConfig_resolve (self : DispatchActionConfig)
  : Py dict :=
  let actions : list value := [] in
  let actions :=
    if DispatchActionConfig_on_character_entered self
    then (actions ++ [VStr "on_character_entered"])%list else actions in
  let actions :=
    if DispatchActionConfig_on_enter_pressed self
    then (actions ++ [VStr "on_enter_pressed"])%list else actions in
  ret [("trigger_actions_on", VList actions)].

(** [TextInput._resolve] *)
Definition TextInput_resolve (self : TextInput) : Py dict :=
  inputfield <~ Element_attributes TextInput.type ;;
  let inputfield :=
    dict_set inputfield "action_id" (VStr (TextInput_action_id self)) in
  let inputfield :=
    dict_set inputfield "multiline" (VBool (TextInput_multiline self)) in
  inputfield <~ set_Text inputfield "placeholder" (TextInput_placeholder self) ;;
  let inputfield :=
    set_if_truthy truthy_str VStr
      inputfield "initial_value" (TextInput_initial_value self) in
  let inputfield :=
    set_if_truthy truthy_int VInt
      inputfield "min_length" (TextInput_min_length self) in
  let inputfield :=
    set_if_truthy truthy_int VInt
      inputfield "max_length" (TextInput_max_length self) in
  match TextInput_dispatch_config self with
  | Some dispatch_config =>
      r <~ DispatchActionConfig_resolve dispatch_config ;;
      ret (dict_set inputfield "dispatch_action_config" (VDict r))
  | None => ret inputfield
  end.

(** [OptionObject._resolve] *)
Definition OptionObject_resolve (self : OptionObject) : Py dict :=
  let option : dict := [] in
  text <~ resolve_attr (OptionObject_text self) ;;
  let option := dict_set option "text" text in
  let option := dict_set option "value" (VStr (OptionObject_value self)) in
  option <~ set_Text option "description" (OptionObject_description self) ;;
  let option := set_if_truthy truthy_str VStr option "url" (OptionObject_url self) in
  ret option.

(** [[option._resolve() for option in options]] *)
Definition resolve_options (options : list OptionObject) : Py value :=
  l <~ for_each (fun o => r <~ OptionObject_resolve o ;; ret (VDict r)) options ;;
  ret (VList l).

(** [OptionGroup._resolve] *)
Definition OptionGroup_resolve (self : OptionGroup) : Py dict :=
  let option_group : dict := [] in
  label <~ resolve_attr (OptionGroup_label self) ;;
  let option_group := dict_set option_group "label" label in
  options <~ resolve_options (OptionGroup_options self) ;;
  let option_group := dict_set option_group "options" options in
  ret option_group.

(** [StaticSelect._resolve] *)
Definition StaticSelect_resolve (self : StaticSelect) : Py dict :=
  element <~ Element_attributes StaticSelect.type ;;
  placeholder <~ resolve_attr (StaticSelect_placeholder self) ;;
  let element := dict_set element "placeholder" placeholder in
  let element := dict_set element "action_id" (VStr (StaticSelect_action_id self)) in
  element <~
    (if truthy_opt truthy_list (StaticSelect_options self) then
       match StaticSelect_options self with
       | Some options =>
           r <~ resolve_options options ;;
           ret (dict_set element "options" r)
       | None => ret element
       end
     else
       match StaticSelect_option_group self with
       | Some option_group =>
           r <~ OptionGroup_resolve option_group ;;
           ret (dict_set element "option_group" (VDict r))
       | None => ret element
       end) ;;
  element <~
    match StaticSelect_initial_option self with
    | Some initial_option =>
        if StaticSelect.truthy_initial initial_option then
          match initial_option with
          | InitialStr _ =>
              raise (AttributeError "'str' object has no attribute '_resolve'")
          | InitialOption o =>
              r <~ OptionObject_resolve o ;;
              ret (dict_set element "initial_option" (VDict r))
          end
        else ret element
    | None => ret element
    end ;;
  set_confirm element (StaticSelect_confirm self).

(** [if xs: element[k] = [option._resolve() for option in xs]] *)
Definition set_options (element : dict) (k : string)
  (xs : option (list OptionObject)) : Py dict :=
  match xs with
  | Some options =>
      if truthy_list options then
        r <~ resolve_options options ;; ret (dict_set element k r)
      else ret element
  | None => ret element
  end.

(** [CheckboxSelector._resolve] *)
Definition CheckboxSelector_resolve (self : CheckboxSelector) : Py dict :=
  element <~ Element_attributes CheckboxSelector.type ;;
  let element :=
    dict_set element "action_id" (VStr (CheckboxSelector_action_id self)) in
  element <~ set_options element "options" (CheckboxSelector_options self) ;;
  element <~ set_options element "initial_options"
               (CheckboxSelector_initial_options self) ;;
  ret (Confirm.set_raw element (CheckboxSelector_confirm self)).

(** [MultiUsersSelect._resolve] *)
Definition MultiUsersSelect_resolve (self : MultiUsersSelect) : Py dict :=
  element <~ Element_attributes MultiUsersSelect.type ;;
  placeholder <~ resolve_attr (MultiUsersSelect_placeholder self) ;;
  let element := dict_set element "placeholder" placeholder in
  let element :=
    dict_set element "action_id" (VStr (MultiUsersSelect_action_id self)) in
  let element :=
    if truthy_opt truthy_int (MultiUsersSelect_max_selected_items self) then
      set_if_truthy truthy_int VInt element "max_selected_items"
        (MultiUsersSelect_max_selected_items self)
    else
      set_if_truthy truthy_list (fun us => VList (map VStr us))
        element "initial_users" (MultiUsersSelect_initial_users self) in
  ret (Confirm.set_raw element (MultiUsersSelect_confirm self)).

(** [TimePicker._resolve] *)
Definition TimePicker_resolve (self : TimePicker) : Py dict :=
  time_picker <~ Element_attributes TimePicker.type ;;
  placeholder <~ resolve_attr (TimePicker_placeholder self) ;;
  let time_picker := dict_set time_picker "placeholder" placeholder in
  let time_picker :=
    dict_set time_picker "action_id" (VStr (TimePicker_action_id self)) in
  let time_picker :=
    set_if_truthy truthy_obj (fun t => VStr (strftime_H_M t))
      time_picker "initial_time" (TimePicker_initial_time self) in
  set_confirm time_picker (TimePicker_confirm self).

(** [DatePicker._resolve] *)
Definition DatePicker_resolve (self : DatePicker) : Py dict :=
  date_picker <~ Element_attributes DatePicker.type ;;
  let date_picker :=
    dict_set date_picker "action_id" (VStr (DatePicker_action_id self)) in
  date_picker <~ set_Text date_picker "placeholder" (DatePicker_placeholder self) ;;
  let date_picker :=
    set_if_truthy truthy_obj (fun d => VStr (strftime_Y_m_d d))
      date_picker "initial_date" (DatePicker_initial_date self) in
  set_confirm date_picker (DatePicker_confirm self).

(** [element._resolve()], dispatched on the class of the element. *)
Definition Element_resolve (e : Element) : Py dict :=
  match e with
  | IsText x => Text_resolve x
  | IsImage x => Image_resolve x
  | IsConfirm x => Confirm_resolve x
  | IsButton x => Button_resolve x
  | IsTextInput x => TextInput_resolve x
  | IsStaticSelect x => StaticSelect_resolve x
  | IsCheckboxSelector x => CheckboxSelector_resolve x
  | IsMultiUsersSelect x => MultiUsersSelect_resolve x
  | IsTimePicker x => TimePicker_resolve x
  | IsDatePicker x => DatePicker_resolve x
  end.

(** [[element._resolve() for element in elements]] *)
Definition resolve_elements (elements : list Element) : Py value :=
  l <~ for_each (fun e => r <~ Element_resolve e ;; ret (VDict r)) elements ;;
  ret (VList l).

(** [Block._attributes] *)
Definition Block_attributes (self : Block) : Py dict :=
  ret [("type", VStr (BlockType.value (Block_type self)));
       ("block_id", VStr (Block_block_id self))].

(** [SectionBlock._resolve] *)
Definition SectionBlock_resolve (self : SectionBlock) : Py dict :=
  section <~ Block_attributes (SectionBlock_super self) ;;
  section <~ set_Text section "text" (SectionBlock_text self) ;;
  section <~
    match SectionBlock_fields self with
    | Some fields =>
        if truthy_list fields then
          l <~ for_each resolve_attr fields ;;
          ret (dict_set section "fields" (VList l))
        else ret section
    | None => ret section
    end ;;
  match SectionBlock_accessory self with
  | Some accessory =>
      r <~ Element_resolve accessory ;;
      ret (dict_set section "accessory" (VDict r))
  | None => ret section
  end.

(** [DividerBlock._resolve] *)
Definition DividerBlock_resolve (self : DividerBlock) : Py dict :=
  Block_attributes (DividerBlock_super self).

(** [ImageBlock._resolve] *)
Definition ImageBlock_resolve (self : ImageBlock) : Py dict :=
  image <~ Block_attributes (ImageBlock_super self) ;;
  let image := dict_set image "image_url" (VStr (ImageBlock_image_url self)) in
  let image := dict_set image "alt_text" (of_opt_str (ImageBlock_alt_text self)) in
  if truthy_obj (ImageBlock_title self) then
    r <~ Text_resolve (ImageBlock_title self) ;;
    ret (dict_set image "title" (VDict r))
  else ret image.

(** [ActionsBlock._resolve] *)
Definition ActionsBlock_resolve (self : ActionsBlock) : Py dict :=
  actions <~ Block_attributes (ActionsBlock_super self) ;;
  match ActionsBlock_elements self with
  | Some elements =>
      r <~ resolve_elements elements ;;
      ret (dict_set actions "elements" r)
  | None =>
      raise (AttributeError "'ActionsBlock' object has no attribute 'elements'")
  end.

(** [ContextBlock._resolve] *)
Definition ContextBlock_resolve (self : ContextBlock) : Py dict :=
  context <~ Block_attributes (ContextBlock_super self) ;;
  r <~ resolve_elements (ContextBlock_elements self) ;;
  ret (dict_set context "elements" r).

(** [FileBlock._resolve] *)
Definition FileBlock_resolve (self : FileBlock) : Py dict :=
  file <~ Block_attributes (FileBlock_super self) ;;
  let file := dict_set file "external_id" (VStr (FileBlock_external_id self)) in
  let file := dict_set file "source" (VStr (FileBlock_source self)) in
  ret file.

(** [HeaderBlock._resolve] *)
Definition HeaderBlock_resolve (self : HeaderBlock) : Py dict :=
  header <~ Block_attributes (HeaderBlock_super self) ;;
  r <~ Text_resolve (HeaderBlock_text self) ;;
  ret (dict_set header "text" (VDict r)).

(** [InputBlock._resolve] *)
Definition InputBlock_resolve (self : InputBlock) : Py dict :=
  header <~ Block_attributes (InputBlock_super self) ;;
  label <~ resolve_attr (InputBlock_label self) ;;
  let header := dict_set header "label" label in
  element <~ Element_resolve (InputBlock_element self) ;;
  let header := dict_set header "element" (VDict element) in
  let header :=
    dict_set header "dispatch_action" (VBool (InputBlock_dispatch_action self)) in
  let header := dict_set header "optional" (VBool (InputBlock_optional self)) in
  set_Text header "hint" (InputBlock_hint self).

(** [block._resolve()], dispatched on the class of the block. *)
Definition Block_resolve (b : AnyBlock) : Py dict :=
  match b with
  | IsSectionBlock x => SectionBlock_resolve x
  | IsDividerBlock x => DividerBlock_resolve x
  | IsImageBlock x => ImageBlock_resolve x
  | IsActionsBlock x => ActionsBlock_resolve x
  | IsContextBlock x => ContextBlock_resolve x
  | IsFileBlock x => FileBlock_resolve x
  | IsHeaderBlock x => HeaderBlock_resolve x
  | IsInputBlock x => InputBlock_resolve x
  end.

(** [block._resolve()] on an entry of a view's [blocks]. *)
Definition resolve_entry (x : block_or_int) : Py value :=
  match x with
  | ABlock b => r <~ Block_resolve b ;; ret (VDict r)
  | AnInt _ => raise (AttributeError "'int' object has no attribute '_resolve'")
  end.

(** [BaseSlackView._attributes]; [dumps] is [json.dumps]. *)
Definition BaseSlackView_attributes (dumps : dict -> Result string)
  (self : BaseSlackView) : Py dict :=
  blocks <~ for_each resolve_entry (BaseSlackView_blocks self) ;;
  let attributes :=
    [("type", VStr (SlackViewType.value (BaseSlackView_type self)));
     ("blocks", VList blocks)] in
  let attributes :=
    set_if_truthy truthy_str VStr
      attributes "external_id" (BaseSlackView_external_id self) in
  let attributes :=
    set_if_truthy truthy_str VStr
      attributes "callback_id" (BaseSlackView_callback_id self) in
  match BaseSlackView_private_metadata self with
  | Some private_metadata =>
      if truthy_list private_metadata then
        s <~ call (dumps private_metadata) ;;
        ret (dict_set attributes "private_metadata" (VStr s))
      else ret attributes
  | None => ret attributes
  end.

(** [HomeSlackView._resolve] *)
Definition HomeSlackView_resolve (dumps : dict -> Result string)
  (self : HomeSlackView) : Py dict :=
  BaseSlackView_attributes dumps (HomeSlackView_super self).

(** [ModalSlackView._resolve] *)
Definition ModalSlackView_resolve (dumps : dict -> Result string)
  (self : ModalSlackView) : Py dict :=
  view <~ BaseSlackView_attributes dumps (ModalSlackView_super self) ;;
  title <~ resolve_attr (ModalSlackView_title self) ;;
  let view := dict_set view "title" title in
  view <~
    match ModalSlackView_submit self with
    | Some submit =>
        r <~ Text_resolve submit ;; ret (dict_set view "submit" (VDict r))
    | None =>
        if existsb ModalSlackView.int_or_InputBlock
             (BaseSlackView_blocks (ModalSlackView_super self))
        then raise (InvalidUsageError ModalSlackView.submit_message)
        else ret view
    end ;;
  view <~ set_Text view "close" (ModalSlackView_close self) ;;
  let view :=
    set_if_truthy (fun b : bool => b) VBool
      view "clear_on_close" (ModalSlackView_clear_on_close self) in
  let view :=
    set_if_truthy (fun b : bool => b) VBool
      view "notify_on_close" (ModalSlackView_notify_on_close self) in
  ret view.

(** [node._resolve()] for any node of a tree. *)
Definition resolve (dumps : dict -> Result string) (n : Node) : Py dict :=
  match n with
  | ElementNode e => Element_resolve e
  | BlockNode b => Block_resolve b
  | ViewNode (IsHomeSlackView v) => HomeSlackView_resolve dumps v
  | ViewNode (IsModalSlackView v) => ModalSlackView_resolve dumps v
  end.
End Run.

(** [try: r = m() except e: r = e]: the outcome of a call as a value. *)
Definition observe {A : Type} (m : Py A) : Py (Result A) :=
  fun w => let (r, w') := m w in (Ok r, w').

(** Two resolutions of the same node, one after the other. *)
Definition resolve_twice (dumps : dict -> Result string) (n : Node)
  : Py (Result dict * Result dict) :=
  first <~ observe (Run.resolve dumps n) ;;
  second <~ observe (Run.resolve dumps n) ;;
  ret (first, second).

(** ["x" * n] *)
Fixpoint replicate (n : nat) (c : ascii) : string :=
  match n with
  | O => EmptyString
  | S n' => String c (replicate n' c)
  end.

(** A world for the examples: the [n]-th token is ["uuid-"] and [n] marks. *)
Definition example_world : World :=
  mkWorld (fun n => "uuid-" ++ replicate n "i"%char) 0.

(** A [json.dumps] for the examples; no example carries private metadata. *)
Definition example_dumps : dict -> Result string := fun _ => Ok "{}".

(* ================================================================== *)
(** ** Notions and examples used in the statements *)

(** The type [to_text] gives to the [Text] it builds. *)
Definition forced_type (force_plaintext : bool) : TextType.t :=
  if force_plaintext then TextType.PLAINTEXT else TextType.MARKDOWN.

(** What [OptionObject("One", "1")] builds. *)
Definition option_one : OptionObject :=
  mkOptionObject
    (Some (Text.__init__ "One" TextType.PLAINTEXT (Some false) (Some false)))
    "1" None None.

(** What [OptionGroup("Group", [option_one])] builds. *)
Definition group_one : OptionGroup :=
  mkOptionGroup
    (Some (Text.__init__ "Group" TextType.PLAINTEXT (Some false) (Some false)))
    [option_one].

(** [options] counts as supplied when it is a non-empty list, [option_group]
    when it is not [None]: the constructor tests both by truthiness. *)
Definition supplied_options (options : option (list OptionObject)) : bool :=
  truthy_opt truthy_list options.

Definition supplied_option_group (option_group : option OptionGroup) : bool :=
  truthy_opt truthy_obj option_group.

(** The kind of an element, by its class. *)
Definition Text_or_Image (e : Element) : Prop :=
  match e with
  | IsText _ | IsImage _ => True
  | _ => False
  end.

(** [Text("ctx")] and [Button("Go", "go")], as elements. *)
Definition context_text : Element :=
  IsText (Text.__init__ "ctx" TextType.MARKDOWN (Some false) (Some false)).

Definition context_button : Element :=
  IsButton
    (mkButton
       (Some (Text.__init__ "Go" TextType.PLAINTEXT (Some false) (Some false)))
       "go" None None None None).

(** An entry of [blocks] that is a block of kind Input. *)
Definition InputBlock_entry (x : block_or_int) : Prop :=
  match x with
  | ABlock (IsInputBlock _) => True
  | _ => False
  end.

(** An Input block around a text input, with a block id of its own. *)
Definition name_input : InputBlock :=
  mkInputBlock (mkBlock BlockType.INPUT "b1")
    (Some (Text.__init__ "Name" TextType.PLAINTEXT (Some false) (Some false)))
    (IsTextInput (mkTextInput "t1" None None false None None None))
    false false None.

(** What [ModalSlackView(title="", submit=..., blocks=[name_input])] builds:
    [to_text] coerces the empty title to [None]. *)
Definition untitled_modal (submit : option Text) : ModalSlackView :=
  mkModalSlackView
    (mkBaseSlackView SlackViewType.MODAL [ABlock (IsInputBlock name_input)]
       None None None)
    None None submit None None.

(** The specification's scenario: a titled modal with one Input block, without
    and with a submit label. *)
Definition titled_modal (submit : option Text) : ModalSlackView :=
  mkModalSlackView
    (mkBaseSlackView SlackViewType.MODAL [ABlock (IsInputBlock name_input)]
       None None None)
    (Some (Text.__init__ "T" TextType.PLAINTEXT (Some false) (Some false)))
    None submit None None.

(** What [StaticSelect("a", "Pick", options=[option_one],
    initial_option=...)] builds. *)
Definition pick_one (initial_option : option str_or_OptionObject)
  : StaticSelect :=
  mkStaticSelect "a" (Some [option_one]) None
    (Some (Text.__init__ "Pick" TextType.PLAINTEXT (Some false) (Some false)))
    initial_option None.

(** The content of a [to_text] argument: the string, or the node's text. *)
Definition content_of (x : str_or_Text) : string :=
  match x with
  | OfStr s => s
  | OfText t => Text_text t
  end.

(** [len(s)] as a Python integer. *)
Definition str_len (s : string) : Z := Z.of_nat (String.length s).

(** What [to_text] builds from a content: the flags are the defaults of
    [Text.__init__]. *)
Definition coerced (content : string) (force_plaintext : bool) : Text :=
  Text.__init__ content (forced_type force_plaintext) (Some false) (Some false).

(** The resolved form of a plain-text label and of a markdown body with the
    default flags. *)
Definition plain_text_payload (s : string) : value :=
  VDict [("type", VStr "plain_text"); ("text", VStr s)].

Definition mrkdwn_payload (s : string) : value :=
  VDict [("type", VStr "mrkdwn"); ("text", VStr s); ("verbatim", VBool false)].

(** An optional attribute that is set. *)
Definition present {A : Type} (o : option A) : bool :=
  match o with
  | Some _ => true
  | None => false
  end.

(** What [if self.x: d[k] = self.x] leaves under [k]: the value when it is
    truthy, and no entry otherwise. *)
Definition emitted_str (o : option string) : option value :=
  match o with
  | Some s => if truthy_str s then Some (VStr s) else None
  | None => None
  end.

Definition emitted_int (o : option Z) : option value :=
  match o with
  | Some z => if truthy_int z then Some (VInt z) else None
  | None => None
  end.

Definition emitted_Text (o : option Text) : option value :=
  match o with
  | Some t => Some (VDict (Text._resolve t))
  | None => None
  end.

(** An optional confirmation dialog that is absent or resolves. *)
Definition Confirm_resolves (o : option Confirm) : Prop :=
  match o with
  | Some c => exists r, Confirm._resolve c = Ok r
  | None => True
  end.

(** The four labels of a dialog are all set. *)
Definition Confirm_complete (c : Confirm) : bool :=
  present (Confirm_title c) && present (Confirm_text c)
  && present (Confirm_confirm c) && present (Confirm_deny c).

(** The block id a constructor stores, and the world it leaves: a non-empty
    [block_id] is kept and draws nothing, otherwise the next token is drawn. *)
Definition token_for (block_id : option string) (w : World) : string :=
  match block_id with
  | Some id => if truthy_str id then id else uuid_source w (uuid_drawn w)
  | None => uuid_source w (uuid_drawn w)
  end.

Definition after_draw (block_id : option string) (w : World) : World :=
  if truthy_opt truthy_str block_id then w
  else mkWorld (uuid_source w) (S (uuid_drawn w)).

(** An optional accessory that is absent or resolves. *)
Definition Element_resolves (o : option Element) : Prop :=
  match o with
  | Some e => exists r, Elements._resolve e = Ok r
  | None => True
  end.

(** The title an [ImageBlock] shows for its [title] argument. *)
Definition shown_title (title : option str_or_Text) : string :=
  match title with
  | Some x => if Text.truthy x then content_of x else " "
  | None => " "
  end.

(** The type tag an element resolves with: a [Text] carries its text type,
    every other element its element type. *)
Definition type_tag (e : Element) : string :=
  match e with
  | IsText t => TextType.value (Text_text_type t)
  | _ => ElementType.value (Elements.type e)
  end.

(** What [if self.flag: d[k] = self.flag] leaves under [k]. *)
Definition emitted_flag (o : option bool) : option value :=
  match o with
  | Some true => Some (VBool true)
  | _ => None
  end.

(** The length of an optional string argument, [None] counting as empty. *)
Definition opt_len (o : option string) : Z :=
  match o with
  | Some s => str_len s
  | None => 0%Z
  end.

(** An optional string as an [Optional[Union[str, Text]]] argument. *)
Definition as_arg (o : option string) : option str_or_Text :=
  match o with
  | Some s => Some (OfStr s)
  | None => None
  end.

(** The number that a string of decimal digits writes; [None] for the empty
    string and for a string with another character. *)
Definition number (s : string) : option nat :=
  option_map Nat.of_uint (NilZero.uint_of_string s).

(** The times and the dates that [datetime.time] and [datetime.datetime]
    build; the last year is 9999. *)
Definition time_in_range (t : time) : Prop :=
  hour t < 24 /\ minute t < 60.

Definition date_in_range (d : datetime) : Prop :=
  1 <= year d < 100 * 100 /\ 1 <= month d <= 12 /\ 1 <= day d <= 31.

(* ================================================================== *)
(** * Properties *)

(** ** Dictionaries *)

Lemma dict_get_set_same (d : dict) (k : string) (v : value) :
  dict_get (dict_set d k v) k = Some v.
Proof.
  induction d as [| [k' v'] rest IH]; simpl.
  - now rewrite String.eqb_refl.
  - destruct (String.eqb k' k) eqn:E; simpl; rewrite E; auto.
Qed.

Lemma dict_get_set_other (d : dict) (k k' : string) (v : value) :
  k <> k' -> dict_get (dict_set d k v) k' = dict_get d k'.
Proof.
  intros Hne. induction d as [| [k0 v0] rest IH]; simpl.
  - destruct (String.eqb k k') eqn:E; auto.
    apply String.eqb_eq in E. contradiction.
  - destruct (String.eqb k0 k) eqn:E; simpl.
    + apply String.eqb_eq in E. subst k0.
      destruct (String.eqb k k') eqn:E'; auto.
      apply String.eqb_eq in E'. contradiction.
    + destruct (String.eqb k0 k'); auto.
Qed.

Lemma dict_get_set_if_truthy_other {A : Type} (t : A -> bool) (inj : A -> value)
  (d : dict) (k k' : string) (o : option A) :
  k <> k' -> dict_get (set_if_truthy t inj d k o) k' = dict_get d k'.
Proof.
  intros Hne. unfold set_if_truthy.
  destruct o as [a |]; auto. destruct (t a); auto.
  now apply dict_get_set_other.
Qed.

(** Assigning a key never moves the first key of a non-empty dictionary. *)
Lemma hd_keys_set (d : dict) (k : string) (v : value) (k0 : string) :
  hd_error (keys d) = Some k0 -> hd_error (keys (dict_set d k v)) = Some k0.
Proof.
  destruct d as [| [k' v'] rest]; simpl; [discriminate |].
  intros H. destruct (String.eqb k' k); simpl; exact H.
Qed.

Lemma hd_keys_set_if_truthy {A : Type} (t : A -> bool) (inj : A -> value)
  (d : dict) (k : string) (o : option A) (k0 : string) :
  hd_error (keys d) = Some k0 ->
  hd_error (keys (set_if_truthy t inj d k o)) = Some k0.
Proof.
  intros H. unfold set_if_truthy.
  destruct o as [a |]; auto. destruct (t a); auto.
  now apply hd_keys_set.
Qed.

(** ** Results *)

Lemma bind_Ok_inv {A B : Type} (r : Result A) (k : A -> Result B) (b : B) :
  bind r k = Ok b -> exists a, r = Ok a /\ k a = Ok b.
Proof.
  destruct r as [a | e]; simpl; intros H; [eauto | discriminate].
Qed.

Ltac bind_inv H :=
  let a := fresh "a" in
  let Ha := fresh "Ha" in
  apply bind_Ok_inv in H; destruct H as [a [Ha H]].

(** ** Identity tokens *)

Lemma Block_init_total (type_ : BlockType.t) (block_id : option string)
  (w : World) :
  exists id w',
    Block.__init__ type_ block_id w = (Ok (mkBlock type_ id), w').
Proof.
  unfold Block.__init__.
  destruct block_id as [id |]; [destruct (truthy_str id) |];
    cbv [ret pbind uuid4_str]; eauto.
Qed.

Lemma Block_attributes_block_id (self : Block) :
  dict_get (Block._attributes self) "block_id"
  = Some (VStr (Block_block_id self)).
Proof. reflexivity. Qed.

Ltac other_key :=
  repeat first
    [ rewrite dict_get_set_other by discriminate
    | rewrite dict_get_set_if_truthy_other by discriminate ].

(** A resolved block carries the token its constructor stored. *)
Lemma resolved_block_id (b : AnyBlock) (d : dict) :
  Blocks._resolve b = Ok d ->
  dict_get d "block_id" = Some (VStr (Block_block_id (Blocks.super b))).
Proof.
  destruct b as [x | x | x | x | x | x | x | x]; simpl; intros H.
  - unfold SectionBlock._resolve in H.
    bind_inv H.
    assert (Hsec : dict_get a "block_id"
                   = Some (VStr (Block_block_id (SectionBlock_super x)))).
    { destruct (SectionBlock_fields x) as [fields |].
      - destruct (truthy_list fields).
        + bind_inv Ha. injection Ha as <-. now other_key.
        + injection Ha as <-. now other_key.
      - injection Ha as <-. now other_key. }
    destruct (SectionBlock_accessory x) as [acc |].
    + bind_inv H. injection H as <-. now other_key.
    + injection H as <-. exact Hsec.
  - injection H as <-. reflexivity.
  - injection H as <-. unfold ImageBlock._resolve. simpl. now other_key.
  - unfold ActionsBlock._resolve in H.
    destruct (ActionsBlock_elements x); [| discriminate].
    bind_inv H. injection H as <-. now other_key.
  - unfold ContextBlock._resolve in H.
    bind_inv H. injection H as <-. now other_key.
  - injection H as <-. unfold FileBlock._resolve. now other_key.
  - injection H as <-. unfold HeaderBlock._resolve. now other_key.
  - unfold InputBlock._resolve in H.
    bind_inv H. bind_inv H. injection H as <-. now other_key.
Qed.

(** ** Resolution leaves the world as it is

    Each computation of [Run] returns what the method of the same name
    returns and hands the world back unchanged. *)

Lemma for_each_pure {A B : Type} (f : A -> Py B) (g : A -> Result B) :
  (forall x w, f x w = (g x, w)) ->
  forall xs w, for_each f xs w = (comprehension g xs, w).
Proof.
  intros Hf xs. induction xs as [| x rest IH]; intros w; simpl.
  - reflexivity.
  - unfold pbind. rewrite Hf. destruct (g x) as [y | e]; simpl; auto.
    rewrite IH. destruct (comprehension g rest); reflexivity.
Qed.

Create Rewrite HintDb run.

Ltac case_on x :=
  lazymatch x with
  | context [match _ with Ok _ => _ | Raise _ => _ end] => fail
  | context [match _ with Some _ => _ | None => _ end] => fail
  | context [if _ then _ else _] => fail
  | _ => destruct x
  end.

Ltac run_pure :=
  intros;
  repeat first
    [ progress autorewrite with run
    | progress cbv beta iota zeta delta [pbind ret call raise bind deref]
    | match goal with
      | |- context [if ?b then _ else _] => case_on b
      | |- context [match ?o with Some _ => _ | None => _ end] => case_on o
      | |- context [match comprehension ?f ?xs with Ok _ => _ | Raise _ => _ end] =>
          destruct (comprehension f xs)
      | |- context [match ?r with Ok _ => _ | Raise _ => _ end] => case_on r
      end ];
  try reflexivity.

Lemma Run_Text_resolve (self : Text) (w : World) :
  Run.Text_resolve self w = (Ok (Text._resolve self), w).
Proof. unfold Run.Text_resolve, Text._resolve. run_pure. Qed.
#[local] Hint Rewrite Run_Text_resolve : run.

Lemma Run_resolve_attr (attr : option Text) (w : World) :
  Run.resolve_attr attr w = (Text.resolve_attr attr, w).
Proof. unfold Run.resolve_attr, Text.resolve_attr. destruct attr; run_pure. Qed.
#[local] Hint Rewrite Run_resolve_attr : run.

Lemma Run_set_Text (d : dict) (k : string) (attr : option Text) (w : World) :
  Run.set_Text d k attr w
  = (Ok (set_if_truthy truthy_obj (fun t => VDict (Text._resolve t)) d k attr),
     w).
Proof.
  unfold Run.set_Text, set_if_truthy, truthy_obj. destruct attr; run_pure.
Qed.
#[local] Hint Rewrite Run_set_Text : run.

Lemma Run_Element_attributes (type_ : ElementType.t) (w : World) :
  Run.Element_attributes type_ w = (Ok (Element._attributes type_), w).
Proof. reflexivity. Qed.
#[local] Hint Rewrite Run_Element_attributes : run.

Lemma Run_Image_resolve (self : Image) (w : World) :
  Run.Image_resolve self w = (Ok (Image._resolve self), w).
Proof. unfold Run.Image_resolve, Image._resolve. run_pure. Qed.
#[local] Hint Rewrite Run_Image_resolve : run.

Lemma Run_Confirm_resolve (self : Confirm) (w : World) :
  Run.Confirm_resolve self w = (Confirm._resolve self, w).
Proof. unfold Run.Confirm_resolve, Confirm._resolve. run_pure. Qed.
#[local] Hint Rewrite Run_Confirm_resolve : run.

Lemma Run_set_confirm (d : dict) (confirm : option Confirm) (w : World) :
  Run.set_confirm d confirm w = (Confirm.set_resolved d confirm, w).
Proof.
  unfold Run.set_confirm, Confirm.set_resolved. destruct confirm; run_pure.
Qed.
#[local] Hint Rewrite Run_set_confirm : run.

Lemma Run_Button_resolve (self : Button) (w : World) :
  Run.Button_resolve self w = (Button._resolve self, w).
Proof. unfold Run.Button_resolve, Button._resolve. run_pure. Qed.
#[local] Hint Rewrite Run_Button_resolve : run.

Lemma Run_DispatchActionConfig_resolve (self : DispatchActionConfig)
  (w : World) :
  Run.DispatchActionConfig_resolve self w
  = (Ok (DispatchActionConfig._resolve self), w).
Proof. reflexivity. Qed.
#[local] Hint Rewrite Run_DispatchActionConfig_resolve : run.

Lemma Run_TextInput_resolve (self : TextInput) (w : World) :
  Run.TextInput_resolve self w = (Ok (TextInput._resolve self), w).
Proof.
  unfold Run.TextInput_resolve, TextInput._resolve.
  destruct (TextInput_dispatch_config self); run_pure.
Qed.
#[local] Hint Rewrite Run_TextInput_resolve : run.

Lemma Run_OptionObject_resolve (self : OptionObject) (w : World) :
  Run.OptionObject_resolve self w = (OptionObject._resolve self, w).
Proof. unfold Run.OptionObject_resolve, OptionObject._resolve. run_pure. Qed.
#[local] Hint Rewrite Run_OptionObject_resolve : run.

Lemma Run_resolve_options (options : list OptionObject) (w : World) :
  Run.resolve_options options w = (OptionObject.resolve_all options, w).
Proof.
  unfold Run.resolve_options, OptionObject.resolve_all, pbind.
  rewrite (for_each_pure _ (fun o => r <- OptionObject._resolve o ;; Ok (VDict r)))
    by run_pure.
  run_pure.
Qed.
#[local] Hint Rewrite Run_resolve_options : run.

Lemma Run_OptionGroup_resolve (self : OptionGroup) (w : World) :
  Run.OptionGroup_resolve self w = (OptionGroup._resolve self, w).
Proof. unfold Run.OptionGroup_resolve, OptionGroup._resolve. run_pure. Qed.
#[local] Hint Rewrite Run_OptionGroup_resolve : run.

Lemma Run_StaticSelect_resolve (self : StaticSelect) (w : World) :
  Run.StaticSelect_resolve self w = (StaticSelect._resolve self, w).
Proof.
  unfold Run.StaticSelect_resolve, StaticSelect._resolve,
    StaticSelect.set_choices, StaticSelect.set_initial_option,
    StaticSelect.resolve_initial.
  destruct (StaticSelect_initial_option self) as [[s | o] |]; run_pure.
Qed.
#[local] Hint Rewrite Run_StaticSelect_resolve : run.

Lemma Run_set_options (element : dict) (k : string)
  (xs : option (list OptionObject)) (w : World) :
  Run.set_options element k xs w = (CheckboxSelector.set_options element k xs, w).
Proof.
  unfold Run.set_options, CheckboxSelector.set_options. destruct xs; run_pure.
Qed.
#[local] Hint Rewrite Run_set_options : run.

Lemma Run_CheckboxSelector_resolve (self : CheckboxSelector) (w : World) :
  Run.CheckboxSelector_resolve self w = (CheckboxSelector._resolve self, w).
Proof.
  unfold Run.CheckboxSelector_resolve, CheckboxSelector._resolve. run_pure.
Qed.
#[local] Hint Rewrite Run_CheckboxSelector_resolve : run.

Lemma Run_MultiUsersSelect_resolve (self : MultiUsersSelect) (w : World) :
  Run.MultiUsersSelect_resolve self w = (MultiUsersSelect._resolve self, w).
Proof.
  unfold Run.MultiUsersSelect_resolve, MultiUsersSelect._resolve. run_pure.
Qed.
#[local] Hint Rewrite Run_MultiUsersSelect_resolve : run.

Lemma Run_TimePicker_resolve (self : TimePicker) (w : World) :
  Run.TimePicker_resolve self w = (TimePicker._resolve self, w).
Proof. unfold Run.TimePicker_resolve, TimePicker._resolve. run_pure. Qed.
#[local] Hint Rewrite Run_TimePicker_resolve : run.

Lemma Run_DatePicker_resolve (self : DatePicker) (w : World) :
  Run.DatePicker_resolve self w = (DatePicker._resolve self, w).
Proof. unfold Run.DatePicker_resolve, DatePicker._resolve. run_pure. Qed.
#[local] Hint Rewrite Run_DatePicker_resolve : run.

Lemma Run_Element_resolve (e : Element) (w : World) :
  Run.Element_resolve e w = (Elements._resolve e, w).
Proof. destruct e; simpl; autorewrite with run; reflexivity. Qed.
#[local] Hint Rewrite Run_Element_resolve : run.

Lemma Run_resolve_elements (elements : list Element) (w : World) :
  Run.resolve_elements elements w = (Elements.resolve_all elements, w).
Proof.
  unfold Run.resolve_elements, Elements.resolve_all, pbind.
  rewrite (for_each_pure _ (fun e => r <- Elements._resolve e ;; Ok (VDict r)))
    by run_pure.
  run_pure.
Qed.
#[local] Hint Rewrite Run_resolve_elements : run.

Lemma Run_Block_attributes (self : Block) (w : World) :
  Run.Block_attributes self w = (Ok (Block._attributes self), w).
Proof. reflexivity. Qed.
#[local] Hint Rewrite Run_Block_attributes : run.

Lemma Run_SectionBlock_resolve (self : SectionBlock) (w : World) :
  Run.SectionBlock_resolve self w = (SectionBlock._resolve self, w).
Proof.
  unfold Run.SectionBlock_resolve, SectionBlock._resolve, pbind.
  autorewrite with run.
  destruct (SectionBlock_fields self) as [fields |];
    [destruct (truthy_list fields) |];
    try rewrite (for_each_pure _ Text.resolve_attr Run_resolve_attr);
    run_pure.
Qed.
#[local] Hint Rewrite Run_SectionBlock_resolve : run.

Lemma Run_DividerBlock_resolve (self : DividerBlock) (w : World) :
  Run.DividerBlock_resolve self w = (Ok (DividerBlock._resolve self), w).
Proof. reflexivity. Qed.
#[local] Hint Rewrite Run_DividerBlock_resolve : run.

Lemma Run_ImageBlock_resolve (self : ImageBlock) (w : World) :
  Run.ImageBlock_resolve self w = (Ok (ImageBlock._resolve self), w).
Proof.
  unfold Run.ImageBlock_resolve, ImageBlock._resolve, truthy_obj. run_pure.
Qed.
#[local] Hint Rewrite Run_ImageBlock_resolve : run.

Lemma Run_ActionsBlock_resolve (self : ActionsBlock) (w : World) :
  Run.ActionsBlock_resolve self w = (ActionsBlock._resolve self, w).
Proof.
  unfold Run.ActionsBlock_resolve, ActionsBlock._resolve.
  destruct (ActionsBlock_elements self); run_pure.
Qed.
#[local] Hint Rewrite Run_ActionsBlock_resolve : run.

Lemma Run_ContextBlock_resolve (self : ContextBlock) (w : World) :
  Run.ContextBlock_resolve self w = (ContextBlock._resolve self, w).
Proof. unfold Run.ContextBlock_resolve, ContextBlock._resolve. run_pure. Qed.
#[local] Hint Rewrite Run_ContextBlock_resolve : run.

Lemma Run_FileBlock_resolve (self : FileBlock) (w : World) :
  Run.FileBlock_resolve self w = (Ok (FileBlock._resolve self), w).
Proof. reflexivity. Qed.
#[local] Hint Rewrite Run_FileBlock_resolve : run.

Lemma Run_HeaderBlock_resolve (self : HeaderBlock) (w : World) :
  Run.HeaderBlock_resolve self w = (Ok (HeaderBlock._resolve self), w).
Proof. unfold Run.HeaderBlock_resolve, HeaderBlock._resolve. run_pure. Qed.
#[local] Hint Rewrite Run_HeaderBlock_resolve : run.

Lemma Run_InputBlock_resolve (self : InputBlock) (w : World) :
  Run.InputBlock_resolve self w = (InputBlock._resolve self, w).
Proof. unfold Run.InputBlock_resolve, InputBlock._resolve. run_pure. Qed.
#[local] Hint Rewrite Run_InputBlock_resolve : run.

Lemma Run_Block_resolve (b : AnyBlock) (w : World) :
  Run.Block_resolve b w = (Blocks._resolve b, w).
Proof. destruct b; simpl; autorewrite with run; reflexivity. Qed.
#[local] Hint Rewrite Run_Block_resolve : run.

Lemma Run_resolve_entry (x : block_or_int) (w : World) :
  Run.resolve_entry x w = (BaseSlackView.resolve_entry x, w).
Proof.
  unfold Run.resolve_entry, BaseSlackView.resolve_entry. destruct x; run_pure.
Qed.
#[local] Hint Rewrite Run_resolve_entry : run.

Lemma Run_BaseSlackView_attributes (dumps : dict -> Result string)
  (self : BaseSlackView) (w : World) :
  Run.BaseSlackView_attributes dumps self w
  = (BaseSlackView._attributes dumps self, w).
Proof.
  unfold Run.BaseSlackView_attributes, BaseSlackView._attributes, pbind.
  rewrite (for_each_pure _ BaseSlackView.resolve_entry Run_resolve_entry).
  destruct (BaseSlackView_private_metadata self) as [m |];
    [destruct (truthy_list m) |]; run_pure.
Qed.
#[local] Hint Rewrite Run_BaseSlackView_attributes : run.

Lemma Run_ModalSlackView_resolve (dumps : dict -> Result string)
  (self : ModalSlackView) (w : World) :
  Run.ModalSlackView_resolve dumps self w
  = (ModalSlackView._resolve dumps self, w).
Proof.
  unfold Run.ModalSlackView_resolve, ModalSlackView._resolve.
  destruct (ModalSlackView_submit self); run_pure.
Qed.

(** Whatever the node and the world, the resolution returns the value of
    [resolve] and the world it was given. *)
Lemma Run_resolve (dumps : dict -> Result string) (n : Node) (w : World) :
  Run.resolve dumps n w = (resolve dumps n, w).
Proof.
  destruct n as [e | b | [v | v]]; simpl.
  - apply Run_Element_resolve.
  - apply Run_Block_resolve.
  - apply Run_BaseSlackView_attributes.
  - apply Run_ModalSlackView_resolve.
Qed.

(** C1. Resolving a node twice in a row, in any world and for any node (a
    block, an element or a view), gives the same outcome both times, the value
    of [resolve], and leaves the world as it was: no [_resolve] method draws a
    token, which is proved method by method.  A token is drawn only by
    [Block.__init__], once, when no block id is supplied; a block built that
    way and resolved twice carries that token both times, and the world after
    the two resolutions is the world right after the construction. *)
Theorem C1_resolve_idempotent :
  (forall (dumps : dict -> Result string) (n : Node) (w : World),
      Run.resolve dumps n w = (resolve dumps n, w))
  /\ (forall (dumps : dict -> Result string) (n : Node) (w : World),
         resolve_twice dumps n w
         = (Ok (resolve dumps n, resolve dumps n), w))
  /\ (forall (type_ : BlockType.t) (w : World),
         Block.__init__ type_ None w
         = (Ok (mkBlock type_ (uuid_source w (uuid_drawn w))),
            mkWorld (uuid_source w) (S (uuid_drawn w))))
  /\ (forall (type_ : BlockType.t) (id : string) (w : World),
         truthy_str id = true ->
         Block.__init__ type_ (Some id) w = (Ok (mkBlock type_ id), w))
  /\ (forall (b : AnyBlock) (d : dict),
         Blocks._resolve b = Ok d ->
         dict_get d "block_id" = Some (VStr (Block_block_id (Blocks.super b))))
  /\ (forall (dumps : dict -> Result string) (w : World),
         (b <~ DividerBlock.__init__ None ;;
          resolve_twice dumps (BlockNode (IsDividerBlock b))) w
         = (let resolved :=
              Ok [("type", VStr "divider");
                  ("block_id", VStr (uuid_source w (uuid_drawn w)))] in
            (Ok (resolved, resolved),
             mkWorld (uuid_source w) (S (uuid_drawn w))))).
Proof.
  assert (Htwice : forall dumps n w,
             resolve_twice dumps n w
             = (Ok (resolve dumps n, resolve dumps n), w)).
  { intros dumps n w. unfold resolve_twice, pbind, observe.
    rewrite !Run_resolve. reflexivity. }
  split; [exact Run_resolve |]. split; [exact Htwice |].
  split; [reflexivity |]. split; [| split].
  - intros type_ id w Hid. unfold Block.__init__. now rewrite Hid.
  - exact resolved_block_id.
  - intros dumps w. unfold pbind at 1. simpl. rewrite Htwice. reflexivity.
Qed.

(** The header block of the specification's scenario is resolved twice with
    the same outcome in an unchanged world; a block id that is supplied is
    kept and draws no token. *)
Lemma C1_resolve_idempotent_witness :
  let header :=
    mkHeaderBlock (mkBlock BlockType.HEADER "uuid-")
      (Text.__init__ "Title" TextType.PLAINTEXT (Some false) (Some false)) in
  let resolved :=
    Ok [("type", VStr "header"); ("block_id", VStr "uuid-");
        ("text", VDict [("type", VStr "plain_text"); ("text", VStr "Title")])] in
  resolve_twice example_dumps (BlockNode (IsHeaderBlock header)) example_world
  = (Ok (resolved, resolved), example_world)
  /\ truthy_str "b1" = true
  /\ Block.__init__ BlockType.HEADER (Some "b1") example_world
     = (Ok (mkBlock BlockType.HEADER "b1"), example_world)
  /\ dict_get (HeaderBlock._resolve header) "block_id" = Some (VStr "uuid-").
Proof.
  intros header resolved.
  destruct C1_resolve_idempotent as [_ [Htwice [_ [Hid [Hres _]]]]].
  split; [| split; [reflexivity | split]].
  - exact (Htwice example_dumps (BlockNode (IsHeaderBlock header))
             example_world).
  - apply Hid. reflexivity.
  - apply (Hres (IsHeaderBlock header)). reflexivity.
Defined.

(** ** [Text.to_text] *)

Lemma truthy_str_length (s : string) :
  truthy_str s = true <-> (0 < String.length s)%nat.
Proof.
  destruct s; simpl; split; intros H; try discriminate; try lia; auto.
Qed.

(** A raw string longer than a non-zero limit is refused with the usage
    error, before any [Text] is built. *)
Lemma to_text_str_too_long (s : string) (force_plaintext : bool) (m : Z) :
  (0 < m)%Z -> (m < Z.of_nat (String.length s))%Z ->
  Text.to_text (Some (OfStr s)) force_plaintext (Some m)
  = Raise (InvalidUsageError Text.limit_message).
Proof.
  intros Hm Hlen. unfold Text.to_text. simpl.
  assert (Hs : truthy_str s = true) by (apply truthy_str_length; lia).
  rewrite Hs. simpl. unfold truthy_int.
  replace (Z.eqb m 0) with false by (symmetry; apply Z.eqb_neq; lia).
  simpl. replace (Z.ltb m (Z.of_nat (String.length s))) with true
    by (symmetry; apply Z.ltb_lt; lia).
  reflexivity.
Qed.

(** A non-empty raw string within the limit is coerced to a [Text] of the
    forced type. *)
Lemma to_text_str_within (s : string) (force_plaintext : bool) (m : Z) :
  truthy_str s = true -> (Z.of_nat (String.length s) <= m)%Z ->
  Text.to_text (Some (OfStr s)) force_plaintext (Some m)
  = Ok (Some (Text.__init__ s (forced_type force_plaintext)
                (Some false) (Some false))).
Proof.
  intros Hs Hlen. unfold Text.to_text. simpl. rewrite Hs. simpl.
  destruct (truthy_int m); simpl.
  - replace (Z.ltb m (Z.of_nat (String.length s))) with false
      by (symmetry; apply Z.ltb_ge; lia).
    reflexivity.
  - reflexivity.
Qed.

(** With a non-zero limit, a [Text] argument never gets as far as the
    comparison: [len] raises on it. *)
Lemma to_text_Text_with_limit (t : Text) (force_plaintext : bool) (m : Z) :
  m <> 0%Z ->
  Text.to_text (Some (OfText t)) force_plaintext (Some m)
  = Raise (TypeError "object of type 'Text' has no len()").
Proof.
  intros Hm. unfold Text.to_text. simpl. unfold truthy_int.
  replace (Z.eqb m 0) with false by (symmetry; now apply Z.eqb_neq).
  reflexivity.
Qed.

(** C2. [Text.to_text] on an existing [Text] node with a [max_length]: a
    node whose content has exactly [max_length] characters is not coerced, and
    a node whose content is longer is not refused with the usage error; in
    both cases [len(text)] raises [TypeError].  (Raw strings behave as
    claimed: [to_text_str_too_long], [to_text_str_within].) *)
Theorem C2_to_text_Text_node_raises_TypeError :
  Text.to_text
    (Some (OfText (Text.__init__ "abc" TextType.MARKDOWN (Some false) (Some false))))
    false (Some 3%Z)
  = Raise (TypeError "object of type 'Text' has no len()")
  /\ Text.to_text
       (Some (OfText (Text.__init__ "abcd" TextType.MARKDOWN (Some false) (Some false))))
       false (Some 3%Z)
     = Raise (TypeError "object of type 'Text' has no len()")
  /\ Text.to_text (Some (OfStr "abc")) false (Some 3%Z)
     = Ok (Some (Text.__init__ "abc" TextType.MARKDOWN (Some false) (Some false)))
  /\ Text.to_text (Some (OfStr "abcd")) false (Some 3%Z)
     = Raise (InvalidUsageError Text.limit_message).
Proof. repeat split. Qed.

(** ** [Text._resolve] *)

Lemma Text_resolve_type_and_text (self : Text) :
  dict_get (Text._resolve self) "type"
  = Some (VStr (TextType.value (Text_text_type self)))
  /\ dict_get (Text._resolve self) "text" = Some (VStr (Text_text self)).
Proof.
  unfold Text._resolve. destruct (Text_text_type self); simpl; auto.
Qed.

Lemma Text_resolve_verbatim (self : Text) :
  dict_has (Text._resolve self) "verbatim" = true
  <-> Text_text_type self = TextType.MARKDOWN.
Proof.
  unfold Text._resolve, dict_has.
  destruct (Text_text_type self); simpl; split; intros H;
    try discriminate; auto.
Qed.

Lemma Text_resolve_no_emoji (self : Text) :
  dict_has (Text._resolve self) "emoji" = false.
Proof.
  unfold Text._resolve, dict_has.
  destruct (Text_text_type self); reflexivity.
Qed.

(** C6. A PLAINTEXT [Text] built with [emoji=True] resolves to the keys
    [type] and [text] only: the [emoji] branch of [_resolve] compares
    [self.type], an [ElementType], with [TextType.PLAINTEXT], so it is never
    taken and no [Text] ever resolves with an [emoji] key. *)
Theorem C6_Text_resolve_drops_emoji :
  Text._resolve (Text.__init__ "hi" TextType.PLAINTEXT (Some true) (Some false))
  = [("type", VStr "plain_text"); ("text", VStr "hi")]
  /\ Text_emoji (Text.__init__ "hi" TextType.PLAINTEXT (Some true) (Some false))
     = Some true
  /\ forall self : Text, dict_has (Text._resolve self) "emoji" = false.
Proof.
  split; [reflexivity |]. split; [reflexivity |].
  exact Text_resolve_no_emoji.
Qed.

(** ** Placeholder limits *)

(** The time and date pickers refuse a placeholder string over 75
    characters. *)
Lemma picker_placeholder_over_75 (s : string) :
  (75 < String.length s)%nat ->
  (forall action_id initial_time confirm,
      TimePicker.__init__ action_id initial_time (Some (OfStr s)) confirm
      = Raise (InvalidUsageError Text.limit_message))
  /\ (forall action_id initial_date confirm,
         DatePicker.__init__ action_id initial_date (Some (OfStr s)) confirm
         = Raise (InvalidUsageError Text.limit_message)).
Proof.
  intros Hlen.
  assert (H : Text.to_text (Some (OfStr s)) true (Some 75%Z)
              = Raise (InvalidUsageError Text.limit_message))
    by (apply to_text_str_too_long; lia).
  split; intros; [unfold TimePicker.__init__ | unfold DatePicker.__init__];
    rewrite H; reflexivity.
Qed.

(** The selects and the text input accept a non-empty placeholder string of
    at most 150 characters. *)
Lemma select_placeholder_within_150 (s : string) :
  truthy_str s = true -> (String.length s <= 150)%nat ->
  Text.to_text (Some (OfStr s)) true (Some 150%Z)
  = Ok (Some (Text.__init__ s TextType.PLAINTEXT (Some false) (Some false))).
Proof.
  intros Hs Hlen. apply (to_text_str_within s true 150%Z Hs). lia.
Qed.

(** C7. A placeholder of 100 characters, within the limit of 150, is
    accepted by the text input and by the multi-users select and is refused
    with the usage error by the time picker and by the date picker, whose
    constructors pass [max_length=75]. *)
Theorem C7_picker_placeholder_limit_is_75 :
  TimePicker.__init__ "t" None (Some (OfStr (replicate 100 "x"))) None
  = Raise (InvalidUsageError Text.limit_message)
  /\ DatePicker.__init__ "d" None (Some (OfStr (replicate 100 "x"))) None
     = Raise (InvalidUsageError Text.limit_message)
  /\ TextInput.__init__ "i" (Some (OfStr (replicate 100 "x"))) None false
       None None None
     = Ok (mkTextInput "i"
             (Some (Text.__init__ (replicate 100 "x") TextType.PLAINTEXT
                      (Some false) (Some false)))
             None false None None None)
  /\ MultiUsersSelect.__init__ "m" (OfStr (replicate 100 "x")) None None None
     = Ok (mkMultiUsersSelect "m" None
             (Some (Text.__init__ (replicate 100 "x") TextType.PLAINTEXT
                      (Some false) (Some false)))
             None None).
Proof. repeat split. Qed.

(** ** Sparse serialisation of the multi-users select *)

Lemma MultiUsersSelect_resolve_max_hides_users (self : MultiUsersSelect)
  (d : dict) :
  truthy_opt truthy_int (MultiUsersSelect_max_selected_items self) = true ->
  MultiUsersSelect._resolve self = Ok d ->
  dict_has d "initial_users" = false.
Proof.
  intros Hmax H. unfold MultiUsersSelect._resolve in H.
  bind_inv H. rewrite Hmax in H. injection H as <-.
  unfold dict_has, Confirm.set_raw.
  destruct (MultiUsersSelect_confirm self); other_key; reflexivity.
Qed.

(** C8. A [MultiUsersSelect] built with both [max_selected_items] and
    [initial_users] resolves without the [initial_users] field: [_resolve]
    tests [initial_users] in the [elif] of the test of
    [max_selected_items]. *)
Theorem C8_MultiUsersSelect_both_emits_one :
  exists self,
    MultiUsersSelect.__init__ "a" (OfStr "p") (Some ["U1"]) (Some 2%Z) None
    = Ok self
    /\ MultiUsersSelect_initial_users self = Some ["U1"]
    /\ MultiUsersSelect_max_selected_items self = Some 2%Z
    /\ MultiUsersSelect._resolve self
       = Ok [("type", VStr "multi_users_select");
             ("placeholder",
              VDict [("type", VStr "plain_text"); ("text", VStr "p")]);
             ("action_id", VStr "a");
             ("max_selected_items", VInt 2)].
Proof. eexists. repeat split. Qed.

(** Every element but the confirmation dialog resolves to a mapping whose
    first key is [type]. *)
Lemma Confirm_set_resolved_hd (d d' : dict) (c : option Confirm) (k0 : string) :
  hd_error (keys d) = Some k0 ->
  Confirm.set_resolved d c = Ok d' ->
  hd_error (keys d') = Some k0.
Proof.
  intros Hd H. unfold Confirm.set_resolved in H. destruct c as [c |].
  - bind_inv H. injection H as <-. now apply hd_keys_set.
  - now injection H as <-.
Qed.

Lemma Confirm_set_raw_hd (d : dict) (c : option Confirm) (k0 : string) :
  hd_error (keys d) = Some k0 ->
  hd_error (keys (Confirm.set_raw d c)) = Some k0.
Proof.
  intros Hd. unfold Confirm.set_raw. destruct c; auto. now apply hd_keys_set.
Qed.

Lemma CheckboxSelector_set_options_hd (d d' : dict) (k : string)
  (xs : option (list OptionObject)) (k0 : string) :
  hd_error (keys d) = Some k0 ->
  CheckboxSelector.set_options d k xs = Ok d' ->
  hd_error (keys d') = Some k0.
Proof.
  intros Hd H. unfold CheckboxSelector.set_options in H.
  destruct xs as [options |]; [destruct (truthy_list options) |].
  - bind_inv H. injection H as <-. now apply hd_keys_set.
  - now injection H as <-.
  - now injection H as <-.
Qed.

Ltac first_key :=
  repeat first
    [ apply hd_keys_set
    | apply hd_keys_set_if_truthy
    | apply Confirm_set_raw_hd ];
  try reflexivity.

Lemma Element_resolve_begins_with_type (e : Element) (d : dict) :
  Elements.type e <> ElementType.CONFIRM ->
  Elements._resolve e = Ok d ->
  hd_error (keys d) = Some "type".
Proof.
  destruct e as [x | x | x | x | x | x | x | x | x | x]; simpl; intros Hk H.
  - injection H as <-. unfold Text._resolve.
    destruct (TextType.eqb (Text_text_type x) TextType.MARKDOWN); reflexivity.
  - injection H as <-. reflexivity.
  - now contradiction Hk.
  - unfold Button._resolve in H. bind_inv H.
    eapply Confirm_set_resolved_hd; [| exact H]. first_key.
  - injection H as <-. unfold TextInput._resolve. first_key.
  - unfold StaticSelect._resolve in H. do 3 bind_inv H.
    eapply Confirm_set_resolved_hd; [| exact H].
    assert (H0 : hd_error (keys a0) = Some "type").
    { unfold StaticSelect.set_choices in Ha0.
      destruct (truthy_opt truthy_list (StaticSelect_options x)).
      - destruct (StaticSelect_options x).
        + bind_inv Ha0. injection Ha0 as <-. first_key.
        + injection Ha0 as <-. first_key.
      - destruct (StaticSelect_option_group x).
        + bind_inv Ha0. injection Ha0 as <-. first_key.
        + injection Ha0 as <-. first_key. }
    unfold StaticSelect.set_initial_option in Ha1.
    destruct (StaticSelect_initial_option x) as [i |].
    + destruct (StaticSelect.truthy_initial i).
      * bind_inv Ha1. injection Ha1 as <-. now apply hd_keys_set.
      * now injection Ha1 as <-.
    + now injection Ha1 as <-.
  - unfold CheckboxSelector._resolve in H. do 2 bind_inv H.
    injection H as <-. apply Confirm_set_raw_hd.
    eapply CheckboxSelector_set_options_hd; [| exact Ha0].
    eapply CheckboxSelector_set_options_hd; [| exact Ha]. reflexivity.
  - unfold MultiUsersSelect._resolve in H. bind_inv H. injection H as <-.
    apply Confirm_set_raw_hd.
    destruct (truthy_opt truthy_int (MultiUsersSelect_max_selected_items x));
      first_key.
  - unfold TimePicker._resolve in H. bind_inv H.
    eapply Confirm_set_resolved_hd; [| exact H]. first_key.
  - unfold DatePicker._resolve in H.
    eapply Confirm_set_resolved_hd; [| exact H]. first_key.
Qed.

(** ** [StaticSelect.__init__] *)

Lemma to_text_str_within_total (s : string) (force_plaintext : bool) (m : Z) :
  (Z.of_nat (String.length s) <= m)%Z ->
  exists p, Text.to_text (Some (OfStr s)) force_plaintext (Some m) = Ok p.
Proof.
  intros Hlen. destruct (truthy_str s) eqn:Hs.
  - rewrite (to_text_str_within s force_plaintext m Hs Hlen). eauto.
  - unfold Text.to_text. simpl. rewrite Hs. simpl. eauto.
Qed.

(** C3, as the specification states it, fails: with exactly one of the two
    supplied, a placeholder of 151 characters makes the construction fail. *)
Lemma C3_counterexample :
  supplied_options (Some [option_one]) = true
  /\ supplied_option_group None = false
  /\ StaticSelect.__init__ "a" (OfStr (replicate 151 "x"))
       (Some [option_one]) None None None
     = Raise (InvalidUsageError Text.limit_message)
  /\ ~ (exists self,
           StaticSelect.__init__ "a" (OfStr (replicate 151 "x"))
             (Some [option_one]) None None None
           = Ok self).
Proof.
  repeat split. intros [self H]. discriminate H.
Qed.

(** C3, amended.  Supplying both [options] and [option_group] raises the
    usage error, supplying neither raises the usage error, both before the
    placeholder is looked at; with exactly one supplied the constructor
    returns the select exactly when the coercion of the placeholder succeeds
    (which it does for every string of at most 150 characters) and otherwise
    raises the coercion's error.  A failed construction returns no object. *)
Theorem C3_StaticSelect_options_xor_group (action_id : string)
  (placeholder : str_or_Text) (options : option (list OptionObject))
  (option_group : option OptionGroup)
  (initial_option : option str_or_OptionObject) (confirm : option Confirm) :
  let construct :=
    StaticSelect.__init__ action_id placeholder options option_group
      initial_option confirm in
  (supplied_options options = true ->
   supplied_option_group option_group = true ->
   construct = Raise (InvalidUsageError StaticSelect.both_message))
  /\ (supplied_options options = false ->
      supplied_option_group option_group = false ->
      construct = Raise (InvalidUsageError StaticSelect.neither_message))
  /\ (supplied_options options <> supplied_option_group option_group ->
      (forall p,
          Text.to_text (Some placeholder) true (Some 150%Z) = Ok p ->
          construct
          = Ok (mkStaticSelect action_id options option_group p
                  initial_option confirm))
      /\ (forall e,
             Text.to_text (Some placeholder) true (Some 150%Z) = Raise e ->
             construct = Raise e)
      /\ (forall s,
             placeholder = OfStr s -> (String.length s <= 150)%nat ->
             exists self, construct = Ok self)).
Proof.
  intros construct. subst construct. unfold StaticSelect.__init__.
  unfold supplied_options, supplied_option_group.
  destruct (truthy_opt truthy_list options);
    destruct (truthy_opt truthy_obj option_group); cbn [negb andb];
    repeat split; intros; try discriminate; try congruence.
  - rewrite H0. reflexivity.
  - rewrite H0. reflexivity.
  - subst placeholder.
    destruct (to_text_str_within_total s true 150%Z) as [p Hp]; [lia |].
    rewrite Hp. simpl. eauto.
  - rewrite H0. reflexivity.
  - rewrite H0. reflexivity.
  - subst placeholder.
    destruct (to_text_str_within_total s true 150%Z) as [p Hp]; [lia |].
    rewrite Hp. simpl. eauto.
Qed.

Lemma C3_StaticSelect_options_xor_group_witness :
  StaticSelect.__init__ "a" (OfStr "Pick") (Some [option_one]) (Some group_one)
    None None
  = Raise (InvalidUsageError StaticSelect.both_message)
  /\ StaticSelect.__init__ "a" (OfStr "Pick") (Some []) None None None
     = Raise (InvalidUsageError StaticSelect.neither_message)
  /\ (exists self,
         StaticSelect.__init__ "a" (OfStr "Pick") None (Some group_one)
           None None
         = Ok self).
Proof.
  split; [| split].
  - destruct (C3_StaticSelect_options_xor_group "a" (OfStr "Pick")
                (Some [option_one]) (Some group_one) None None) as [H _].
    apply H; reflexivity.
  - destruct (C3_StaticSelect_options_xor_group "a" (OfStr "Pick")
                (Some []) None None None) as [_ [H _]].
    apply H; reflexivity.
  - destruct (C3_StaticSelect_options_xor_group "a" (OfStr "Pick")
                None (Some group_one) None None) as [_ [_ H]].
    destruct H as [_ [_ H]]; [simpl; discriminate |].
    apply (H "Pick"); [reflexivity | simpl; lia].
Defined.

(** ** [ContextBlock.__init__] *)

Lemma allowed_Text_or_Image (e : Element) :
  ContextBlock.allowed e = true <-> Text_or_Image e.
Proof.
  destruct e; simpl; split; intros H; try discriminate; try contradiction;
    auto; reflexivity.
Qed.

Lemma collect_all_allowed (elements acc : list Element) :
  Forall Text_or_Image elements ->
  ContextBlock.collect acc elements = Ok (acc ++ elements)%list.
Proof.
  intros Hall. revert acc.
  induction Hall as [| e rest He _ IH]; intros acc; simpl.
  - now rewrite app_nil_r.
  - apply allowed_Text_or_Image in He. rewrite He.
    rewrite IH. now rewrite <- app_assoc.
Qed.

Lemma collect_some_refused (elements acc : list Element) :
  Exists (fun e => ~ Text_or_Image e) elements ->
  ContextBlock.collect acc elements
  = Raise (InvalidUsageError ContextBlock.kind_message).
Proof.
  intros Hex. revert acc.
  induction elements as [| e rest IH]; intros acc.
  - inversion Hex.
  - simpl. destruct (ContextBlock.allowed e) eqn:He.
    + apply IH. inversion Hex as [? ? Hne | ? ? Hrest]; subst; auto.
      apply allowed_Text_or_Image in He. contradiction.
    + reflexivity.
Qed.

(** The outcome of the construction, whatever the block id and the world. *)
Lemma ContextBlock_init_outcome (elements : list Element)
  (block_id : option string) (w : World) :
  exists id,
    fst (ContextBlock.__init__ (Some elements) block_id w)
    = (collected <- ContextBlock.collect [] elements ;;
       if Nat.ltb 10 (List.length collected)
       then Raise (InvalidUsageError ContextBlock.count_message)
       else Ok (mkContextBlock (mkBlock BlockType.CONTEXT id) collected)).
Proof.
  unfold ContextBlock.__init__, pbind.
  destruct (Block_init_total BlockType.CONTEXT block_id w) as [id [w' Hb]].
  rewrite Hb. exists id. unfold call.
  destruct (ContextBlock.collect [] elements) as [collected | e]; simpl; auto.
  destruct (Nat.ltb 10 (List.length collected)); reflexivity.
Qed.

Lemma ContextBlock_init_count (elements : list Element)
  (block_id : option string) (w : World) :
  Forall Text_or_Image elements ->
  ((10 < List.length elements)%nat ->
   fst (ContextBlock.__init__ (Some elements) block_id w)
   = Raise (InvalidUsageError ContextBlock.count_message))
  /\ ((List.length elements <= 10)%nat ->
      exists super,
        fst (ContextBlock.__init__ (Some elements) block_id w)
        = Ok (mkContextBlock super elements)).
Proof.
  intros Hall.
  destruct (ContextBlock_init_outcome elements block_id w) as [id Hout].
  rewrite Hout, (collect_all_allowed elements [] Hall). simpl.
  split; intros Hlen.
  - replace (Nat.ltb 10 (List.length elements)) with true
      by (symmetry; apply Nat.ltb_lt; lia).
    reflexivity.
  - replace (Nat.ltb 10 (List.length elements)) with false
      by (symmetry; apply Nat.ltb_ge; lia).
    eauto.
Qed.

(** C4. Constructing a [ContextBlock] from eleven elements of kind Text or
    Image raises the usage error; from ten such elements it returns the block
    holding them; from a list with an element of any other kind it raises the
    usage error whatever the length of the list.  Both checks run inside the
    constructor, which returns a block only when both pass. *)
Theorem C4_ContextBlock_validation (elements : list Element)
  (block_id : option string) (w : World) :
  let outcome := fst (ContextBlock.__init__ (Some elements) block_id w) in
  (Forall Text_or_Image elements -> List.length elements = 11%nat ->
   outcome = Raise (InvalidUsageError ContextBlock.count_message))
  /\ (Forall Text_or_Image elements -> List.length elements = 10%nat ->
      exists super, outcome = Ok (mkContextBlock super elements))
  /\ (Exists (fun e => ~ Text_or_Image e) elements ->
      outcome = Raise (InvalidUsageError ContextBlock.kind_message)).
Proof.
  intros outcome. subst outcome. repeat split.
  - intros Hall Hlen.
    apply (ContextBlock_init_count elements block_id w Hall). lia.
  - intros Hall Hlen.
    apply (ContextBlock_init_count elements block_id w Hall). lia.
  - intros Hex.
    destruct (ContextBlock_init_outcome elements block_id w) as [id Hout].
    rewrite Hout, (collect_some_refused elements [] Hex). reflexivity.
Qed.

Lemma C4_ContextBlock_validation_witness :
  fst (ContextBlock.__init__ (Some (repeat context_text 11)) None example_world)
  = Raise (InvalidUsageError ContextBlock.count_message)
  /\ (exists super,
         fst (ContextBlock.__init__ (Some (repeat context_text 10)) None
                example_world)
         = Ok (mkContextBlock super (repeat context_text 10)))
  /\ fst (ContextBlock.__init__ (Some [context_text; context_button]) None
            example_world)
     = Raise (InvalidUsageError ContextBlock.kind_message).
Proof.
  split; [| split].
  - destruct (C4_ContextBlock_validation (repeat context_text 11) None
                example_world) as [H _].
    apply H; [| reflexivity].
    repeat constructor.
  - destruct (C4_ContextBlock_validation (repeat context_text 10) None
                example_world) as [_ [H _]].
    apply H; [| reflexivity].
    repeat constructor.
  - destruct (C4_ContextBlock_validation [context_text; context_button] None
                example_world) as [_ [_ H]].
    apply H. apply Exists_cons_tl. apply Exists_cons_hd. simpl. tauto.
Defined.

(** ** [ModalSlackView] *)

Lemma InputBlock_entry_existsb (blocks : list block_or_int) :
  Exists InputBlock_entry blocks ->
  existsb ModalSlackView.int_or_InputBlock blocks = true.
Proof.
  induction 1 as [x rest Hx | x rest _ IH]; simpl.
  - destruct x as [[| | | | | | |] |]; simpl in *; try contradiction; auto.
  - rewrite IH. apply orb_true_r.
Qed.

(** Once the entries have resolved, none of them is an integer, and the test
    [isinstance(x, (int, InputBlock))] holds of an entry only by its kind. *)
Lemma resolved_entries_existsb (blocks : list block_or_int) (l : list value) :
  comprehension BaseSlackView.resolve_entry blocks = Ok l ->
  existsb ModalSlackView.int_or_InputBlock blocks = true ->
  Exists InputBlock_entry blocks.
Proof.
  revert l. induction blocks as [| x rest IH]; intros l Hres Hex; simpl in *.
  - discriminate.
  - bind_inv Hres. bind_inv Hres.
    apply orb_true_iff in Hex. destruct Hex as [Hx | Hrest].
    + apply Exists_cons_hd.
      destruct x as [[| | | | | | |] |]; simpl in *; try discriminate; auto.
    + apply Exists_cons_tl. eapply IH; eauto.
Qed.

Lemma attributes_resolved_entries (dumps : dict -> Result string)
  (self : BaseSlackView) (attributes : dict) :
  BaseSlackView._attributes dumps self = Ok attributes ->
  exists l,
    comprehension BaseSlackView.resolve_entry (BaseSlackView_blocks self) = Ok l.
Proof.
  unfold BaseSlackView._attributes. intros H. bind_inv H. eauto.
Qed.

(** C5, as the specification states it, fails: the modal built from an empty
    title, one Input block and no submit label is accepted by the constructor,
    and its resolution raises [AttributeError] at the title, before the check
    of the submit label; it does not raise the usage error.  Supplying a
    submit label does not make its resolution succeed either. *)
Lemma C5_counterexample :
  TextInput.__init__ "t1" None None false None None None
  = Ok (mkTextInput "t1" None None false None None None)
  /\ fst (InputBlock.__init__ (OfStr "Name")
            (IsTextInput (mkTextInput "t1" None None false None None None))
            false None false (Some "b1") example_world)
     = Ok name_input
  /\ ModalSlackView.__init__ (OfStr "") None None
       (Some [ABlock (IsInputBlock name_input)]) None None None None None
     = Ok (untitled_modal None)
  /\ ModalSlackView_submit (untitled_modal None) = None
  /\ Exists InputBlock_entry
       (BaseSlackView_blocks (ModalSlackView_super (untitled_modal None)))
  /\ ModalSlackView._resolve example_dumps (untitled_modal None)
     = Raise (AttributeError "'NoneType' object has no attribute '_resolve'")
  /\ ~ (exists msg,
           ModalSlackView._resolve example_dumps (untitled_modal None)
           = Raise (InvalidUsageError msg))
  /\ ModalSlackView.__init__ (OfStr "") None (Some (OfStr "Go"))
       (Some [ABlock (IsInputBlock name_input)]) None None None None None
     = Ok (untitled_modal
             (Some (Text.__init__ "Go" TextType.PLAINTEXT
                      (Some false) (Some false))))
  /\ ModalSlackView._resolve example_dumps
       (untitled_modal
          (Some (Text.__init__ "Go" TextType.PLAINTEXT
                   (Some false) (Some false))))
     = Raise (AttributeError "'NoneType' object has no attribute '_resolve'").
Proof.
  repeat split.
  - apply Exists_cons_hd. exact I.
  - intros [msg H]. discriminate H.
Qed.

(** C5, amended.  A modal with an Input block and no submit label never
    resolves to a mapping.  The resolution first resolves the attributes (the
    blocks among them), then the title: an exception raised by the attributes
    is the outcome of the resolution, and so is the [AttributeError] of an
    unset title, whatever the blocks and the submit label.  When the
    attributes and the title resolve, the outcome is decided by the submit
    label and the kinds of the blocks alone: without a submit label, the usage
    error exactly when some block is an Input block, and otherwise a mapping;
    with a submit label, a mapping that carries it.  Once the blocks have
    resolved, the test [isinstance(x, (int, InputBlock))] holds of some entry
    exactly when some block is an Input block.  The constructor runs no such
    check: it returns the modal whenever the three labels are coerced. *)
Theorem C5_ModalSlackView_submit_check (dumps : dict -> Result string)
  (self : ModalSlackView) :
  let blocks := BaseSlackView_blocks (ModalSlackView_super self) in
  (ModalSlackView_submit self = None -> Exists InputBlock_entry blocks ->
   exists e, ModalSlackView._resolve dumps self = Raise e)
  /\ (forall attributes title,
         BaseSlackView._attributes dumps (ModalSlackView_super self)
         = Ok attributes ->
         ModalSlackView_title self = Some title ->
         (ModalSlackView_submit self = None ->
          Exists InputBlock_entry blocks ->
          ModalSlackView._resolve dumps self
          = Raise (InvalidUsageError ModalSlackView.submit_message))
         /\ (ModalSlackView_submit self = None ->
             ~ Exists InputBlock_entry blocks ->
             exists view, ModalSlackView._resolve dumps self = Ok view)
         /\ (forall submit,
                ModalSlackView_submit self = Some submit ->
                exists view,
                  ModalSlackView._resolve dumps self = Ok view
                  /\ dict_get view "submit"
                     = Some (VDict (Text._resolve submit))))
  /\ (forall title close submit blocks' private_metadata clear_on_close
             notify_on_close callback_id external_id title' close' submit',
         Text.to_text (Some title) true (Some 24%Z) = Ok title' ->
         Text.to_text close true (Some 24%Z) = Ok close' ->
         Text.to_text submit true (Some 24%Z) = Ok submit' ->
         ModalSlackView.__init__ title close submit blocks' private_metadata
           clear_on_close notify_on_close callback_id external_id
         = Ok (mkModalSlackView
                 (BaseSlackView.__init__ SlackViewType.MODAL blocks'
                    private_metadata callback_id external_id)
                 title' close' submit' clear_on_close notify_on_close))
  /\ (forall e,
         BaseSlackView._attributes dumps (ModalSlackView_super self) = Raise e ->
         ModalSlackView._resolve dumps self = Raise e)
  /\ (forall attributes,
         BaseSlackView._attributes dumps (ModalSlackView_super self)
         = Ok attributes ->
         ModalSlackView_title self = None ->
         ModalSlackView._resolve dumps self
         = Raise (AttributeError "'NoneType' object has no attribute '_resolve'"))
  /\ (forall attributes title,
         BaseSlackView._attributes dumps (ModalSlackView_super self)
         = Ok attributes ->
         ModalSlackView_title self = Some title ->
         ModalSlackView_submit self = None ->
         ((exists e, ModalSlackView._resolve dumps self = Raise e)
          <-> Exists InputBlock_entry blocks)
         /\ (ModalSlackView._resolve dumps self
             = Raise (InvalidUsageError ModalSlackView.submit_message)
             <-> Exists InputBlock_entry blocks))
  /\ (forall l,
         comprehension BaseSlackView.resolve_entry blocks = Ok l ->
         (existsb ModalSlackView.int_or_InputBlock blocks = true
          <-> Exists InputBlock_entry blocks)).
Proof.
  intros blocks. subst blocks.
  assert (Hcheck : forall attributes title,
             BaseSlackView._attributes dumps (ModalSlackView_super self)
             = Ok attributes ->
             ModalSlackView_title self = Some title ->
             ModalSlackView_submit self = None ->
             (Exists InputBlock_entry
                (BaseSlackView_blocks (ModalSlackView_super self)) ->
              ModalSlackView._resolve dumps self
              = Raise (InvalidUsageError ModalSlackView.submit_message))
             /\ (~ Exists InputBlock_entry
                     (BaseSlackView_blocks (ModalSlackView_super self)) ->
                 exists view, ModalSlackView._resolve dumps self = Ok view)).
  { intros attributes title Hattr Htitle Hsubmit.
    unfold ModalSlackView._resolve. rewrite Hattr, Htitle, Hsubmit. simpl.
    split.
    - intros Hex. rewrite (InputBlock_entry_existsb _ Hex). reflexivity.
    - intros Hnone.
      destruct (existsb ModalSlackView.int_or_InputBlock
                  (BaseSlackView_blocks (ModalSlackView_super self))) eqn:Hb.
      + exfalso. apply Hnone.
        destruct (attributes_resolved_entries _ _ _ Hattr) as [l Hl].
        eapply resolved_entries_existsb; eauto.
      + simpl. eauto. }
  assert (Hattr_raise : forall e,
             BaseSlackView._attributes dumps (ModalSlackView_super self)
             = Raise e ->
             ModalSlackView._resolve dumps self = Raise e).
  { intros e Hattr. unfold ModalSlackView._resolve. rewrite Hattr.
    reflexivity. }
  assert (Htitle_raise : forall attributes,
             BaseSlackView._attributes dumps (ModalSlackView_super self)
             = Ok attributes ->
             ModalSlackView_title self = None ->
             ModalSlackView._resolve dumps self
             = Raise (AttributeError
                        "'NoneType' object has no attribute '_resolve'")).
  { intros attributes Hattr Htitle. unfold ModalSlackView._resolve.
    rewrite Hattr, Htitle. reflexivity. }
  split; [| split; [| split; [| split; [| split; [| split]]]]].
  - intros Hsubmit Hex.
    destruct (BaseSlackView._attributes dumps (ModalSlackView_super self))
      as [attributes | e] eqn:Hattr; [| eauto].
    destruct (ModalSlackView_title self) as [title |] eqn:Htitle; [| eauto].
    destruct (Hcheck attributes title eq_refl eq_refl Hsubmit) as [H _]. eauto.
  - intros attributes title Hattr Htitle. split; [| split].
    + intros Hsubmit. apply (Hcheck attributes title Hattr Htitle Hsubmit).
    + intros Hsubmit. apply (Hcheck attributes title Hattr Htitle Hsubmit).
    + intros submit Hsubmit.
      unfold ModalSlackView._resolve. rewrite Hattr, Htitle, Hsubmit. simpl.
      eexists. split; [reflexivity |].
      other_key. apply dict_get_set_same.
  - intros title close submit blocks' private_metadata clear_on_close
      notify_on_close callback_id external_id title' close' submit'
      Ht Hc Hs.
    unfold ModalSlackView.__init__. rewrite Ht, Hc, Hs. reflexivity.
  - exact Hattr_raise.
  - exact Htitle_raise.
  - intros attributes title Hattr Htitle Hsubmit.
    destruct (Hcheck attributes title Hattr Htitle Hsubmit) as [Hyes Hno].
    assert (Hdec : Exists InputBlock_entry
                     (BaseSlackView_blocks (ModalSlackView_super self))
                   \/ ~ Exists InputBlock_entry
                          (BaseSlackView_blocks (ModalSlackView_super self))).
    { destruct (existsb ModalSlackView.int_or_InputBlock
                  (BaseSlackView_blocks (ModalSlackView_super self))) eqn:Hb.
      - left. destruct (attributes_resolved_entries _ _ _ Hattr) as [l Hl].
        eapply resolved_entries_existsb; eauto.
      - right. intros Hex. rewrite (InputBlock_entry_existsb _ Hex) in Hb.
        discriminate. }
    split; split; auto; intros Hraise.
    + destruct Hdec as [Hex | Hnone]; [exact Hex |].
      destruct (Hno Hnone) as [view Hview]. destruct Hraise as [e He].
      rewrite Hview in He. discriminate.
    + eauto.
    + destruct Hdec as [Hex | Hnone]; [exact Hex |].
      destruct (Hno Hnone) as [view Hview].
      rewrite Hview in Hraise. discriminate.
  - intros l Hl. split.
    + eapply resolved_entries_existsb; eauto.
    + apply InputBlock_entry_existsb.
Qed.

(** The modal of the specification's scenario, with the title "T" and one
    Input block: without a submit label its resolution raises the usage error,
    with the label "Go" it returns a mapping that carries the label, and the
    constructor builds it.  Without a title the resolution raises at the
    title, and a [json.dumps] that refuses the metadata decides the outcome
    before the blocks are looked at. *)
Lemma C5_ModalSlackView_submit_check_witness :
  ModalSlackView._resolve example_dumps (titled_modal None)
  = Raise (InvalidUsageError ModalSlackView.submit_message)
  /\ (exists view,
         ModalSlackView._resolve example_dumps
           (titled_modal
              (Some (Text.__init__ "Go" TextType.PLAINTEXT
                       (Some false) (Some false))))
         = Ok view
         /\ dict_get view "submit"
            = Some (VDict [("type", VStr "plain_text"); ("text", VStr "Go")]))
  /\ ModalSlackView.__init__ (OfStr "T") None None
       (Some [ABlock (IsInputBlock name_input)]) None None None None None
     = Ok (titled_modal None)
  /\ ModalSlackView._resolve example_dumps (untitled_modal None)
     = Raise (AttributeError "'NoneType' object has no attribute '_resolve'")
  /\ ModalSlackView._resolve (fun _ => Raise (TypeError "Object of type Confirm is not JSON serializable"))
       (mkModalSlackView
          (mkBaseSlackView SlackViewType.MODAL
             [ABlock (IsInputBlock name_input)]
             None None (Some [("k", VObject (mkConfirm None None None None))]))
          None None None None None)
     = Raise (TypeError "Object of type Confirm is not JSON serializable")
  /\ (ModalSlackView._resolve example_dumps (titled_modal None)
      = Raise (InvalidUsageError ModalSlackView.submit_message)
      <-> Exists InputBlock_entry [ABlock (IsInputBlock name_input)])
  /\ (existsb ModalSlackView.int_or_InputBlock [ABlock (IsInputBlock name_input)]
      = true
      <-> Exists InputBlock_entry [ABlock (IsInputBlock name_input)]).
Proof.
  split; [| split; [| split; [| split; [| split; [| split]]]]].
  - destruct (C5_ModalSlackView_submit_check example_dumps (titled_modal None))
      as [_ [H _]].
    edestruct H as [H1 _]; [reflexivity | reflexivity |].
    apply H1; [reflexivity |]. apply Exists_cons_hd. exact I.
  - destruct (C5_ModalSlackView_submit_check example_dumps
                (titled_modal
                   (Some (Text.__init__ "Go" TextType.PLAINTEXT
                            (Some false) (Some false)))))
      as [_ [H _]].
    edestruct H as [_ [_ H3]]; [reflexivity | reflexivity |].
    apply (H3 (Text.__init__ "Go" TextType.PLAINTEXT (Some false) (Some false))).
    reflexivity.
  - destruct (C5_ModalSlackView_submit_check example_dumps (titled_modal None))
      as [_ [_ [H _]]].
    apply (H (OfStr "T") None None (Some [ABlock (IsInputBlock name_input)])
             None None None None None); reflexivity.
  - destruct (C5_ModalSlackView_submit_check example_dumps (untitled_modal None))
      as [_ [_ [_ [_ [H _]]]]].
    eapply H; reflexivity.
  - destruct (C5_ModalSlackView_submit_check
                (fun _ => Raise (TypeError "Object of type Confirm is not JSON serializable"))
                (mkModalSlackView
                   (mkBaseSlackView SlackViewType.MODAL
                      [ABlock (IsInputBlock name_input)]
                      None None (Some [("k", VObject (mkConfirm None None None None))]))
                   None None None None None))
      as [_ [_ [_ [H _]]]].
    apply H. reflexivity.
  - destruct (C5_ModalSlackView_submit_check example_dumps (titled_modal None))
      as [_ [_ [_ [_ [_ [H _]]]]]].
    edestruct H as [_ H2]; [reflexivity | reflexivity | reflexivity |].
    exact H2.
  - destruct (C5_ModalSlackView_submit_check example_dumps (titled_modal None))
      as [_ [_ [_ [_ [_ [_ H]]]]]].
    eapply H. reflexivity.
Defined.

(** ** Modal responses *)

(** C9, as the specification states it, fails: the resolved form of the
    Empty response is the empty mapping, without a [response_action] key; and
    the Update response around a modal that does not resolve produces no
    mapping. *)
Lemma C9_counterexample :
  ModalResponses._resolve example_dumps
    (IsEmptyModalResponse EmptyModalResponse.__init__)
  = Ok []
  /\ ~ (exists d,
           ModalResponses._resolve example_dumps
             (IsEmptyModalResponse EmptyModalResponse.__init__)
           = Ok d
           /\ dict_has d "response_action" = true)
  /\ ModalResponses._resolve example_dumps
       (IsUpdateModalResponse (UpdateModalResponse.__init__ (titled_modal None)))
     = Raise (InvalidUsageError ModalSlackView.submit_message).
Proof.
  split; [reflexivity |]. split; [| reflexivity].
  intros [d [H Hkey]]. injection H as <-. discriminate Hkey.
Qed.

(** C9, amended.  The Close response resolves to the [response_action] key
    alone, the Error response to [response_action] and the [errors] mapping
    from block id to message, the Update response to [response_action] and the
    resolved modal under [view] (the modal's exception, if it raises one), and
    the Empty response to the empty mapping. *)
Theorem C9_ModalResponse_resolve (dumps : dict -> Result string) :
  ModalResponses._resolve dumps
    (IsEmptyModalResponse EmptyModalResponse.__init__)
  = Ok []
  /\ ModalResponses._resolve dumps
       (IsCloseModalResponse CloseModalResponse.__init__)
     = Ok [("response_action", VStr "clear")]
  /\ (forall errors : list (string * string),
         ModalResponses._resolve dumps
           (IsErrorModalResponse (ErrorModalResponse.__init__ errors))
         = Ok [("response_action", VStr "errors");
               ("errors", VDict (map (fun kv => (fst kv, VStr (snd kv))) errors))])
  /\ (forall modal : ModalSlackView,
         ModalResponses._resolve dumps
           (IsUpdateModalResponse (UpdateModalResponse.__init__ modal))
         = match ModalSlackView._resolve dumps modal with
           | Ok view => Ok [("response_action", VStr "update");
                            ("view", VDict view)]
           | Raise e => Raise e
           end).
Proof.
  repeat split.
Qed.

(** ** [StaticSelect._resolve] and [initial_option] *)

(** C10, as stated, fails: a select built with the empty string as
    [initial_option] resolves to a mapping, because [_resolve] skips a falsy
    [initial_option]; and a select built with an empty placeholder and a
    non-empty string as [initial_option] fails at the placeholder, before
    [initial_option] is looked at. *)
Lemma C10_counterexample :
  StaticSelect.__init__ "a" (OfStr "Pick") (Some [option_one]) None
    (Some (InitialStr "")) None
  = Ok (pick_one (Some (InitialStr "")))
  /\ StaticSelect._resolve (pick_one (Some (InitialStr "")))
     = Ok [("type", VStr "static_select");
           ("placeholder",
            VDict [("type", VStr "plain_text"); ("text", VStr "Pick")]);
           ("action_id", VStr "a");
           ("options",
            VList [VDict [("text",
                           VDict [("type", VStr "plain_text");
                                  ("text", VStr "One")]);
                          ("value", VStr "1")]])]
  /\ StaticSelect.__init__ "a" (OfStr "") (Some [option_one]) None
       (Some (InitialStr "1")) None
     = Ok (mkStaticSelect "a" (Some [option_one]) None None
             (Some (InitialStr "1")) None)
  /\ StaticSelect._resolve
       (mkStaticSelect "a" (Some [option_one]) None None
          (Some (InitialStr "1")) None)
     = Raise (AttributeError "'NoneType' object has no attribute '_resolve'").
Proof. repeat split. Qed.

(** C10, amended.  A select whose [initial_option] is a non-empty plain
    string never resolves to a mapping; when its placeholder and its options
    or option group resolve, the exception is the [AttributeError] of calling
    [_resolve] on the string.  A select that resolves has an [initial_option]
    that is absent, the empty string, or an option object that resolves. *)
Theorem C10_StaticSelect_str_initial_option (self : StaticSelect) :
  (forall s,
      StaticSelect_initial_option self = Some (InitialStr s) ->
      truthy_str s = true ->
      (exists e, StaticSelect._resolve self = Raise e)
      /\ (forall placeholder element,
             Text.resolve_attr (StaticSelect_placeholder self) = Ok placeholder ->
             StaticSelect.set_choices
               (dict_set
                  (dict_set (Element._attributes StaticSelect.type)
                     "placeholder" placeholder)
                  "action_id" (VStr (StaticSelect_action_id self)))
               self
             = Ok element ->
             StaticSelect._resolve self
             = Raise (AttributeError "'str' object has no attribute '_resolve'")))
  /\ (forall d,
         StaticSelect._resolve self = Ok d ->
         StaticSelect_initial_option self = None
         \/ StaticSelect_initial_option self = Some (InitialStr "")
         \/ exists o r,
              StaticSelect_initial_option self = Some (InitialOption o)
              /\ OptionObject._resolve o = Ok r).
Proof.
  split.
  - intros s Hinit Hs.
    assert (Hstep : forall element,
               StaticSelect.set_initial_option element self
               = Raise (AttributeError "'str' object has no attribute '_resolve'")).
    { intros element. unfold StaticSelect.set_initial_option.
      rewrite Hinit. simpl. rewrite Hs. reflexivity. }
    split.
    + unfold StaticSelect._resolve.
      destruct (Text.resolve_attr (StaticSelect_placeholder self))
        as [placeholder | e]; simpl; [| eauto].
      match goal with
      | |- context [StaticSelect.set_choices ?d self] =>
          destruct (StaticSelect.set_choices d self) as [element | e]
      end; simpl; [| eauto].
      rewrite Hstep. simpl. eauto.
    + intros placeholder element Hp Hc.
      unfold StaticSelect._resolve. rewrite Hp. unfold bind at 1.
      rewrite Hc. unfold bind at 1. rewrite Hstep. reflexivity.
  - intros d H. unfold StaticSelect._resolve in H. do 3 bind_inv H.
    unfold StaticSelect.set_initial_option in Ha1.
    destruct (StaticSelect_initial_option self) as [[s | o] |]; auto.
    + destruct s as [| c s']; auto. simpl in Ha1. discriminate.
    + simpl in Ha1. bind_inv Ha1. bind_inv Ha2. right. right. eauto.
Qed.

Lemma C10_StaticSelect_str_initial_option_witness :
  StaticSelect._resolve (pick_one (Some (InitialStr "1")))
  = Raise (AttributeError "'str' object has no attribute '_resolve'")
  /\ (StaticSelect_initial_option (pick_one None) = None
      \/ StaticSelect_initial_option (pick_one None) = Some (InitialStr "")
      \/ exists o r,
           StaticSelect_initial_option (pick_one None) = Some (InitialOption o)
           /\ OptionObject._resolve o = Ok r).
Proof.
  split.
  - destruct (C10_StaticSelect_str_initial_option
                (pick_one (Some (InitialStr "1")))) as [H _].
    destruct (H "1" eq_refl eq_refl) as [_ H2].
    eapply H2; reflexivity.
  - destruct (C10_StaticSelect_str_initial_option (pick_one None)) as [_ H].
    eapply H. reflexivity.
Defined.


(* ================================================================== *)
(** * Further properties of the package *)

(** ** Coercion to [Text] *)

Lemma to_text_str_unfold (s : string) (force_plaintext : bool)
  (max_length : option Z) :
  Text.to_text (Some (OfStr s)) force_plaintext max_length
  = if negb (truthy_str s) then Ok None
    else if truthy_opt truthy_int max_length
            && Z.ltb (match max_length with Some m => m | None => 0%Z end)
                 (str_len s)
         then Raise (InvalidUsageError Text.limit_message)
         else Ok (Some (coerced s force_plaintext)).
Proof.
  unfold Text.to_text, Text.exceeds, coerced, forced_type, str_len. simpl.
  destruct (truthy_str s); simpl; [| reflexivity].
  destruct max_length as [m |]; simpl; [| reflexivity].
  destruct (truthy_int m); simpl; [| reflexivity].
  destruct (Z.ltb m (Z.of_nat (String.length s))); reflexivity.
Qed.

(** Whatever [to_text] builds carries the content of its argument, the type
    forced by [force_plaintext] and the default flags: the type and the
    [emoji] and [verbatim] flags of a [Text] argument are not kept. *)
Theorem to_text_retypes (x : str_or_Text) (force_plaintext : bool)
  (max_length : option Z) (t : Text) :
  Text.to_text (Some x) force_plaintext max_length = Ok (Some t) ->
  t = coerced (content_of x) force_plaintext
  /\ Text_text t = content_of x
  /\ Text_text_type t = forced_type force_plaintext
  /\ Text_verbatim t = (if force_plaintext then None else Some false)
  /\ Text_emoji t = (if force_plaintext then Some false else None).
Proof.
  intros H.
  assert (Ht : t = coerced (content_of x) force_plaintext).
  { unfold Text.to_text in H.
    destruct (negb (Text.truthy x)); [discriminate |].
    destruct x as [s | t0]; bind_inv H; destruct a; try discriminate;
      now injection H as <-. }
  subst t. unfold coerced, forced_type.
  destruct force_plaintext; repeat split.
Qed.

Lemma to_text_retypes_witness :
  let verbatim_note :=
    Text.__init__ "note" TextType.MARKDOWN (Some false) (Some true) in
  Text.to_text (Some (OfText verbatim_note)) true None
  = Ok (Some (coerced "note" true))
  /\ Text_verbatim (coerced "note" true) = None
  /\ Text_text_type (coerced "note" true) = TextType.PLAINTEXT.
Proof.
  intros verbatim_note.
  split; [reflexivity |].
  destruct (to_text_retypes (OfText verbatim_note) true None
              (coerced "note" true) eq_refl) as [_ [_ [Hty [Hv _]]]].
  split; [exact Hv | exact Hty].
Defined.

(** [to_text] returns [None] exactly for [None] and for the empty string. *)
Theorem to_text_None_iff (text : option str_or_Text) (force_plaintext : bool)
  (max_length : option Z) :
  Text.to_text text force_plaintext max_length = Ok None
  <-> text = None \/ text = Some (OfStr "").
Proof.
  split.
  - intros H. destruct text as [[s | t] |]; auto.
    + rewrite to_text_str_unfold in H. destruct s as [| c s']; auto.
      simpl in H. destruct (_ && _); discriminate.
    + unfold Text.to_text in H. simpl in H. bind_inv H.
      destruct a; discriminate.
  - intros [-> | ->]; reflexivity.
Qed.

Lemma to_text_None_iff_witness :
  Text.to_text (Some (OfStr "")) true (Some 24%Z) = Ok None
  /\ (Some (OfStr "") = None \/ Some (OfStr "") = Some (OfStr "")).
Proof.
  split.
  - apply (to_text_None_iff (Some (OfStr "")) true (Some 24%Z)). now right.
  - apply (to_text_None_iff (Some (OfStr "")) true (Some 24%Z)). reflexivity.
Defined.

(** A [max_length] of 0 is no limit, as [None] is, and without a limit
    [to_text] never raises, on strings and on [Text] nodes alike. *)
Theorem to_text_without_limit (text : option str_or_Text)
  (force_plaintext : bool) :
  Text.to_text text force_plaintext (Some 0%Z)
  = Text.to_text text force_plaintext None
  /\ exists r, Text.to_text text force_plaintext None = Ok r.
Proof.
  split; [reflexivity |].
  destruct text as [[s | t] |]; simpl; eauto.
  destruct (truthy_str s); simpl; eauto.
Qed.

(** On a raw string [to_text] raises exactly when the string is not empty,
    the limit is not 0 and the length exceeds it; the exception is then the
    usage error. *)
Theorem to_text_str_raises_iff (s : string) (force_plaintext : bool) (m : Z)
  (e : exn) :
  Text.to_text (Some (OfStr s)) force_plaintext (Some m) = Raise e
  <-> s <> "" /\ m <> 0%Z /\ (m < str_len s)%Z
      /\ e = InvalidUsageError Text.limit_message.
Proof.
  rewrite to_text_str_unfold. simpl. unfold truthy_int.
  destruct s as [| c s']; simpl.
  - split; [discriminate | intros [H _]; congruence].
  - destruct (Z.eqb_spec m 0) as [-> | Hm]; simpl.
    + split; [discriminate | intros [_ [H _]]; congruence].
    + destruct (Z.ltb_spec m (str_len (String c s'))) as [Hlt | Hge].
      * split.
        -- intros H. injection H as <-. repeat split; auto. discriminate.
        -- intros [_ [_ [_ ->]]]. reflexivity.
      * split; [discriminate | intros [_ [_ [H _]]]; lia].
Qed.

Lemma to_text_str_raises_iff_witness :
  Text.to_text (Some (OfStr "abcd")) false (Some 3%Z)
  = Raise (InvalidUsageError Text.limit_message)
  /\ ("abc" <> "" /\ (-1)%Z <> 0%Z /\ (-1 < str_len "abc")%Z
      /\ InvalidUsageError Text.limit_message
         = InvalidUsageError Text.limit_message).
Proof.
  split.
  - apply (to_text_str_raises_iff "abcd" false 3%Z).
    repeat split; try discriminate; try reflexivity.
  - apply (to_text_str_raises_iff "abc" false (-1)%Z). reflexivity.
Defined.

(** ** Confirmation dialogs *)

(** From four strings, the dialog is built exactly when the title has at most
    100 characters, the body at most 300 and each button label at most 30;
    otherwise the constructor raises the usage error. *)
Theorem Confirm_init_limits (title text confirm deny : string) :
  let construct :=
    Confirm.__init__ (OfStr title) (OfStr text) (OfStr confirm) (OfStr deny) in
  let within :=
    (str_len title <= 100)%Z /\ (str_len text <= 300)%Z
    /\ (str_len confirm <= 30)%Z /\ (str_len deny <= 30)%Z in
  ((exists c, construct = Ok c) <-> within)
  /\ (~ within -> construct = Raise (InvalidUsageError Text.limit_message)).
Proof.
  intros construct within. subst construct within.
  unfold Confirm.__init__. cbv beta iota delta [bind].
  assert (Hcase : forall s fp m, (0 < m)%Z ->
             ((str_len s <= m)%Z /\
              exists r, Text.to_text (Some (OfStr s)) fp (Some m) = Ok r)
             \/ ((m < str_len s)%Z /\
                 Text.to_text (Some (OfStr s)) fp (Some m)
                 = Raise (InvalidUsageError Text.limit_message))).
  { intros s fp m Hm.
    destruct (Z.le_gt_cases (str_len s) m) as [Hle | Hgt].
    - left. split; auto. now apply to_text_str_within_total.
    - right. split; [lia |].
      apply to_text_str_too_long; unfold str_len in Hgt; lia. }
  destruct (Hcase title true 100%Z ltac:(lia)) as [[H1 [r1 E1]] | [H1 E1]];
    rewrite E1; cbv beta iota.
  2: { split; [split; [intros [c H]; discriminate | lia] | reflexivity]. }
  destruct (Hcase text false 300%Z ltac:(lia)) as [[H2 [r2 E2]] | [H2 E2]];
    rewrite E2; cbv beta iota.
  2: { split; [split; [intros [c H]; discriminate | lia] | reflexivity]. }
  destruct (Hcase confirm true 30%Z ltac:(lia)) as [[H3 [r3 E3]] | [H3 E3]];
    rewrite E3; cbv beta iota.
  2: { split; [split; [intros [c H]; discriminate | lia] | reflexivity]. }
  destruct (Hcase deny true 30%Z ltac:(lia)) as [[H4 [r4 E4]] | [H4 E4]];
    rewrite E4; cbv beta iota.
  2: { split; [split; [intros [c H]; discriminate | lia] | reflexivity]. }
  split; [split; eauto | intros Hn; exfalso; apply Hn; auto].
Qed.

Lemma Confirm_init_limits_witness :
  (exists c,
      Confirm.__init__ (OfStr "Sure?") (OfStr "This cannot be undone.")
        (OfStr "Yes") (OfStr "No")
      = Ok c)
  /\ Confirm.__init__ (OfStr "Sure?") (OfStr "This cannot be undone.")
       (OfStr (replicate 31 "y")) (OfStr "No")
     = Raise (InvalidUsageError Text.limit_message).
Proof.
  split.
  - apply (Confirm_init_limits "Sure?" "This cannot be undone." "Yes" "No").
    unfold str_len. simpl. lia.
  - apply (Confirm_init_limits "Sure?" "This cannot be undone."
             (replicate 31 "y") "No").
    unfold str_len. simpl. lia.
Defined.

Lemma to_text_str_accepts (s : string) (force_plaintext : bool) (m : Z) :
  s <> "" -> (str_len s <= m)%Z ->
  Text.to_text (Some (OfStr s)) force_plaintext (Some m)
  = Ok (Some (coerced s force_plaintext)).
Proof.
  intros Hs Hlen. apply to_text_str_within; auto.
  destruct s; [congruence | reflexivity].
Qed.

Lemma resolve_coerced (s : string) :
  VDict (Text._resolve (coerced s true)) = plain_text_payload s
  /\ VDict (Text._resolve (coerced s false)) = mrkdwn_payload s.
Proof. split; reflexivity. Qed.

(** A dialog resolves exactly when its four labels are set, and then to the
    four keys [title], [text], [confirm], [deny] in this order, without a
    [type] key; otherwise its resolution raises [AttributeError]. *)
Theorem Confirm_resolve_iff (c : Confirm) :
  ((exists d, Confirm._resolve c = Ok d) <-> Confirm_complete c = true)
  /\ (forall d,
         Confirm._resolve c = Ok d ->
         keys d = ["title"; "text"; "confirm"; "deny"]
         /\ dict_get d "title" = emitted_Text (Confirm_title c)
         /\ dict_get d "text" = emitted_Text (Confirm_text c)
         /\ dict_get d "confirm" = emitted_Text (Confirm_confirm c)
         /\ dict_get d "deny" = emitted_Text (Confirm_deny c))
  /\ (Confirm_complete c = false ->
      Confirm._resolve c
      = Raise (AttributeError "'NoneType' object has no attribute '_resolve'")).
Proof.
  destruct c as [[t1 |] [t2 |] [t3 |] [t4 |]];
    unfold Confirm_complete, Confirm._resolve, Text.resolve_attr; simpl;
    (split; [split; [intros [d H]; try discriminate; reflexivity
                    | intros H; try discriminate; eauto]
            | split; [intros d H; try discriminate;
                      injection H as <-; repeat split
                     | intros H; try discriminate; reflexivity]]).
Qed.

Lemma Confirm_resolve_iff_witness :
  let c :=
    mkConfirm (Some (coerced "Sure?" true)) (Some (coerced "Really." false))
      (Some (coerced "Yes" true)) (Some (coerced "No" true)) in
  (exists d, Confirm._resolve c = Ok d)
  /\ Confirm._resolve (mkConfirm None (Some (coerced "Really." false))
                         (Some (coerced "Yes" true)) (Some (coerced "No" true)))
     = Raise (AttributeError "'NoneType' object has no attribute '_resolve'").
Proof.
  intros c. split.
  - apply (Confirm_resolve_iff c). reflexivity.
  - apply (Confirm_resolve_iff
             (mkConfirm None (Some (coerced "Really." false))
                (Some (coerced "Yes" true)) (Some (coerced "No" true)))).
    reflexivity.
Defined.

(** A dialog built from four non-empty strings within the limits resolves:
    the title and the two button labels as plain text, the body as markdown. *)
Theorem Confirm_built_from_strings_resolves (title text confirm deny : string) :
  title <> "" -> text <> "" -> confirm <> "" -> deny <> "" ->
  (str_len title <= 100)%Z -> (str_len text <= 300)%Z ->
  (str_len confirm <= 30)%Z -> (str_len deny <= 30)%Z ->
  exists c,
    Confirm.__init__ (OfStr title) (OfStr text) (OfStr confirm) (OfStr deny)
    = Ok c
    /\ Confirm._resolve c
       = Ok [("title", plain_text_payload title);
             ("text", mrkdwn_payload text);
             ("confirm", plain_text_payload confirm);
             ("deny", plain_text_payload deny)].
Proof.
  intros N1 N2 N3 N4 L1 L2 L3 L4. unfold Confirm.__init__.
  rewrite (to_text_str_accepts title true 100%Z N1 L1).
  cbv beta iota delta [bind].
  rewrite (to_text_str_accepts text false 300%Z N2 L2).
  rewrite (to_text_str_accepts confirm true 30%Z N3 L3).
  rewrite (to_text_str_accepts deny true 30%Z N4 L4).
  eexists. split; reflexivity.
Qed.

Lemma Confirm_built_from_strings_resolves_witness :
  exists c,
    Confirm.__init__ (OfStr "Sure?") (OfStr "This cannot be undone.")
      (OfStr "Yes") (OfStr "No")
    = Ok c
    /\ Confirm._resolve c
       = Ok [("title", plain_text_payload "Sure?");
             ("text", mrkdwn_payload "This cannot be undone.");
             ("confirm", plain_text_payload "Yes");
             ("deny", plain_text_payload "No")].
Proof.
  apply (Confirm_built_from_strings_resolves
           "Sure?" "This cannot be undone." "Yes" "No");
    try discriminate; unfold str_len; simpl; lia.
Defined.

(** ** Sparse serialisation of the button and of the text input *)

Lemma Confirm_set_resolved_inv (d d' : dict) (o : option Confirm) :
  Confirm.set_resolved d o = Ok d' ->
  match o with
  | Some c => exists r, Confirm._resolve c = Ok r
                        /\ d' = dict_set d "confirm" (VDict r)
  | None => d' = d
  end.
Proof.
  unfold Confirm.set_resolved. destruct o as [c |]; intros H.
  - bind_inv H. injection H as <-. eauto.
  - now injection H.
Qed.

(** A button that resolves has [style], [url] and [value] in its mapping
    exactly when they are non-empty strings, and [confirm] exactly when a
    dialog is set, then in its resolved form; an absent field is left out, not
    set to null. *)
Theorem Button_resolve_sparse (self : Button) (d : dict) :
  Button._resolve self = Ok d ->
  dict_get d "type" = Some (VStr "button")
  /\ dict_get d "text" = emitted_Text (Button_text self)
  /\ dict_get d "action_id" = Some (VStr (Button_action_id self))
  /\ dict_get d "style" = emitted_str (Button_style self)
  /\ dict_get d "url" = emitted_str (Button_url self)
  /\ dict_get d "value" = emitted_str (Button_value self)
  /\ match Button_confirm self with
     | Some c => exists r, Confirm._resolve c = Ok r
                           /\ dict_get d "confirm" = Some (VDict r)
     | None => dict_get d "confirm" = None
     end.
Proof.
  intros H. unfold Button._resolve in H. bind_inv H.
  unfold Text.resolve_attr in Ha. bind_inv Ha. injection Ha as <-.
  destruct (Button_text self) as [t |]; [| discriminate].
  injection Ha0 as <-.
  apply Confirm_set_resolved_inv in H.
  destruct (Button_confirm self) as [c |].
  - destruct H as [r [Hr ->]].
    destruct (Button_style self) as [[| c1 s1] |];
      destruct (Button_url self) as [[| c2 s2] |];
      destruct (Button_value self) as [[| c3 s3] |];
      repeat split; try reflexivity; exists r; split; auto.
  - subst d.
    destruct (Button_style self) as [[| c1 s1] |];
      destruct (Button_url self) as [[| c2 s2] |];
      destruct (Button_value self) as [[| c3 s3] |];
      repeat split; reflexivity.
Qed.

Lemma Button_resolve_sparse_witness :
  let link :=
    mkButton (Some (coerced "Open" true)) "open" (Some "https://example.com")
      (Some "") None None in
  dict_get
    [("type", VStr "button"); ("text", plain_text_payload "Open");
     ("action_id", VStr "open"); ("url", VStr "https://example.com")]
    "value"
  = emitted_str (Button_value link).
Proof.
  intros link.
  apply (Button_resolve_sparse link
           [("type", VStr "button"); ("text", plain_text_payload "Open");
            ("action_id", VStr "open"); ("url", VStr "https://example.com")]).
  reflexivity.
Defined.

(** The text input always resolves, with [type], [action_id] and [multiline]
    first; each optional field is in the mapping exactly when it is truthy, so
    an empty initial value and a minimum or maximum length of 0 are left
    out. *)
Theorem TextInput_resolve_sparse (self : TextInput) :
  let d := TextInput._resolve self in
  firstn 3 d
  = [("type", VStr "plain_text_input");
     ("action_id", VStr (TextInput_action_id self));
     ("multiline", VBool (TextInput_multiline self))]
  /\ dict_get d "placeholder" = emitted_Text (TextInput_placeholder self)
  /\ dict_get d "initial_value" = emitted_str (TextInput_initial_value self)
  /\ dict_get d "min_length" = emitted_int (TextInput_min_length self)
  /\ dict_get d "max_length" = emitted_int (TextInput_max_length self)
  /\ dict_get d "dispatch_action_config"
     = match TextInput_dispatch_config self with
       | Some c => Some (VDict (DispatchActionConfig._resolve c))
       | None => None
       end.
Proof.
  unfold TextInput._resolve.
  destruct (TextInput_placeholder self) as [t |];
    destruct (TextInput_initial_value self) as [[| c1 s1] |];
    destruct (TextInput_min_length self) as [[| p1 | p1] |];
    destruct (TextInput_max_length self) as [[| p2 | p2] |];
    destruct (TextInput_dispatch_config self) as [c |];
    repeat split; reflexivity.
Qed.

(** ** List comprehensions *)

Lemma comprehension_Ok {A B : Type} (f : A -> Result B) (xs : list A)
  (ys : list B) :
  comprehension f xs = Ok ys <-> Forall2 (fun x y => f x = Ok y) xs ys.
Proof.
  revert ys. induction xs as [| x rest IH]; intros ys; simpl.
  - split.
    + intros H. injection H as <-. constructor.
    + intros H. inversion H. reflexivity.
  - split.
    + intros H. bind_inv H. bind_inv H. injection H as <-.
      constructor; [assumption | now apply IH].
    + intros H. inversion H as [| ? y ? ys' Hx Hrest]; subst.
      rewrite Hx. simpl. apply IH in Hrest. rewrite Hrest. reflexivity.
Qed.

Lemma comprehension_total {A B : Type} (f : A -> Result B) (xs : list A) :
  Forall (fun x => exists y, f x = Ok y) xs ->
  exists ys, comprehension f xs = Ok ys.
Proof.
  induction 1 as [| x rest [y Hy] _ [ys IH]]; simpl; eauto.
  rewrite Hy. simpl. rewrite IH. simpl. eauto.
Qed.

Lemma comprehension_Ok_all {A B : Type} (f : A -> Result B) (xs : list A)
  (ys : list B) :
  comprehension f xs = Ok ys ->
  Forall (fun x => exists y, f x = Ok y) xs /\ List.length ys = List.length xs.
Proof.
  intros H. apply comprehension_Ok in H.
  induction H as [| x y xs' ys' Hx _ [IH1 IH2]]; simpl; split; auto.
  constructor; eauto.
Qed.

(** ** Options and option groups *)

Lemma OptionObject_resolve_iff (o : OptionObject) :
  (exists d, OptionObject._resolve o = Ok d)
  <-> present (OptionObject_text o) = true.
Proof.
  unfold OptionObject._resolve, Text.resolve_attr.
  destruct (OptionObject_text o) as [t |]; simpl; split;
    intros H; try discriminate; eauto.
  destruct H as [d H]. discriminate.
Qed.

(** An option resolves exactly when its label is set, to a mapping without a
    [type] key that holds [text] and [value] and, only when they are set and
    not empty, [description] and [url]. *)
Theorem OptionObject_resolve_sparse (o : OptionObject) :
  ((exists d, OptionObject._resolve o = Ok d)
   <-> present (OptionObject_text o) = true)
  /\ (forall d,
         OptionObject._resolve o = Ok d ->
         dict_get d "type" = None
         /\ dict_get d "text" = emitted_Text (OptionObject_text o)
         /\ dict_get d "value" = Some (VStr (OptionObject_value o))
         /\ dict_get d "description"
            = emitted_Text (OptionObject_description o)
         /\ dict_get d "url" = emitted_str (OptionObject_url o)).
Proof.
  split; [apply OptionObject_resolve_iff |].
  intros d H. unfold OptionObject._resolve, Text.resolve_attr in H.
  destruct (OptionObject_text o) as [t |]; [| discriminate].
  simpl in H. injection H as <-.
  destruct (OptionObject_description o) as [t' |];
    destruct (OptionObject_url o) as [[| c s] |];
    repeat split; reflexivity.
Qed.

Lemma OptionObject_resolve_sparse_witness :
  (exists d, OptionObject._resolve option_one = Ok d)
  /\ dict_get
       [("text", plain_text_payload "One"); ("value", VStr "1")] "url"
     = emitted_str (OptionObject_url option_one).
Proof.
  split.
  - apply (OptionObject_resolve_sparse option_one). reflexivity.
  - destruct (OptionObject_resolve_sparse option_one) as [_ H].
    apply (H [("text", plain_text_payload "One"); ("value", VStr "1")]).
    reflexivity.
Defined.

Lemma resolve_all_options_iff (options : list OptionObject) :
  (exists v, OptionObject.resolve_all options = Ok v)
  <-> Forall (fun o => present (OptionObject_text o) = true) options.
Proof.
  unfold OptionObject.resolve_all. split.
  - intros [v H]. bind_inv H.
    apply comprehension_Ok_all in Ha. destruct Ha as [Hall _].
    eapply Forall_impl; [| exact Hall].
    intros o [y Hy]. simpl in Hy. bind_inv Hy.
    apply OptionObject_resolve_iff. eauto.
  - intros Hall.
    destruct (comprehension_total
                (fun o => r <- OptionObject._resolve o ;; Ok (VDict r)) options)
      as [ys Hys].
    + eapply Forall_impl; [| exact Hall].
      intros o Ho. apply OptionObject_resolve_iff in Ho.
      destruct Ho as [d Hd]. rewrite Hd. simpl. eauto.
    + rewrite Hys. simpl. eauto.
Qed.

(** An option group resolves exactly when its label and the label of every
    one of its options are set; the resolved [options] list then has one entry
    per option, in the order of the options, each the resolved option. *)
Theorem OptionGroup_resolve_options (g : OptionGroup) :
  ((exists d, OptionGroup._resolve g = Ok d)
   <-> present (OptionGroup_label g) = true
       /\ Forall (fun o => present (OptionObject_text o) = true)
            (OptionGroup_options g))
  /\ (forall d,
         OptionGroup._resolve g = Ok d ->
         keys d = ["label"; "options"]
         /\ exists l,
              dict_get d "options" = Some (VList l)
              /\ Forall2
                   (fun o v => exists r,
                        OptionObject._resolve o = Ok r /\ v = VDict r)
                   (OptionGroup_options g) l).
Proof.
  unfold OptionGroup._resolve, Text.resolve_attr. split.
  - destruct (OptionGroup_label g) as [t |]; simpl.
    + split.
      * intros [d H]. bind_inv H. split; auto.
        apply resolve_all_options_iff. eauto.
      * intros [_ Hall]. apply resolve_all_options_iff in Hall.
        destruct Hall as [v Hv]. rewrite Hv. simpl. eauto.
    + split; [intros [d H]; discriminate | intros [H _]; discriminate].
  - intros d H.
    destruct (OptionGroup_label g) as [t |]; [| discriminate].
    simpl in H. bind_inv H. injection H as <-.
    split; [reflexivity |].
    unfold OptionObject.resolve_all in Ha. bind_inv Ha. injection Ha as <-.
    exists a0. split; [reflexivity |].
    apply comprehension_Ok in Ha0.
    eapply Forall2_impl; [| exact Ha0].
    intros o v Hv. simpl in Hv. bind_inv Hv. injection Hv as <-. eauto.
Qed.

Lemma OptionGroup_resolve_options_witness :
  (exists d, OptionGroup._resolve group_one = Ok d)
  /\ keys [("label", plain_text_payload "Group");
          ("options",
           VList [VDict [("text", plain_text_payload "One");
                         ("value", VStr "1")]])]
     = ["label"; "options"].
Proof.
  split.
  - apply (OptionGroup_resolve_options group_one). split.
    + reflexivity.
    + repeat constructor.
  - destruct (OptionGroup_resolve_options group_one) as [_ H].
    apply (H [("label", plain_text_payload "Group");
              ("options",
               VList [VDict [("text", plain_text_payload "One");
                             ("value", VStr "1")]])]).
    reflexivity.
Defined.

(** ** Selects *)

Lemma Confirm_set_resolved_other (d d' : dict) (o : option Confirm)
  (k : string) :
  Confirm.set_resolved d o = Ok d' -> "confirm" <> k ->
  dict_get d' k = dict_get d k.
Proof.
  intros H Hk. apply Confirm_set_resolved_inv in H.
  destruct o as [c |].
  - destruct H as [r [_ ->]]. now apply dict_get_set_other.
  - now subst.
Qed.

Lemma set_initial_option_other (element element' : dict) (self : StaticSelect)
  (k : string) :
  StaticSelect.set_initial_option element self = Ok element' ->
  "initial_option" <> k ->
  dict_get element' k = dict_get element k.
Proof.
  unfold StaticSelect.set_initial_option. intros H Hk.
  destruct (StaticSelect_initial_option self) as [i |].
  - destruct (StaticSelect.truthy_initial i).
    + bind_inv H. injection H as <-. now apply dict_get_set_other.
    + now injection H as <-.
  - now injection H as <-.
Qed.

(** A select built by the constructor and resolved carries exactly one of
    the keys [options] and [option_group]: [options] when a non-empty list of
    options was given, [option_group] when a group was. *)
Theorem StaticSelect_resolves_one_choice (action_id : string)
  (placeholder : str_or_Text) (options : option (list OptionObject))
  (option_group : option OptionGroup)
  (initial_option : option str_or_OptionObject) (confirm : option Confirm)
  (self : StaticSelect) (d : dict) :
  StaticSelect.__init__ action_id placeholder options option_group
    initial_option confirm
  = Ok self ->
  StaticSelect._resolve self = Ok d ->
  dict_has d "options" = supplied_options options
  /\ dict_has d "option_group" = supplied_option_group option_group
  /\ dict_has d "options" = negb (dict_has d "option_group").
Proof.
  intros Hinit Hres. unfold StaticSelect.__init__ in Hinit.
  unfold supplied_options, supplied_option_group.
  assert (Hgoal :
            dict_has d "options" = truthy_opt truthy_list options
            /\ dict_has d "option_group" = truthy_opt truthy_obj option_group
            /\ truthy_opt truthy_list options
               = negb (truthy_opt truthy_obj option_group)).
  { destruct (truthy_opt truthy_list options) eqn:Hopt;
      destruct (truthy_opt truthy_obj option_group) eqn:Hgrp;
      simpl in Hinit; try discriminate;
      bind_inv Hinit; injection Hinit as <-;
      unfold StaticSelect._resolve in Hres; do 3 bind_inv Hres;
      unfold dict_has;
      rewrite (Confirm_set_resolved_other _ _ _ "options" Hres)
        by discriminate;
      rewrite (Confirm_set_resolved_other _ _ _ "option_group" Hres)
        by discriminate;
      rewrite (set_initial_option_other _ _ _ "options" Ha2) by discriminate;
      rewrite (set_initial_option_other _ _ _ "option_group" Ha2)
        by discriminate;
      unfold StaticSelect.set_choices in Ha1; simpl in Ha1;
      rewrite Hopt in Ha1.
    - destruct options as [l |]; [| discriminate].
      bind_inv Ha1. injection Ha1 as <-. repeat split.
    - destruct option_group as [g |]; [| discriminate].
      bind_inv Ha1. injection Ha1 as <-. repeat split. }
  destruct Hgoal as [H1 [H2 H3]]. rewrite H1, H2. auto.
Qed.

Lemma StaticSelect_resolves_one_choice_witness :
  dict_has
    [("type", VStr "static_select"); ("placeholder", plain_text_payload "Pick");
     ("action_id", VStr "a");
     ("options",
      VList [VDict [("text", plain_text_payload "One"); ("value", VStr "1")]])]
    "options"
  = supplied_options (Some [option_one]).
Proof.
  apply (StaticSelect_resolves_one_choice "a" (OfStr "Pick")
           (Some [option_one]) None None None (pick_one None)
           [("type", VStr "static_select");
            ("placeholder", plain_text_payload "Pick");
            ("action_id", VStr "a");
            ("options",
             VList [VDict [("text", plain_text_payload "One");
                           ("value", VStr "1")]])]);
    reflexivity.
Defined.

Lemma CheckboxSelector_set_options_other (d d' : dict) (k k' : string)
  (xs : option (list OptionObject)) :
  CheckboxSelector.set_options d k xs = Ok d' -> k <> k' ->
  dict_get d' k' = dict_get d k'.
Proof.
  unfold CheckboxSelector.set_options. intros H Hk.
  destruct xs as [options |]; [destruct (truthy_list options) |].
  - bind_inv H. injection H as <-. now apply dict_get_set_other.
  - now injection H as <-.
  - now injection H as <-.
Qed.

Lemma Confirm_set_raw_get (d : dict) (o : option Confirm) :
  dict_get d "confirm" = None ->
  dict_get (Confirm.set_raw d o) "confirm"
  = match o with
    | Some c => Some (VObject c)
    | None => None
    end.
Proof.
  intros H. unfold Confirm.set_raw. destruct o as [c |]; auto.
  apply dict_get_set_same.
Qed.

(** The checkbox group and the multi-users select put the dialog under
    [confirm] as the instance itself, not as its resolved mapping, so their
    resolution does not depend on the dialog: the multi-users select resolves
    exactly when its placeholder is set. *)
Theorem selectors_keep_confirm_unresolved :
  (forall (self : CheckboxSelector) (d : dict),
      CheckboxSelector._resolve self = Ok d ->
      dict_get d "confirm"
      = match CheckboxSelector_confirm self with
        | Some c => Some (VObject c)
        | None => None
        end)
  /\ (forall (self : MultiUsersSelect) (d : dict),
         MultiUsersSelect._resolve self = Ok d ->
         dict_get d "confirm"
         = match MultiUsersSelect_confirm self with
           | Some c => Some (VObject c)
           | None => None
           end)
  /\ (forall self : MultiUsersSelect,
         (exists d, MultiUsersSelect._resolve self = Ok d)
         <-> present (MultiUsersSelect_placeholder self) = true).
Proof.
  split; [| split].
  - intros self d H. unfold CheckboxSelector._resolve in H.
    do 2 bind_inv H. injection H as <-.
    apply Confirm_set_raw_get.
    rewrite (CheckboxSelector_set_options_other _ _ _ "confirm" _ Ha0)
      by discriminate.
    rewrite (CheckboxSelector_set_options_other _ _ _ "confirm" _ Ha)
      by discriminate.
    reflexivity.
  - intros self d H. unfold MultiUsersSelect._resolve in H.
    bind_inv H. injection H as <-.
    apply Confirm_set_raw_get.
    destruct (truthy_opt truthy_int (MultiUsersSelect_max_selected_items self));
      other_key; reflexivity.
  - intros self. unfold MultiUsersSelect._resolve, Text.resolve_attr.
    destruct (MultiUsersSelect_placeholder self) as [t |]; simpl; split;
      intros H; try discriminate; eauto.
    destruct H as [d H]. discriminate.
Qed.

Lemma selectors_keep_confirm_unresolved_witness :
  let broken := mkConfirm None None None None in
  let users :=
    mkMultiUsersSelect "u" None (Some (coerced "Who" true)) None (Some broken) in
  Confirm._resolve broken
  = Raise (AttributeError "'NoneType' object has no attribute '_resolve'")
  /\ (exists d, MultiUsersSelect._resolve users = Ok d)
  /\ dict_get
       [("type", VStr "multi_users_select");
        ("placeholder", plain_text_payload "Who"); ("action_id", VStr "u");
        ("confirm", VObject broken)]
       "confirm"
     = Some (VObject broken).
Proof.
  intros broken users.
  destruct selectors_keep_confirm_unresolved as [_ [Hraw Hiff]].
  split; [reflexivity |]. split.
  - apply Hiff. reflexivity.
  - apply (Hraw users). reflexivity.
Defined.

(** ** Pickers *)

Lemma Confirm_set_resolved_iff (d : dict) (o : option Confirm) :
  (exists d', Confirm.set_resolved d o = Ok d') <-> Confirm_resolves o.
Proof.
  unfold Confirm.set_resolved, Confirm_resolves.
  destruct o as [c |]; [| split; eauto].
  split.
  - intros [d' H]. bind_inv H. eauto.
  - intros [r Hr]. rewrite Hr. simpl. eauto.
Qed.

(** Every number below the bound passes a test that passes on the whole
    range. *)
Lemma forallb_below (P : nat -> bool) (bound : nat) :
  forallb P (seq 0 bound) = true -> forall n, n < bound -> P n = true.
Proof.
  intros H n Hn. rewrite forallb_forall in H. apply H. apply in_seq. lia.
Qed.

Lemma two_digits_number (n : nat) :
  n < 100 ->
  String.length (two_digits n) = 2 /\ number (two_digits n) = Some n.
Proof.
  intros Hn. split; [reflexivity |].
  pose (P := fun k => match number (two_digits k) with
                      | Some m => Nat.eqb m k
                      | None => false
                      end).
  assert (H : P n = true).
  { apply (forallb_below P 100); [vm_compute; reflexivity | exact Hn]. }
  unfold P in H. destruct (number (two_digits n)) as [m |]; [| discriminate].
  apply Nat.eqb_eq in H. now subst.
Qed.

Lemma decimal_year (n : nat) :
  1 <= n < 100 * 100 ->
  number (decimal n) = Some n
  /\ String.get 0 (decimal n) <> Some "0"%char
  /\ (1000 <= n -> String.length (decimal n) = 4).
Proof.
  intros Hn.
  pose (P := fun k =>
               Nat.eqb k 0
               || (match number (decimal k) with
                   | Some m => Nat.eqb m k
                   | None => false
                   end
                   && match String.get 0 (decimal k) with
                      | Some c => negb (Ascii.eqb c "0")
                      | None => false
                      end
                   && (Nat.ltb k 1000
                       || Nat.eqb (String.length (decimal k)) 4))).
  assert (H : P n = true).
  { apply (forallb_below P (100 * 100)); [vm_compute; reflexivity | lia]. }
  unfold P in H. clear P. apply orb_true_iff in H. destruct H as [H | H].
  { apply Nat.eqb_eq in H. lia. }
  apply andb_true_iff in H. destruct H as [H Hlen].
  apply andb_true_iff in H. destruct H as [Hnum Hfirst].
  split; [| split].
  - destruct (number (decimal n)) as [m |]; [| discriminate].
    apply Nat.eqb_eq in Hnum. now subst.
  - destruct (String.get 0 (decimal n)) as [c |]; [| discriminate].
    intros Hc. injection Hc as ->. discriminate.
  - intros Hbig. apply orb_true_iff in Hlen. destruct Hlen as [Hlt | Hlen].
    + apply Nat.ltb_lt in Hlt. lia.
    + now apply Nat.eqb_eq.
Qed.

(** The time picker resolves exactly when its placeholder is set and its
    dialog, if any, resolves; the date picker needs no placeholder and
    resolves exactly when its dialog, if any, resolves.  The initial time is
    written as hour, colon, minute, each with two digits; the initial date as
    year, hyphen, month, hyphen, day, the month and the day with two digits
    and the year in decimal without a leading zero, hence with four digits
    from the year 1000 on. *)
Theorem pickers_resolve_iff :
  (forall self : TimePicker,
      ((exists d, TimePicker._resolve self = Ok d)
       <-> present (TimePicker_placeholder self) = true
           /\ Confirm_resolves (TimePicker_confirm self))
      /\ (forall d,
             TimePicker._resolve self = Ok d ->
             dict_get d "initial_time"
             = match TimePicker_initial_time self with
               | Some t => Some (VStr (strftime_H_M t))
               | None => None
               end))
  /\ (forall self : DatePicker,
         ((exists d, DatePicker._resolve self = Ok d)
          <-> Confirm_resolves (DatePicker_confirm self))
         /\ (forall d,
                DatePicker._resolve self = Ok d ->
                dict_get d "placeholder"
                = emitted_Text (DatePicker_placeholder self)
                /\ dict_get d "initial_date"
                   = match DatePicker_initial_date self with
                     | Some t => Some (VStr (strftime_Y_m_d t))
                     | None => None
                     end))
  /\ (forall t : time,
         time_in_range t ->
         exists hh mm,
           strftime_H_M t = hh ++ ":" ++ mm
           /\ String.length hh = 2 /\ number hh = Some (hour t)
           /\ String.length mm = 2 /\ number mm = Some (minute t))
  /\ (forall d : datetime,
         date_in_range d ->
         exists yyyy mm dd,
           strftime_Y_m_d d = yyyy ++ "-" ++ mm ++ "-" ++ dd
           /\ number yyyy = Some (year d)
           /\ String.get 0 yyyy <> Some "0"%char
           /\ (1000 <= year d -> String.length yyyy = 4)
           /\ String.length mm = 2 /\ number mm = Some (month d)
           /\ String.length dd = 2 /\ number dd = Some (day d)).
Proof.
  split; [| split; [| split]].
  - intros self; split.
    + unfold TimePicker._resolve, Text.resolve_attr.
      destruct (TimePicker_placeholder self) as [t |]; simpl.
      * rewrite Confirm_set_resolved_iff. tauto.
      * split; [intros [d H]; discriminate | intros [H _]; discriminate].
    + intros d H. unfold TimePicker._resolve in H. bind_inv H.
      rewrite (Confirm_set_resolved_other _ _ _ "initial_time" H)
        by discriminate.
      destruct (TimePicker_initial_time self); reflexivity.
  - intros self; split.
    + unfold DatePicker._resolve. apply Confirm_set_resolved_iff.
    + intros d H. unfold DatePicker._resolve in H.
      rewrite (Confirm_set_resolved_other _ _ _ "placeholder" H)
        by discriminate.
      rewrite (Confirm_set_resolved_other _ _ _ "initial_date" H)
        by discriminate.
      destruct (DatePicker_placeholder self);
        destruct (DatePicker_initial_date self); split; reflexivity.
  - intros t [Hh Hm].
    destruct (two_digits_number (hour t)) as [Hl1 Hn1]; [lia |].
    destruct (two_digits_number (minute t)) as [Hl2 Hn2]; [lia |].
    exists (two_digits (hour t)), (two_digits (minute t)).
    repeat split; assumption.
  - intros d [Hy [Hm Hd]].
    destruct (decimal_year (year d) Hy) as [Hn0 [Hz Hl0]].
    destruct (two_digits_number (month d)) as [Hl1 Hn1]; [lia |].
    destruct (two_digits_number (day d)) as [Hl2 Hn2]; [lia |].
    exists (decimal (year d)), (two_digits (month d)), (two_digits (day d)).
    repeat split; assumption.
Qed.

(** A time picker without a placeholder does not resolve and a date picker
    without one does; five past nine is written ["09:05"], the seventh of
    March 2024 ["2024-03-07"] and the seventh of March 999 ["999-03-07"]. *)
Lemma pickers_resolve_iff_witness :
  TimePicker._resolve (mkTimePicker "t" None (Some (mk_time 9 5)) None)
  = Raise (AttributeError "'NoneType' object has no attribute '_resolve'")
  /\ DatePicker._resolve
       (mkDatePicker "d" None (Some (mk_datetime 2024 3 7)) None)
     = Ok [("type", VStr "datepicker"); ("action_id", VStr "d");
           ("initial_date", VStr "2024-03-07")]
  /\ (exists d,
         DatePicker._resolve
           (mkDatePicker "d" None (Some (mk_datetime 2024 3 7)) None)
         = Ok d)
  /\ dict_get
       [("type", VStr "timepicker"); ("placeholder", plain_text_payload "When");
        ("action_id", VStr "t"); ("initial_time", VStr "09:05")]
       "initial_time"
     = Some (VStr (strftime_H_M (mk_time 9 5)))
  /\ strftime_Y_m_d (mk_datetime 999 3 7) = "999-03-07"
  /\ time_in_range (mk_time 9 5)
  /\ (exists hh mm,
         "09:05" = hh ++ ":" ++ mm
         /\ String.length hh = 2 /\ number hh = Some 9
         /\ String.length mm = 2 /\ number mm = Some 5)
  /\ date_in_range (mk_datetime 999 3 7)
  /\ (exists yyyy mm dd,
         "999-03-07" = yyyy ++ "-" ++ mm ++ "-" ++ dd
         /\ number yyyy = Some 999
         /\ String.get 0 yyyy <> Some "0"%char
         /\ (1000 <= 999 -> String.length yyyy = 4)
         /\ String.length mm = 2 /\ number mm = Some 3
         /\ String.length dd = 2 /\ number dd = Some 7).
Proof.
  destruct pickers_resolve_iff as [Ht [Hd [Htime Hdate]]].
  assert (Hrange : time_in_range (mk_time 9 5))
    by (unfold time_in_range; simpl; lia).
  assert (Hrange' : date_in_range (mk_datetime 999 3 7))
    by (unfold date_in_range; simpl; lia).
  split; [reflexivity |]. split; [reflexivity |].
  split; [| split; [| split; [reflexivity | split; [exact Hrange | split;
    [| split; [exact Hrange' |]]]]]].
  - apply (Hd (mkDatePicker "d" None (Some (mk_datetime 2024 3 7)) None)).
    exact I.
  - destruct (Ht (mkTimePicker "t" (Some (coerced "When" true))
                    (Some (mk_time 9 5)) None)) as [_ H].
    apply (H [("type", VStr "timepicker");
              ("placeholder", plain_text_payload "When");
              ("action_id", VStr "t"); ("initial_time", VStr "09:05")]).
    reflexivity.
  - exact (Htime (mk_time 9 5) Hrange).
  - exact (Hdate (mk_datetime 999 3 7) Hrange').
Defined.


(** ** Identity tokens of the block constructors *)

Lemma Block_init_spec (type_ : BlockType.t) (block_id : option string)
  (w : World) :
  Block.__init__ type_ block_id w
  = (Ok (mkBlock type_ (token_for block_id w)), after_draw block_id w).
Proof.
  unfold Block.__init__, token_for, after_draw.
  destruct block_id as [id |]; simpl; [destruct (truthy_str id) |]; reflexivity.
Qed.

Ltac run_init :=
  unfold pbind; rewrite Block_init_spec; unfold call, ret;
  repeat match goal with
         | |- context [match ?r with Ok _ => _ | Raise _ => _ end] =>
             destruct r; simpl
         | |- context [if ?b then _ else _] => destruct b; simpl
         | |- context [match ?x with Some _ => _ | None => _ end] =>
             destruct x; simpl
         | |- context [match ?x with OneElement _ => _ | ListOfElements _ => _ end] =>
             destruct x; simpl
         | |- context [match ?x with OfStr _ => _ | OfText _ => _ end] =>
             destruct x; simpl
         end.

(** Every block constructor, whether it then succeeds or raises, leaves the
    world [after_draw]: it draws exactly one token when the block id is
    absent or empty, and none when a non-empty block id is supplied. *)
Theorem block_constructors_draw_once (block_id : option string) (w : World) :
  (forall text fields accessory,
      snd (SectionBlock.__init__ text block_id fields accessory w)
      = after_draw block_id w)
  /\ snd (DividerBlock.__init__ block_id w) = after_draw block_id w
  /\ (forall image_url alt_text title,
         snd (ImageBlock.__init__ image_url alt_text title block_id w)
         = after_draw block_id w)
  /\ (forall elements,
         snd (ActionsBlock.__init__ elements block_id w)
         = after_draw block_id w)
  /\ (forall elements,
         snd (ContextBlock.__init__ elements block_id w)
         = after_draw block_id w)
  /\ (forall external_id source,
         snd (FileBlock.__init__ external_id source block_id w)
         = after_draw block_id w)
  /\ (forall text,
         snd (HeaderBlock.__init__ text block_id w) = after_draw block_id w)
  /\ (forall label element dispatch_action hint optional,
         snd (InputBlock.__init__ label element dispatch_action hint optional
                block_id w)
         = after_draw block_id w).
Proof.
  repeat split; intros.
  - unfold SectionBlock.__init__. run_init; reflexivity.
  - unfold DividerBlock.__init__. run_init; reflexivity.
  - unfold ImageBlock.__init__. run_init; reflexivity.
  - unfold ActionsBlock.__init__. run_init; reflexivity.
  - unfold ContextBlock.__init__. run_init; reflexivity.
  - unfold FileBlock.__init__. run_init; reflexivity.
  - unfold HeaderBlock.__init__. run_init; reflexivity.
  - unfold InputBlock.__init__. run_init; reflexivity.
Qed.

(** A block that a constructor returns stores the kind of its class and the
    token [token_for]: the supplied block id when it is not empty, otherwise
    the token drawn. *)
Theorem block_constructors_store_kind_and_token (block_id : option string)
  (w : World) :
  let stored kind := mkBlock kind (token_for block_id w) in
  (forall text fields accessory b,
      fst (SectionBlock.__init__ text block_id fields accessory w) = Ok b ->
      SectionBlock_super b = stored BlockType.SECTION)
  /\ (forall b,
         fst (DividerBlock.__init__ block_id w) = Ok b ->
         DividerBlock_super b = stored BlockType.DIVIDER)
  /\ (forall image_url alt_text title b,
         fst (ImageBlock.__init__ image_url alt_text title block_id w) = Ok b ->
         ImageBlock_super b = stored BlockType.IMAGE)
  /\ (forall elements b,
         fst (ActionsBlock.__init__ elements block_id w) = Ok b ->
         ActionsBlock_super b = stored BlockType.ACTIONS)
  /\ (forall elements b,
         fst (ContextBlock.__init__ elements block_id w) = Ok b ->
         ContextBlock_super b = stored BlockType.CONTEXT)
  /\ (forall external_id source b,
         fst (FileBlock.__init__ external_id source block_id w) = Ok b ->
         FileBlock_super b = stored BlockType.FILE)
  /\ (forall text b,
         fst (HeaderBlock.__init__ text block_id w) = Ok b ->
         HeaderBlock_super b = stored BlockType.HEADER)
  /\ (forall label element dispatch_action hint optional b,
         fst (InputBlock.__init__ label element dispatch_action hint optional
                block_id w) = Ok b ->
         InputBlock_super b = stored BlockType.INPUT).
Proof.
  intros stored. subst stored.
  repeat split; intros until b.
  - unfold SectionBlock.__init__. run_init; intros H; try discriminate;
      now injection H as <-.
  - unfold DividerBlock.__init__. run_init; intros H; try discriminate;
      now injection H as <-.
  - unfold ImageBlock.__init__. run_init; intros H; try discriminate;
      now injection H as <-.
  - unfold ActionsBlock.__init__. run_init; intros H; try discriminate;
      now injection H as <-.
  - unfold ContextBlock.__init__. run_init; intros H; try discriminate;
      now injection H as <-.
  - unfold FileBlock.__init__. run_init; intros H; try discriminate;
      now injection H as <-.
  - unfold HeaderBlock.__init__. run_init; intros H; try discriminate;
      now injection H as <-.
  - unfold InputBlock.__init__. run_init; intros H; try discriminate;
      now injection H as <-.
Qed.

Lemma block_constructors_store_kind_and_token_witness :
  exists b,
    fst (DividerBlock.__init__ (Some "") example_world) = Ok b
    /\ DividerBlock_super b = mkBlock BlockType.DIVIDER "uuid-".
Proof.
  eexists. split; [reflexivity |].
  destruct (block_constructors_store_kind_and_token (Some "") example_world)
    as [_ [H _]].
  apply (H (mkDividerBlock (mkBlock BlockType.DIVIDER "uuid-"))).
  reflexivity.
Defined.

(** When the source of tokens never repeats itself, a block built without
    a block id and any block built without one later, in a world that has
    drawn at least as many tokens from the same source, carry different
    block ids. *)
Theorem tokens_of_successive_blocks_differ (w w' w1 w2 : World)
  (type1 type2 : BlockType.t) (b1 b2 : Block) :
  (forall i j, uuid_source w i = uuid_source w j -> i = j) ->
  Block.__init__ type1 None w = (Ok b1, w1) ->
  uuid_source w' = uuid_source w ->
  (uuid_drawn w1 <= uuid_drawn w')%nat ->
  Block.__init__ type2 None w' = (Ok b2, w2) ->
  Block_block_id b1 <> Block_block_id b2.
Proof.
  intros Hinj H1 Hsrc Hle H2.
  rewrite Block_init_spec in H1, H2. simpl in H1, H2.
  injection H1 as <- <-. injection H2 as <- <-. simpl in *.
  rewrite Hsrc. intros Heq. apply Hinj in Heq. lia.
Qed.

Lemma replicate_length (n : nat) (c : ascii) :
  String.length (replicate n c) = n.
Proof. induction n; simpl; auto. Qed.

Lemma example_source_injective (i j : nat) :
  uuid_source example_world i = uuid_source example_world j -> i = j.
Proof.
  simpl. intros H. injection H as H.
  rewrite <- (replicate_length i "i"%char), <- (replicate_length j "i"%char).
  now rewrite H.
Qed.

Lemma tokens_of_successive_blocks_differ_witness :
  Block_block_id (mkBlock BlockType.DIVIDER "uuid-")
  <> Block_block_id (mkBlock BlockType.HEADER "uuid-i").
Proof.
  apply (tokens_of_successive_blocks_differ
           example_world (mkWorld (uuid_source example_world) 1)
           (mkWorld (uuid_source example_world) 1)
           (mkWorld (uuid_source example_world) 2)
           BlockType.DIVIDER BlockType.HEADER).
  - exact example_source_injective.
  - reflexivity.
  - reflexivity.
  - simpl. lia.
  - reflexivity.
Defined.

(** ** Blocks *)

Lemma firstn_2_set (d : dict) (k : string) (v a b : value) :
  firstn 2 d = [("type", a); ("block_id", b)] ->
  "type" <> k -> "block_id" <> k ->
  firstn 2 (dict_set d k v) = [("type", a); ("block_id", b)].
Proof.
  intros H Ht Hb.
  destruct d as [| [k1 v1] [| [k2 v2] rest]]; simpl in H; try discriminate.
  injection H as -> -> -> ->.
  apply String.eqb_neq in Ht. apply String.eqb_neq in Hb.
  cbn [dict_set]. rewrite Ht. cbn [dict_set]. rewrite Hb. reflexivity.
Qed.

Lemma firstn_2_set_if_truthy {A : Type} (t : A -> bool) (inj : A -> value)
  (d : dict) (k : string) (o : option A) (a b : value) :
  firstn 2 d = [("type", a); ("block_id", b)] ->
  "type" <> k -> "block_id" <> k ->
  firstn 2 (set_if_truthy t inj d k o) = [("type", a); ("block_id", b)].
Proof.
  intros H Ht Hb. unfold set_if_truthy.
  destruct o as [x |]; auto. destruct (t x); auto.
  now apply firstn_2_set.
Qed.

Ltac prefix_kept :=
  repeat first
    [ apply firstn_2_set; [| discriminate | discriminate]
    | apply firstn_2_set_if_truthy; [| discriminate | discriminate] ];
  try reflexivity.

(** Every resolved block starts with its [type] and its [block_id], in this
    order, before the fields of its kind. *)
Theorem resolved_block_prefix (b : AnyBlock) (d : dict) :
  Blocks._resolve b = Ok d ->
  firstn 2 d
  = [("type", VStr (BlockType.value (Block_type (Blocks.super b))));
     ("block_id", VStr (Block_block_id (Blocks.super b)))].
Proof.
  destruct b as [x | x | x | x | x | x | x | x]; simpl; intros H.
  - unfold SectionBlock._resolve in H. bind_inv H.
    assert (Hsec : firstn 2 a
                   = [("type", VStr (BlockType.value
                                       (Block_type (SectionBlock_super x))));
                      ("block_id", VStr (Block_block_id
                                           (SectionBlock_super x)))]).
    { destruct (SectionBlock_fields x) as [fields |].
      - destruct (truthy_list fields).
        + bind_inv Ha. injection Ha as <-. prefix_kept.
        + injection Ha as <-. prefix_kept.
      - injection Ha as <-. prefix_kept. }
    destruct (SectionBlock_accessory x) as [acc |].
    + bind_inv H. injection H as <-. now prefix_kept.
    + now injection H as <-.
  - now injection H as <-.
  - injection H as <-. unfold ImageBlock._resolve. simpl. prefix_kept.
  - unfold ActionsBlock._resolve in H.
    destruct (ActionsBlock_elements x); [| discriminate].
    bind_inv H. injection H as <-. prefix_kept.
  - unfold ContextBlock._resolve in H.
    bind_inv H. injection H as <-. prefix_kept.
  - injection H as <-. unfold FileBlock._resolve. prefix_kept.
  - injection H as <-. unfold HeaderBlock._resolve. prefix_kept.
  - unfold InputBlock._resolve in H.
    bind_inv H. bind_inv H. injection H as <-. prefix_kept.
Qed.

Lemma resolved_block_prefix_witness :
  firstn 2
    [("type", VStr "header"); ("block_id", VStr "uuid-");
     ("text", plain_text_payload "Title")]
  = [("type", VStr "header"); ("block_id", VStr "uuid-")].
Proof.
  apply (resolved_block_prefix
           (IsHeaderBlock
              (mkHeaderBlock (mkBlock BlockType.HEADER "uuid-")
                 (coerced "Title" true)))).
  reflexivity.
Defined.

Lemma to_text_truthy_not_None (field : option str_or_Text)
  (force_plaintext : bool) (max_length : option Z) :
  truthy_opt Text.truthy field = true ->
  Text.to_text field force_plaintext max_length <> Ok None.
Proof.
  destruct field as [x |]; [| discriminate]. simpl. intros Hx H.
  unfold Text.to_text in H. rewrite Hx in H. simpl in H.
  destruct x; bind_inv H; destruct a; discriminate.
Qed.

Lemma coerce_fields_all_present (fields : list (option str_or_Text))
  (fs : list (option Text)) :
  SectionBlock.coerce_fields fields = Ok fs ->
  Forall (fun f => present f = true) fs.
Proof.
  revert fs. induction fields as [| field rest IH]; intros fs H; simpl in H.
  - injection H as <-. constructor.
  - destruct (truthy_opt Text.truthy field) eqn:Htr.
    + bind_inv H. bind_inv H. injection H as <-.
      constructor; [| now apply IH].
      destruct a as [t |]; [reflexivity |].
      exfalso. eapply to_text_truthy_not_None; eauto.
    + now apply IH.
Qed.

Lemma resolve_present_fields (fs : list (option Text)) :
  Forall (fun f => present f = true) fs ->
  exists l, comprehension Text.resolve_attr fs = Ok l.
Proof.
  intros H. apply comprehension_total.
  eapply Forall_impl; [| exact H].
  intros [t |] Hp; [| discriminate]. unfold Text.resolve_attr. simpl. eauto.
Qed.

(** A section that the constructor returns resolves exactly when its
    accessory, if any, resolves: the text and the fields it stores were all
    coerced to [Text] nodes, the empty fields having been dropped. *)
Theorem SectionBlock_built_resolves (text : option str_or_Text)
  (block_id : option string) (fields : option (list (option str_or_Text)))
  (accessory : option Element) (w : World) (b : SectionBlock) :
  fst (SectionBlock.__init__ text block_id fields accessory w) = Ok b ->
  ((exists d, SectionBlock._resolve b = Ok d) <-> Element_resolves accessory)
  /\ (forall d,
         SectionBlock._resolve b = Ok d ->
         dict_get d "text" = emitted_Text (SectionBlock_text b)).
Proof.
  intros Hinit.
  assert (Hb : SectionBlock_accessory b = accessory
               /\ match SectionBlock_fields b with
                  | Some fs => Forall (fun f => present f = true) fs
                  | None => True
                  end).
  { unfold SectionBlock.__init__, pbind in Hinit.
    rewrite Block_init_spec in Hinit. unfold call, ret in Hinit.
    destruct (Text.to_text text false (Some 2000%Z)); [| discriminate].
    destruct (negb (truthy_opt truthy_list fields)).
    - injection Hinit as <-. simpl. auto.
    - destruct fields as [l |].
      + destruct (SectionBlock.coerce_fields l) as [fs |] eqn:Hfs;
          [| discriminate].
        injection Hinit as <-. simpl. split; auto.
        eapply coerce_fields_all_present; eauto.
      + injection Hinit as <-. simpl. auto. }
  destruct Hb as [Hacc Hfields].
  assert (Hmid : exists section,
             (match SectionBlock_fields b with
              | Some fields =>
                  if truthy_list fields then
                    l <- comprehension Text.resolve_attr fields ;;
                    Ok (dict_set
                          (set_if_truthy truthy_obj
                             (fun t => VDict (Text._resolve t))
                             (Block._attributes (SectionBlock_super b))
                             "text" (SectionBlock_text b))
                          "fields" (VList l))
                  else Ok (set_if_truthy truthy_obj
                             (fun t => VDict (Text._resolve t))
                             (Block._attributes (SectionBlock_super b))
                             "text" (SectionBlock_text b))
              | None => Ok (set_if_truthy truthy_obj
                              (fun t => VDict (Text._resolve t))
                              (Block._attributes (SectionBlock_super b))
                              "text" (SectionBlock_text b))
              end) = Ok section
             /\ dict_get section "text" = emitted_Text (SectionBlock_text b)).
  { destruct (SectionBlock_fields b) as [fs |].
    - destruct (truthy_list fs).
      + destruct (resolve_present_fields fs Hfields) as [l Hl].
        rewrite Hl. simpl. eexists. split; [reflexivity |].
        rewrite dict_get_set_other by discriminate.
        destruct (SectionBlock_text b); reflexivity.
      + eexists. split; [reflexivity |].
        destruct (SectionBlock_text b); reflexivity.
    - eexists. split; [reflexivity |].
      destruct (SectionBlock_text b); reflexivity. }
  destruct Hmid as [section [Hsection Htext]].
  unfold SectionBlock._resolve. rewrite Hsection, Hacc.
  cbv beta iota delta [bind].
  destruct accessory as [e |]; simpl.
  - split.
    + split.
      * intros [d H]. destruct (Elements._resolve e); [eauto | discriminate].
      * intros [r Hr]. rewrite Hr. eauto.
    + intros d H. destruct (Elements._resolve e); [| discriminate].
      injection H as <-. now rewrite dict_get_set_other by discriminate.
  - split; [split; eauto |].
    intros d H. now injection H as <-.
Qed.

Lemma SectionBlock_built_resolves_witness :
  exists d,
    SectionBlock._resolve
      (mkSectionBlock (mkBlock BlockType.SECTION "uuid-")
         (Some (coerced "Hello *world*" false))
         (Some [Some (coerced "left" false)]) None)
    = Ok d.
Proof.
  apply (SectionBlock_built_resolves (Some (OfStr "Hello *world*")) None
           (Some [Some (OfStr "left"); Some (OfStr ""); None]) None
           example_world).
  - reflexivity.
  - exact I.
Defined.

Lemma Text_resolve_plaintext (t : Text) :
  Text_text_type t = TextType.PLAINTEXT ->
  VDict (Text._resolve t) = plain_text_payload (Text_text t).
Proof.
  intros H. unfold Text._resolve. rewrite H. reflexivity.
Qed.

Lemma ImageBlock_resolve_fields (b : ImageBlock) :
  dict_get (ImageBlock._resolve b) "title"
  = Some (VDict (Text._resolve (ImageBlock_title b)))
  /\ dict_get (ImageBlock._resolve b) "image_url"
     = Some (VStr (ImageBlock_image_url b))
  /\ dict_get (ImageBlock._resolve b) "alt_text"
     = Some (of_opt_str (ImageBlock_alt_text b)).
Proof. repeat split. Qed.

(** The image block is built for every argument and always shows a
    plain-text title: a markdown title is re-typed with its content kept, and
    an absent or empty title becomes a single space. *)
Theorem ImageBlock_title_is_plain_text (image_url : string)
  (alt_text : option string) (title : option str_or_Text)
  (block_id : option string) (w : World) :
  exists b,
    fst (ImageBlock.__init__ image_url alt_text title block_id w) = Ok b
    /\ Text_text_type (ImageBlock_title b) = TextType.PLAINTEXT
    /\ Text_text (ImageBlock_title b) = shown_title title
    /\ dict_get (ImageBlock._resolve b) "title"
       = Some (plain_text_payload (shown_title title))
    /\ dict_get (ImageBlock._resolve b) "image_url" = Some (VStr image_url)
    /\ dict_get (ImageBlock._resolve b) "alt_text" = Some (of_opt_str alt_text).
Proof.
  unfold ImageBlock.__init__, pbind. rewrite Block_init_spec.
  unfold ret, shown_title.
  assert (Hfinish : forall b : ImageBlock,
             Text_text_type (ImageBlock_title b) = TextType.PLAINTEXT ->
             dict_get (ImageBlock._resolve b) "title"
             = Some (plain_text_payload (Text_text (ImageBlock_title b)))).
  { intros b Hty. rewrite (proj1 (ImageBlock_resolve_fields b)).
    now rewrite (Text_resolve_plaintext _ Hty). }
  destruct title as [[s | t] |]; cbn [Text.truthy truthy_obj content_of].
  - destruct (truthy_str s); eexists; (split; [reflexivity |]);
      (split; [reflexivity |]); (split; [reflexivity |]);
      (split; [apply Hfinish; reflexivity |]); split; reflexivity.
  - destruct (Text_text_type t) eqn:E; cbn [TextType.eqb];
      eexists; (split; [reflexivity |]); cbn [fst ImageBlock_title].
    + (split; [reflexivity |]); (split; [reflexivity |]);
        (split; [apply Hfinish; reflexivity |]); split; reflexivity.
    + (split; [exact E |]); (split; [reflexivity |]);
        (split; [apply Hfinish; exact E |]); split; reflexivity.
  - eexists; (split; [reflexivity |]);
      (split; [reflexivity |]); (split; [reflexivity |]);
      (split; [apply Hfinish; reflexivity |]); split; reflexivity.
Qed.

(** An input block resolves exactly when its label is set and its element
    resolves; the mapping then holds the resolved label and element, the two
    flags, and the hint only when one is set. *)
Theorem InputBlock_resolve_iff (self : InputBlock) :
  ((exists d, InputBlock._resolve self = Ok d)
   <-> present (InputBlock_label self) = true
       /\ exists r, Elements._resolve (InputBlock_element self) = Ok r)
  /\ (forall d,
         InputBlock._resolve self = Ok d ->
         dict_get d "label" = emitted_Text (InputBlock_label self)
         /\ (exists r,
                Elements._resolve (InputBlock_element self) = Ok r
                /\ dict_get d "element" = Some (VDict r))
         /\ dict_get d "dispatch_action"
            = Some (VBool (InputBlock_dispatch_action self))
         /\ dict_get d "optional" = Some (VBool (InputBlock_optional self))
         /\ dict_get d "hint" = emitted_Text (InputBlock_hint self)).
Proof.
  unfold InputBlock._resolve, Text.resolve_attr. split.
  - destruct (InputBlock_label self) as [t |]; simpl.
    + destruct (Elements._resolve (InputBlock_element self)) as [r | e]; simpl.
      * split; eauto.
      * split; [intros [d H]; discriminate | intros [_ [r H]]; discriminate].
    + split; [intros [d H]; discriminate | intros [H _]; discriminate].
  - intros d H.
    destruct (InputBlock_label self) as [t |]; [| discriminate]. simpl in H.
    destruct (Elements._resolve (InputBlock_element self)) as [r | e];
      [| discriminate].
    simpl in H. injection H as <-.
    destruct (InputBlock_hint self) as [h |];
      repeat split; try reflexivity; exists r; split; reflexivity.
Qed.

Lemma InputBlock_resolve_iff_witness :
  (exists d, InputBlock._resolve name_input = Ok d)
  /\ ~ (exists d,
           InputBlock._resolve
             (mkInputBlock (mkBlock BlockType.INPUT "b2") None
                (IsTextInput (mkTextInput "t1" None None false None None None))
                false false None)
           = Ok d).
Proof.
  split.
  - apply (InputBlock_resolve_iff name_input). split; [reflexivity |].
    simpl. eauto.
  - intros H. apply InputBlock_resolve_iff in H. destruct H as [H _].
    discriminate H.
Defined.

(** ** Blocks that hold elements *)

Lemma resolve_all_elements (elements : list Element) (v : value) :
  Elements.resolve_all elements = Ok v ->
  exists l,
    v = VList l
    /\ Forall2 (fun e x => exists r, Elements._resolve e = Ok r /\ x = VDict r)
         elements l.
Proof.
  unfold Elements.resolve_all. intros H. bind_inv H. injection H as <-.
  exists a. split; [reflexivity |].
  apply comprehension_Ok in Ha.
  eapply Forall2_impl; [| exact Ha].
  intros e x Hx. simpl in Hx. bind_inv Hx. injection Hx as <-. eauto.
Qed.

(** An actions block given one element stores the one-element list, so
    [ActionsBlock(e)] and [ActionsBlock([e])] are the same block; given no
    elements it is built but never resolves; and when it resolves, [elements]
    holds the resolved elements one for one, in order. *)
Theorem ActionsBlock_stores_elements (block_id : option string) (w : World) :
  (forall e,
      ActionsBlock.__init__ (Some (OneElement e)) block_id w
      = ActionsBlock.__init__ (Some (ListOfElements [e])) block_id w)
  /\ (exists b,
         fst (ActionsBlock.__init__ None block_id w) = Ok b
         /\ ActionsBlock._resolve b
            = Raise (AttributeError
                       "'ActionsBlock' object has no attribute 'elements'"))
  /\ (forall b d,
         ActionsBlock._resolve b = Ok d ->
         exists elements l,
           ActionsBlock_elements b = Some elements
           /\ dict_get d "elements" = Some (VList l)
           /\ Forall2
                (fun e x => exists r, Elements._resolve e = Ok r /\ x = VDict r)
                elements l).
Proof.
  split; [| split].
  - intros e. unfold ActionsBlock.__init__, pbind.
    rewrite Block_init_spec. reflexivity.
  - unfold ActionsBlock.__init__, pbind. rewrite Block_init_spec.
    eexists. split; reflexivity.
  - intros b d H. unfold ActionsBlock._resolve in H.
    destruct (ActionsBlock_elements b) as [elements |]; [| discriminate].
    bind_inv H. injection H as <-.
    destruct (resolve_all_elements _ _ Ha) as [l [-> Hl]].
    exists elements, l. split; [reflexivity |].
    split; [reflexivity | exact Hl].
Qed.

Lemma ActionsBlock_stores_elements_witness :
  exists elements l,
    ActionsBlock_elements
      (mkActionsBlock (mkBlock BlockType.ACTIONS "a1") (Some [context_button]))
    = Some elements
    /\ dict_get
         [("type", VStr "actions"); ("block_id", VStr "a1");
          ("elements",
           VList [VDict [("type", VStr "button");
                         ("text", plain_text_payload "Go");
                         ("action_id", VStr "go")]])]
         "elements"
       = Some (VList l)
    /\ Forall2
         (fun e x => exists r, Elements._resolve e = Ok r /\ x = VDict r)
         elements l.
Proof.
  destruct (ActionsBlock_stores_elements None example_world) as [_ [_ H]].
  apply (H (mkActionsBlock (mkBlock BlockType.ACTIONS "a1")
              (Some [context_button]))).
  reflexivity.
Defined.

Lemma allowed_resolves (e : Element) :
  Text_or_Image e -> exists r, Elements._resolve e = Ok r.
Proof.
  destruct e; simpl; intros H; try contradiction; eauto.
Qed.

(** A context block is built exactly when every element is a Text or an
    Image and there are at most ten of them, none included; it then holds the
    elements in the order given and always resolves, with one resolved entry
    per element.  Without a list of elements the constructor raises
    [TypeError]. *)
Theorem ContextBlock_built_iff (elements : list Element)
  (block_id : option string) (w : World) :
  ((exists b, fst (ContextBlock.__init__ (Some elements) block_id w) = Ok b)
   <-> Forall Text_or_Image elements /\ (List.length elements <= 10)%nat)
  /\ (forall b,
         fst (ContextBlock.__init__ (Some elements) block_id w) = Ok b ->
         ContextBlock_elements b = elements
         /\ exists d l,
              ContextBlock._resolve b = Ok d
              /\ dict_get d "elements" = Some (VList l)
              /\ List.length l = List.length elements)
  /\ fst (ContextBlock.__init__ None block_id w)
     = Raise (TypeError "'NoneType' object is not iterable").
Proof.
  destruct (ContextBlock_init_outcome elements block_id w) as [id Hout].
  assert (Hiff : forall b,
             fst (ContextBlock.__init__ (Some elements) block_id w) = Ok b ->
             Forall Text_or_Image elements
             /\ (List.length elements <= 10)%nat
             /\ ContextBlock_elements b = elements).
  { intros b Hb. rewrite Hout in Hb.
    destruct (Forall_Exists_dec Text_or_Image
                (fun e => match e as e0
                                return ({Text_or_Image e0} + {~ Text_or_Image e0})
                          with
                          | IsText _ | IsImage _ => left I
                          | _ => right (fun H => H)
                          end) elements) as [Hall | Hex].
    - rewrite (collect_all_allowed elements [] Hall) in Hb. simpl in Hb.
      destruct (Nat.ltb_spec 10 (List.length elements)); [discriminate |].
      injection Hb as <-. simpl. repeat split; auto.
    - rewrite (collect_some_refused elements [] Hex) in Hb. discriminate. }
  split; [| split].
  - split.
    + intros [b Hb]. destruct (Hiff b Hb) as [H1 [H2 _]]. auto.
    + intros [Hall Hlen].
      destruct (ContextBlock_init_count elements block_id w Hall) as [_ H].
      destruct (H Hlen) as [super Hs]. eauto.
  - intros b Hb. destruct (Hiff b Hb) as [Hall [_ Hels]].
    split; [assumption |].
    unfold ContextBlock._resolve. rewrite Hels.
    destruct (comprehension_total
                (fun e => r <- Elements._resolve e ;; Ok (VDict r)) elements)
      as [l Hl].
    { eapply Forall_impl; [| exact Hall].
      intros e He. destruct (allowed_resolves e He) as [r Hr].
      rewrite Hr. simpl. eauto. }
    unfold Elements.resolve_all. rewrite Hl. simpl.
    eexists. exists l. split; [reflexivity |].
    split; [reflexivity |].
    apply comprehension_Ok_all in Hl. tauto.
  - unfold ContextBlock.__init__, pbind. rewrite Block_init_spec. reflexivity.
Qed.

Lemma ContextBlock_built_iff_witness :
  (exists b, fst (ContextBlock.__init__ (Some []) None example_world) = Ok b)
  /\ ~ (exists b,
           fst (ContextBlock.__init__ (Some [context_button]) None example_world)
           = Ok b).
Proof.
  split.
  - apply (ContextBlock_built_iff [] None example_world).
    split; [constructor | simpl; lia].
  - intros H. apply ContextBlock_built_iff in H. destruct H as [H _].
    inversion H as [| ? ? Hb _]. exact Hb.
Defined.


(** ** The type tag of the elements *)

Lemma hd_error_of_key (d : dict) (k : string) (v : value) :
  hd_error (keys d) = Some k -> dict_get d k = Some v ->
  hd_error d = Some (k, v).
Proof.
  destruct d as [| [k' v'] rest]; simpl; [discriminate |].
  intros H. injection H as ->. rewrite String.eqb_refl.
  intros H. now injection H as ->.
Qed.

Lemma set_choices_other (element element' : dict) (self : StaticSelect)
  (k : string) :
  StaticSelect.set_choices element self = Ok element' ->
  "options" <> k -> "option_group" <> k ->
  dict_get element' k = dict_get element k.
Proof.
  unfold StaticSelect.set_choices. intros H H1 H2.
  destruct (truthy_opt truthy_list (StaticSelect_options self)).
  - destruct (StaticSelect_options self).
    + bind_inv H. injection H as <-. now apply dict_get_set_other.
    + now injection H as <-.
  - destruct (StaticSelect_option_group self).
    + bind_inv H. injection H as <-. now apply dict_get_set_other.
    + now injection H as <-.
Qed.

Lemma Confirm_set_raw_other (d : dict) (o : option Confirm) (k : string) :
  "confirm" <> k -> dict_get (Confirm.set_raw d o) k = dict_get d k.
Proof.
  intros Hk. unfold Confirm.set_raw. destruct o; auto.
  now apply dict_get_set_other.
Qed.

Lemma Element_resolve_type_value (e : Element) (d : dict) :
  Elements.type e <> ElementType.CONFIRM ->
  Elements._resolve e = Ok d ->
  dict_get d "type" = Some (VStr (type_tag e)).
Proof.
  destruct e as [x | x | x | x | x | x | x | x | x | x]; simpl; intros Hk H.
  - injection H as <-. apply Text_resolve_type_and_text.
  - now injection H as <-.
  - now contradiction Hk.
  - unfold Button._resolve in H. bind_inv H.
    rewrite (Confirm_set_resolved_other _ _ _ "type" H) by discriminate.
    now other_key.
  - injection H as <-. unfold TextInput._resolve. now other_key.
  - unfold StaticSelect._resolve in H. do 3 bind_inv H.
    rewrite (Confirm_set_resolved_other _ _ _ "type" H) by discriminate.
    rewrite (set_initial_option_other _ _ _ "type" Ha1) by discriminate.
    rewrite (set_choices_other _ _ _ "type" Ha0) by discriminate.
    now other_key.
  - unfold CheckboxSelector._resolve in H. do 2 bind_inv H.
    injection H as <-.
    rewrite Confirm_set_raw_other by discriminate.
    rewrite (CheckboxSelector_set_options_other _ _ _ "type" _ Ha0)
      by discriminate.
    rewrite (CheckboxSelector_set_options_other _ _ _ "type" _ Ha)
      by discriminate.
    reflexivity.
  - unfold MultiUsersSelect._resolve in H. bind_inv H. injection H as <-.
    rewrite Confirm_set_raw_other by discriminate.
    destruct (truthy_opt truthy_int (MultiUsersSelect_max_selected_items x));
      now other_key.
  - unfold TimePicker._resolve in H. bind_inv H.
    rewrite (Confirm_set_resolved_other _ _ _ "type" H) by discriminate.
    now other_key.
  - unfold DatePicker._resolve in H.
    rewrite (Confirm_set_resolved_other _ _ _ "type" H) by discriminate.
    now other_key.
Qed.

(** Every element but the confirmation dialog resolves to a mapping whose
    first entry is its type tag: the text type of a [Text], the element type
    of any other element. *)
Theorem Element_resolve_type_tag (e : Element) (d : dict) :
  Elements.type e <> ElementType.CONFIRM ->
  Elements._resolve e = Ok d ->
  hd_error d = Some ("type", VStr (type_tag e)).
Proof.
  intros Hk H. apply hd_error_of_key.
  - eapply Element_resolve_begins_with_type; eauto.
  - now apply Element_resolve_type_value.
Qed.

Lemma Element_resolve_type_tag_witness :
  hd_error
    [("type", VStr "button"); ("text", plain_text_payload "Go");
     ("action_id", VStr "go")]
  = Some ("type", VStr (type_tag context_button)).
Proof.
  apply (Element_resolve_type_tag context_button);
    [discriminate | reflexivity].
Defined.

(** ** Views *)

(** The attributes of a view that resolve hold, under [blocks], the resolved
    blocks one for one and in order (no entry is an integer); the external id
    and the callback id only when they are non-empty; and the private
    metadata, only when it is a non-empty dictionary, as the string that
    [json.dumps] returns for it. *)
Theorem BaseSlackView_attributes_sparse (dumps : dict -> Result string)
  (self : BaseSlackView) (d : dict) :
  BaseSlackView._attributes dumps self = Ok d ->
  hd_error d = Some ("type", VStr (SlackViewType.value (BaseSlackView_type self)))
  /\ (exists l,
         dict_get d "blocks" = Some (VList l)
         /\ Forall2
              (fun x v => exists b r,
                   x = ABlock b /\ Blocks._resolve b = Ok r /\ v = VDict r)
              (BaseSlackView_blocks self) l)
  /\ dict_get d "external_id" = emitted_str (BaseSlackView_external_id self)
  /\ dict_get d "callback_id" = emitted_str (BaseSlackView_callback_id self)
  /\ match BaseSlackView_private_metadata self with
     | Some m =>
         if truthy_list m
         then exists s, dumps m = Ok s
                        /\ dict_get d "private_metadata" = Some (VStr s)
         else dict_get d "private_metadata" = None
     | None => dict_get d "private_metadata" = None
     end.
Proof.
  intros H. unfold BaseSlackView._attributes in H. bind_inv H.
  assert (Hblocks : Forall2
                      (fun x v => exists b r,
                           x = ABlock b /\ Blocks._resolve b = Ok r
                           /\ v = VDict r)
                      (BaseSlackView_blocks self) a).
  { apply comprehension_Ok in Ha.
    eapply Forall2_impl; [| exact Ha].
    intros [b | z] v Hv; simpl in Hv; [| discriminate].
    bind_inv Hv. injection Hv as <-. eauto. }
  destruct (BaseSlackView_private_metadata self) as [m |].
  - destruct (truthy_list m).
    + bind_inv H. injection H as <-.
      destruct (BaseSlackView_external_id self) as [[| c1 s1] |];
        destruct (BaseSlackView_callback_id self) as [[| c2 s2] |];
        (split; [reflexivity |]);
        (split; [exists a; split; [reflexivity | exact Hblocks] |]);
        (split; [reflexivity |]); (split; [reflexivity |]);
        exists a0; split; auto.
    + injection H as <-.
      destruct (BaseSlackView_external_id self) as [[| c1 s1] |];
        destruct (BaseSlackView_callback_id self) as [[| c2 s2] |];
        (split; [reflexivity |]);
        (split; [exists a; split; [reflexivity | exact Hblocks] |]);
        repeat split.
  - injection H as <-.
    destruct (BaseSlackView_external_id self) as [[| c1 s1] |];
      destruct (BaseSlackView_callback_id self) as [[| c2 s2] |];
      (split; [reflexivity |]);
      (split; [exists a; split; [reflexivity | exact Hblocks] |]);
      repeat split.
Qed.

Lemma BaseSlackView_attributes_sparse_witness :
  dict_get [("type", VStr "home"); ("blocks", VList []);
            ("private_metadata", VStr "{}")] "callback_id"
  = emitted_str (Some "").
Proof.
  apply (BaseSlackView_attributes_sparse example_dumps
           (BaseSlackView.__init__ SlackViewType.HOME None
              (Some [("k", VInt 1)]) (Some "") None)).
  reflexivity.
Defined.

(** [a + b] is the list of the two blocks, and a home view over it resolves
    to the two resolved blocks in that order. *)
Theorem add_blocks_then_resolve (dumps : dict -> Result string)
  (a b : AnyBlock) (da db : dict) :
  Blocks._resolve a = Ok da ->
  Blocks._resolve b = Ok db ->
  HomeSlackView._resolve dumps
    (HomeSlackView.__init__ (Some (map ABlock (Blocks.__add__ a b)))
       None None None)
  = Ok [("type", VStr "home"); ("blocks", VList [VDict da; VDict db])].
Proof.
  intros Ha Hb. unfold HomeSlackView._resolve, HomeSlackView.__init__.
  unfold BaseSlackView._attributes. simpl. rewrite Ha, Hb. reflexivity.
Qed.

Lemma add_blocks_then_resolve_witness :
  let divider := IsDividerBlock (mkDividerBlock (mkBlock BlockType.DIVIDER "d1")) in
  let header :=
    IsHeaderBlock (mkHeaderBlock (mkBlock BlockType.HEADER "h1")
                     (coerced "Title" true)) in
  HomeSlackView._resolve example_dumps
    (HomeSlackView.__init__ (Some (map ABlock (Blocks.__add__ header divider)))
       None None None)
  = Ok [("type", VStr "home");
        ("blocks",
         VList [VDict [("type", VStr "header"); ("block_id", VStr "h1");
                       ("text", plain_text_payload "Title")];
                VDict [("type", VStr "divider"); ("block_id", VStr "d1")]])].
Proof.
  intros divider header.
  apply (add_blocks_then_resolve example_dumps header divider); reflexivity.
Defined.

(** ** The modal view *)

Lemma to_text_arg_cases (o : option string) (force_plaintext : bool) (m : Z) :
  (0 < m)%Z ->
  ((opt_len o <= m)%Z
   /\ exists r, Text.to_text (as_arg o) force_plaintext (Some m) = Ok r)
  \/ ((m < opt_len o)%Z
      /\ Text.to_text (as_arg o) force_plaintext (Some m)
         = Raise (InvalidUsageError Text.limit_message)).
Proof.
  intros Hm. destruct o as [s |]; simpl.
  - destruct (Z.le_gt_cases (str_len s) m) as [Hle | Hgt].
    + left. split; auto. now apply to_text_str_within_total.
    + right. split; [lia |].
      apply to_text_str_too_long; unfold str_len in Hgt; lia.
  - left. split; [lia | eauto].
Qed.

(** From strings, the modal is built exactly when the title, the close label
    and the submit label have at most 24 characters each; otherwise the
    constructor raises the usage error.  The blocks play no part. *)
Theorem ModalSlackView_init_limits (title : string)
  (close submit : option string) (blocks : option (list block_or_int))
  (private_metadata : option dict) (clear_on_close notify_on_close : option bool)
  (callback_id external_id : option string) :
  let construct :=
    ModalSlackView.__init__ (OfStr title) (as_arg close) (as_arg submit) blocks
      private_metadata clear_on_close notify_on_close callback_id external_id in
  let within :=
    (str_len title <= 24)%Z /\ (opt_len close <= 24)%Z
    /\ (opt_len submit <= 24)%Z in
  ((exists modal, construct = Ok modal) <-> within)
  /\ (~ within -> construct = Raise (InvalidUsageError Text.limit_message)).
Proof.
  intros construct within. subst construct within.
  unfold ModalSlackView.__init__. cbv beta iota zeta delta [bind].
  destruct (to_text_arg_cases (Some title) true 24%Z ltac:(lia))
    as [[H1 [r1 E1]] | [H1 E1]]; cbn [as_arg opt_len] in H1, E1;
    rewrite E1; cbv beta iota.
  2: { split; [split; [intros [c H]; discriminate | lia] | reflexivity]. }
  destruct (to_text_arg_cases close true 24%Z ltac:(lia))
    as [[H2 [r2 E2]] | [H2 E2]]; rewrite E2; cbv beta iota.
  2: { split; [split; [intros [c H]; discriminate | lia] | reflexivity]. }
  destruct (to_text_arg_cases submit true 24%Z ltac:(lia))
    as [[H3 [r3 E3]] | [H3 E3]]; rewrite E3; cbv beta iota.
  2: { split; [split; [intros [c H]; discriminate | lia] | reflexivity]. }
  split; [split; eauto | intros Hn; exfalso; apply Hn; auto].
Qed.

Lemma ModalSlackView_init_limits_witness :
  (exists modal,
      ModalSlackView.__init__ (OfStr "Settings") (as_arg None)
        (as_arg (Some "Save")) None None None None None None
      = Ok modal)
  /\ ModalSlackView.__init__ (OfStr (replicate 25 "T")) (as_arg None)
       (as_arg (Some "Save")) None None None None None None
     = Raise (InvalidUsageError Text.limit_message).
Proof.
  split.
  - apply (ModalSlackView_init_limits "Settings" None (Some "Save")
             None None None None None None).
    unfold opt_len, str_len. simpl. lia.
  - apply (ModalSlackView_init_limits (replicate 25 "T") None (Some "Save")
             None None None None None None).
    unfold opt_len, str_len. simpl. lia.
Defined.

Lemma attributes_keys (dumps : dict -> Result string) (self : BaseSlackView)
  (d : dict) :
  BaseSlackView._attributes dumps self = Ok d ->
  dict_get d "title" = None /\ dict_get d "submit" = None
  /\ dict_get d "close" = None /\ dict_get d "clear_on_close" = None
  /\ dict_get d "notify_on_close" = None.
Proof.
  intros H. unfold BaseSlackView._attributes in H. bind_inv H.
  destruct (BaseSlackView_private_metadata self) as [m |];
    [destruct (truthy_list m); [bind_inv H |] |];
    injection H as <-;
    destruct (BaseSlackView_external_id self) as [[| c1 s1] |];
    destruct (BaseSlackView_callback_id self) as [[| c2 s2] |];
    repeat split.
Qed.

Ltac lookup :=
  repeat first
    [ rewrite dict_get_set_same
    | rewrite dict_get_set_other by discriminate
    | rewrite dict_get_set_if_truthy_other by discriminate ].

(** A modal that resolves holds its title, and its submit and close labels
    when they are set; [clear_on_close] and [notify_on_close] are in the
    mapping only when they are [True], so a flag set to [False] is left out
    like an absent one. *)
Theorem ModalSlackView_resolve_sparse (dumps : dict -> Result string)
  (self : ModalSlackView) (d : dict) :
  ModalSlackView._resolve dumps self = Ok d ->
  dict_get d "title" = emitted_Text (ModalSlackView_title self)
  /\ present (ModalSlackView_title self) = true
  /\ dict_get d "submit" = emitted_Text (ModalSlackView_submit self)
  /\ dict_get d "close" = emitted_Text (ModalSlackView_close self)
  /\ dict_get d "clear_on_close"
     = emitted_flag (ModalSlackView_clear_on_close self)
  /\ dict_get d "notify_on_close"
     = emitted_flag (ModalSlackView_notify_on_close self).
Proof.
  intros H. unfold ModalSlackView._resolve in H. bind_inv H.
  destruct (attributes_keys _ _ _ Ha) as [K1 [K2 [K3 [K4 K5]]]].
  unfold Text.resolve_attr in H.
  destruct (ModalSlackView_title self) as [title |]; [| discriminate].
  simpl in H. bind_inv H. injection H as <-.
  assert (Hview : dict_get a0 "title" = Some (VDict (Text._resolve title))
                  /\ dict_get a0 "submit"
                     = emitted_Text (ModalSlackView_submit self)
                  /\ dict_get a0 "close" = None
                  /\ dict_get a0 "clear_on_close" = None
                  /\ dict_get a0 "notify_on_close" = None).
  { destruct (ModalSlackView_submit self) as [submit |].
    - injection Ha0 as <-. cbn [emitted_Text]. repeat split; lookup; auto.
    - destruct (existsb ModalSlackView.int_or_InputBlock
                  (BaseSlackView_blocks (ModalSlackView_super self)));
        [discriminate |].
      injection Ha0 as <-. cbn [emitted_Text]. repeat split; lookup; auto. }
  destruct Hview as [V1 [V2 [V3 [V4 V5]]]].
  destruct (ModalSlackView_close self) as [close |];
    destruct (ModalSlackView_clear_on_close self) as [[|] |];
    destruct (ModalSlackView_notify_on_close self) as [[|] |];
    cbn [set_if_truthy truthy_obj emitted_Text emitted_flag present];
    repeat split; lookup; auto.
Qed.

Lemma ModalSlackView_resolve_sparse_witness :
  dict_get
    [("type", VStr "modal");
     ("blocks",
      VList [VDict [("type", VStr "input"); ("block_id", VStr "b1");
                    ("label", plain_text_payload "Name");
                    ("element",
                     VDict [("type", VStr "plain_text_input");
                            ("action_id", VStr "t1");
                            ("multiline", VBool false)]);
                    ("dispatch_action", VBool false);
                    ("optional", VBool false)]]);
     ("title", plain_text_payload "T"); ("submit", plain_text_payload "Go")]
    "clear_on_close"
  = emitted_flag (Some false).
Proof.
  apply (ModalSlackView_resolve_sparse example_dumps
           (mkModalSlackView
              (mkBaseSlackView SlackViewType.MODAL
                 [ABlock (IsInputBlock name_input)] None None None)
              (Some (coerced "T" true)) None (Some (coerced "Go" true))
              (Some false) None)).
  reflexivity.
Defined.
